(** * GeoMagCpp: a shallow embedding of the IGRF field-synthesis engine

    The development follows the layout of the C++ sources:
    - [Model.hpp]: [ModelType], [Model], [ModelSet] (selection and the
      coefficient-stream reader);
    - [Igrf.hpp]: the engine [Igrf] (blending of two snapshots, the
      geodetic normalisation, the harmonic synthesis, the public call
      operator);
    - [GeoMagFlux.hpp]: the unit-scaling wrapper [GeoMagFlux].

    C++ [double] is IEEE-754 binary64 and is embedded as Rocq's primitive
    [float]; the trigonometric functions of the C library are parameters. *)

From Stdlib Require Import ZArith Floats String Ascii Bool Lia.
From stdpp Require Import base list.
From Equations Require Import Equations.

Set Warnings "-inexact-float".
Local Open Scope nat_scope.

(** ** Outcomes of a C++ call

    A call either returns, leaves by an exception ([what] is the message of
    the [std::runtime_error]), or performs an operation whose behaviour the
    language does not define (reading a container element out of range). *)

Inductive outcome (A : Type) : Type :=
| Returns (a : A)
| Throws (what : string)
| Undefined.
Arguments Returns {A} a.
Arguments Throws {A} what.
Arguments Undefined {A}.

Global Instance outcome_ret : MRet outcome := fun A a => Returns a.

Global Instance outcome_bind : MBind outcome := fun A B k x =>
  match x with
  | Returns a => k a
  | Throws w => Throws w
  | Undefined => Undefined
  end.

(** [try { body } catch (...) { }] followed by [rest]: an exception of the
    body is swallowed and the state before the body is kept. *)
Definition try_catch_all {S : Type} (s : S) (body : outcome S) : outcome S :=
  match body with
  | Throws _ => Returns s
  | o => o
  end.

(** ** IEEE-754 binary64 helpers *)

Module Double.

Definition is_zero (x : float) : bool :=
  match Prim2SF x with S754_zero _ => true | _ => false end.

(** Neither an infinity nor a NaN. *)
Definition is_finite (x : float) : bool :=
  match Prim2SF x with
  | S754_zero _ | S754_finite _ _ _ => true
  | _ => false
  end.

Definition is_nan (x : float) : bool :=
  match Prim2SF x with S754_nan => true | _ => false end.

(** Conversion of a C++ [int] or [std::size_t] to [double]. *)
Definition of_int (z : Z) : float :=
  if (z <? 0)%Z then (- of_uint63 (Uint63.of_Z (- z)))%float
  else of_uint63 (Uint63.of_Z z).

(** Equality of two doubles up to the sign of a zero. *)
Definition same (x y : float) : Prop :=
  x = y \/ (is_zero x = true /\ is_zero y = true).

End Double.

Global Instance float_inhabited : Inhabited float := populate 0%float.

(** [Eigen::Vector3d] with its product by a scalar. *)
Record Vector3d : Type := vector3d { v_x : float; v_y : float; v_z : float }.

Definition scale (v : Vector3d) (s : float) : Vector3d :=
  vector3d (v_x v * s) (v_y v * s) (v_z v * s).

(** ** Interfaces of code that lies outside the sources at hand *)

(** The calendar type of [DateTime.hpp]: the operations the engine uses. *)
Class DateTimeApi (DateTime : Type) : Type := {
  (** [DateTime()] *)
  dt_default : DateTime;
  (** [DateTime(int year, int month)], which may throw a
      [DateTimeException] *)
  dt_of_year_month : Z -> Z -> outcome DateTime;
  (** [operator<] *)
  dt_lt : DateTime -> DateTime -> bool;
  (** [year()], the calendar year as an [int] *)
  dt_year : DateTime -> Z;
  (** [fractionalYears()] *)
  dt_fractionalYears : DateTime -> float;
}.

(** The construction of a [DateTime] from the text of a timestamp, as the
    compiled-in table spells its epochs. *)
Class DateTimeText (DateTime : Type) : Type := {
  dt_of_text : string -> DateTime;
}.

(** [std::stoi] and [std::stod]: they throw [std::invalid_argument] when no
    conversion can be performed and [std::out_of_range] when the value does
    not fit. *)
Class StringConversions : Type := {
  stoi : string -> outcome Z;
  stod : string -> outcome float;
}.

(** [std::sin] and [std::cos] of the C library. *)
Class Libm : Type := {
  sin : float -> float;
  cos : float -> float;
}.

(** ** Model.hpp *)

Module ModelType.
Inductive t : Set :=
| Unknown | Dgrf | Igrf | Sv | Interpolated | Extrapolated.

Definition eqb (a b : t) : bool :=
  match a, b with
  | Unknown, Unknown | Dgrf, Dgrf | Igrf, Igrf | Sv, Sv
  | Interpolated, Interpolated | Extrapolated, Extrapolated => true
  | _, _ => false
  end.
End ModelType.

Module Model.
Definition max_degree : nat := 13.
Definition max_order : nat := 13.
Definition max_coefficient_size : nat := max_degree * (max_degree + 2) + 1.

Section WithDateTime.
Context {DateTime : Type} `{DateTimeApi DateTime}.

Record t : Type := make {
  epoch : DateTime;
  type : ModelType.t;
  coefficients : list float; (* std::array<double, max_coefficient_size> *)
}.

(** [Model()] *)
Definition default : t :=
  make dt_default ModelType.Unknown (replicate max_coefficient_size 0%float).

Definition set_epoch (e : DateTime) (m : t) : t :=
  make e (type m) (coefficients m).
Definition set_type (k : ModelType.t) (m : t) : t :=
  make (epoch m) k (coefficients m).
Definition set_coefficients (c : list float) (m : t) : t :=
  make (epoch m) (type m) c.
End WithDateTime.
Arguments t DateTime : clear implicits.
End Model.

(** [std::lower_bound] over the positions [first, first + len) of a
    sequence: halve the range, and keep the right half when the middle
    element compares below the value. *)
Section LowerBound.
Context {A T : Type} (comp : A -> T -> bool) (l : list A) (value : T).

Equations? lower_bound_from (first len : nat) : nat by wf len lt :=
  lower_bound_from first 0 := first;
  lower_bound_from first (S k) with l !! (first + S k / 2) => {
    | Some x :=
        if comp x value
        then lower_bound_from (first + S k / 2 + 1) (S k - S k / 2 - 1)
        else lower_bound_from first (S k / 2);
    | None := first (* not reached: the middle lies inside the range *) }.
Proof.
  all: change (Nat.divmod k 1 0 0).1 with (S k / 2);
    pose proof (Nat.div_lt (S k) 2 ltac:(lia) ltac:(lia)); lia.
Qed.

Definition lower_bound : nat := lower_bound_from 0 (length l).
End LowerBound.

(** ** Strings and streams: the parts of [std::string], [std::getline] and
    [std::istream_iterator<std::string>] the reader relies on *)

(** [s.find(pat)]: position of the first occurrence, [None] for [npos]. *)
Definition find (pat s : string) : option nat := String.index 0 pat s.

(** [s.substr(pos, count)] for [pos <= s.length()]: the count is clipped to
    the end of the string. *)
Definition substr (pos count : nat) (s : string) : string :=
  String.substring pos count s.

(** [std::isspace] in the C locale. *)
Definition isspace (c : ascii) : bool :=
  let k := nat_of_ascii c in (k =? 32) || ((9 <=? k) && (k <=? 13)).

Definition push_back (s : string) (c : ascii) : string :=
  String.append s (String c EmptyString).

Definition is_empty (s : string) : bool :=
  match s with EmptyString => true | _ => false end.

(** The words an [istream_iterator<std::string>] yields: maximal runs of
    characters that are not white space.  [cur] is the word being read. *)
Fixpoint words_from (cur s : string) : list string :=
  match s with
  | EmptyString => if is_empty cur then [] else [cur]
  | String c s' =>
      if isspace c
      then (if is_empty cur then words_from EmptyString s'
            else cur :: words_from EmptyString s')
      else words_from (push_back cur c) s'
  end.

Definition words (line : string) : list string := words_from EmptyString line.

(** The lines successive calls of [std::getline] yield until the call
    fails: a last line needs no newline, and nothing follows a final
    newline. *)
Fixpoint getlines_from (cur s : string) : list string :=
  match s with
  | EmptyString => if is_empty cur then [] else [cur]
  | String c s' =>
      if (nat_of_ascii c =? 10)
      then cur :: getlines_from EmptyString s'
      else getlines_from (push_back cur c) s'
  end.

Definition getlines (stream : string) : list string := getlines_from EmptyString stream.

(** A loop whose body may throw or be undefined. *)
Fixpoint for_each {S A : Type} (body : S -> A -> outcome S) (l : list A) (s : S)
  : outcome S :=
  match l with
  | [] => Returns s
  | a :: l' => s' ← body s a; for_each body l' s'
  end.

Module ModelFileRowType.
Inductive t : Set :=
| Unknown | Comment | ModelType | Epoch | GCoeffecient | HCoeffecient.
End ModelFileRowType.

Module ModelSet.
Section WithDateTime.
Context {DateTime : Type} `{DateTimeApi DateTime} `{StringConversions}.

Record t : Type := make { m_models : list (Model.t DateTime) }.

(** [ModelSet::select]: [it] is the position [std::lower_bound] returns;
    [*(it - 1)] is read without a test that [it] is not [begin()]. *)
Definition select (ms : t) (dt : DateTime)
  : outcome (Model.t DateTime * Model.t DateTime) :=
  match m_models ms with
  | [] => Throws "ModelSet is empty."
  | _ =>
      let it := lower_bound (fun m dt => dt_lt (Model.epoch m) dt) (m_models ms) dt in
      if it =? length (m_models ms)
      then Throws "ModelSet: no model is found."
      else
        match it with
        | 0 => Undefined
        | S before =>
            match m_models ms !! before, m_models ms !! it with
            | Some last, Some next => Returns (last, next)
            | _, _ => Undefined
            end
        end
  end.

Definition model_file_comment_header : string := "#".
Definition model_file_model_header : string := "c/s".
Definition model_file_epoch_header : string := "g/h".
Definition model_file_g_coeff_header : string := "g".
Definition model_file_h_coeff_header : string := "h".

Definition getModelFileRowType (line : string) : ModelFileRowType.t :=
  if is_empty line then ModelFileRowType.Unknown
  else if find model_file_comment_header line is Some _ then ModelFileRowType.Comment
  else if find model_file_model_header line is Some _ then ModelFileRowType.ModelType
  else if find model_file_epoch_header line is Some _ then ModelFileRowType.Epoch
  else if find model_file_g_coeff_header line is Some _ then ModelFileRowType.GCoeffecient
  else if find model_file_h_coeff_header line is Some _ then ModelFileRowType.HCoeffecient
  else ModelFileRowType.Unknown.

Definition getModelType (elem : string) : ModelType.t :=
  if String.eqb elem "DGRF" then ModelType.Dgrf
  else if String.eqb elem "IGRF" then ModelType.Igrf
  else if String.eqb elem "SV" then ModelType.Sv
  else ModelType.Unknown.

(** The model row: every word naming a model kind appends a fresh model of
    that kind. *)
Definition read_model_word (models : list (Model.t DateTime)) (elm : string)
  : list (Model.t DateTime) :=
  match getModelType elm with
  | ModelType.Unknown => models
  | type => models ++ [Model.set_type type Model.default]
  end.

(** The right-hand side of the assignment to [m_models[i].epoch]. *)
Definition epoch_of_word (elm : string) : outcome DateTime :=
  match find "-" elm with
  | Some range_bound =>
      let lower_range := substr 0 range_bound elm in
      let upper_range :=
        substr (range_bound + 1) (String.length elm - range_bound) elm in
      (* the count [lower_range.length() - upper_range.length()] is
         unsigned: when it wraps around, [substr] clips it to the whole of
         [lower_range] *)
      let count :=
        if String.length upper_range <=? String.length lower_range
        then String.length lower_range - String.length upper_range
        else String.length lower_range in
      year ← stoi (String.append (substr 0 count lower_range) upper_range);
      dt_of_year_month year 1
  | None =>
      year ← stoi elm;
      dt_of_year_month year 1
  end.

(** One word of the epoch row; the state is [(m_models, i)]. *)
Definition read_epoch_word (st : list (Model.t DateTime) * nat) (elm : string)
  : outcome (list (Model.t DateTime) * nat) :=
  if 6 <=? String.length elm (* sizeof("yyyy.y") - 1 *)
  then
    try_catch_all st
      (e ← epoch_of_word elm;
       if st.2 <? length st.1
       then Returns (alter (Model.set_epoch e) st.2 st.1, st.2 + 1)
       else Undefined)
  else Returns st.

(** One word of a coefficient row for the coefficient index [c_i]; the state
    is [(m_models, m_i, colum)]. *)
Definition read_coefficient_word (c_i : nat)
    (st : list (Model.t DateTime) * nat * nat) (elm : string)
  : outcome (list (Model.t DateTime) * nat * nat) :=
  let '(models, m_i, colum) := st in
  r ← (if 3 <=? colum
       then
         try_catch_all (models, m_i)
           (v ← stod elm;
            match models !! m_i with
            | Some mdl =>
                if c_i <? Model.max_coefficient_size
                then Returns
                       (<[m_i := Model.set_coefficients
                                   (<[c_i := v]> (Model.coefficients mdl)) mdl]> models,
                        m_i + 1)
                else Undefined
            | None => Undefined
            end)
       else Returns (models, m_i));
  Returns (r.1, r.2, colum + 1).

(** The epoch row, word by word. *)
Definition read_epoch_row (st : list (Model.t DateTime) * nat) (ws : list string)
  : outcome (list (Model.t DateTime) * nat) :=
  r ← for_each read_epoch_word ws (st.1, 0);
  Returns (r.1, st.2).

(** A coefficient row, word by word: the coefficient index advances when
    every model received a value. *)
Definition read_coefficient_row (st : list (Model.t DateTime) * nat) (ws : list string)
  : outcome (list (Model.t DateTime) * nat) :=
  r ← for_each (read_coefficient_word st.2) ws (st.1, 0, 0);
  Returns (r.1.1, if r.1.2 =? length r.1.1 then st.2 + 1 else st.2).

(** The body of the [while (std::getline(is, line))] loop; the state is
    [(m_models, c_i)]. *)
Definition read_line (st : list (Model.t DateTime) * nat) (line : string)
  : outcome (list (Model.t DateTime) * nat) :=
  match getModelFileRowType line with
  | ModelFileRowType.Comment => Returns st
  | ModelFileRowType.ModelType =>
      Returns (foldl read_model_word st.1 (words line), st.2)
  | ModelFileRowType.Epoch => read_epoch_row st (words line)
  | ModelFileRowType.GCoeffecient | ModelFileRowType.HCoeffecient =>
      read_coefficient_row st (words line)
  | ModelFileRowType.Unknown => Returns st
  end.

(** [ModelSet::read] on the content of the stream. *)
Definition read (stream : string) (ms : t) : outcome t :=
  r ← for_each read_line (getlines stream) (m_models ms, 0);
  Returns (make r.1).

(** [ModelSet(std::istream& is)] *)
Definition of_stream (stream : string) : outcome t := read stream (make []).

(** [ModelSet()]: the compiled-in IGRF-13 table. *)
Section CompiledIn.
Context `{DateTimeText DateTime}.
Local Open Scope float_scope.

Definition default : t :=
  make [
  Model.make (dt_of_text "1900-01-01T00:00:00.000000Z") ModelType.Igrf
   [-31543; -2298; 5922; -677; 2905; -1061; 924; 1121; 1022; -1469; -330; 1256; 3; 572; 523;
    876; 628; 195; 660; -69; -361; -210; 134; -75; -184; 328; -210; 264; 53; 5; -33; -86;
    -124; -16; 3; 63; 61; -9; -11; 83; -217; 2; -58; -35; 59; 36; -90; -69; 70; -55; -45; 0;
    -13; 34; -10; -41; -1; -21; 28; 18; -12; 6; -22; 11; 8; 8; -4; -14; -9; 7; 1; -13; 2; 5;
    -9; 16; 5; -5; 8; -18; 8; 10; -20; 1; 14; -11; 5; 12; -3; 1; -2; -2; 8; 2; 10; -1; -2;
    -1; 2; -3; -4; 2; 2; 1; -5; 2; -2; 6; 6; -4; 4; 0; 0; -2; 2; 4; 2; 0; 0; -6; 0; 0; 0; 0;
    0; 0; 0; 0; 0; 0; 0; 0; 0; 0; 0; 0; 0; 0; 0; 0; 0; 0; 0; 0; 0; 0; 0; 0; 0; 0; 0; 0; 0;
    0; 0; 0; 0; 0; 0; 0; 0; 0; 0; 0; 0; 0; 0; 0; 0; 0; 0; 0; 0; 0; 0; 0; 0; 0; 0; 0; 0; 0;
    0; 0; 0; 0; 0; 0; 0; 0; 0; 0; 0; 0; 0; 0];
  Model.make (dt_of_text "1905-01-01T00:00:00.000000Z") ModelType.Igrf
   [-31464; -2298; 5909; -728; 2928; -1086; 1041; 1065; 1037; -1494; -357; 1239; 34; 635;
    480; 880; 643; 203; 653; -77; -380; -201; 146; -65; -192; 328; -193; 259; 56; -1; -32;
    -93; -125; -26; 11; 62; 60; -7; -11; 86; -221; 4; -57; -32; 57; 32; -92; -67; 70; -54;
    -46; 0; -14; 33; -11; -41; 0; -20; 28; 18; -12; 6; -22; 11; 8; 8; -4; -15; -9; 7; 1;
    -13; 2; 5; -8; 16; 5; -5; 8; -18; 8; 10; -20; 1; 14; -11; 5; 12; -3; 1; -2; -2; 8; 2;
    10; 0; -2; -1; 2; -3; -4; 2; 2; 1; -5; 2; -2; 6; 6; -4; 4; 0; 0; -2; 2; 4; 2; 0; 0; -6;
    0; 0; 0; 0; 0; 0; 0; 0; 0; 0; 0; 0; 0; 0; 0; 0; 0; 0; 0; 0; 0; 0; 0; 0; 0; 0; 0; 0; 0;
    0; 0; 0; 0; 0; 0; 0; 0; 0; 0; 0; 0; 0; 0; 0; 0; 0; 0; 0; 0; 0; 0; 0; 0; 0; 0; 0; 0; 0;
    0; 0; 0; 0; 0; 0; 0; 0; 0; 0; 0; 0; 0; 0; 0; 0; 0; 0];
  Model.make (dt_of_text "1910-01-01T00:00:00.000000Z") ModelType.Igrf
   [-31354; -2297; 5898; -769; 2948; -1128; 1176; 1000; 1058; -1524; -389; 1223; 62; 705;
    425; 884; 660; 211; 644; -90; -400; -189; 160; -55; -201; 327; -172; 253; 57; -9; -33;
    -102; -126; -38; 21; 62; 58; -5; -11; 89; -224; 5; -54; -29; 54; 28; -95; -65; 71; -54;
    -47; 1; -14; 32; -12; -40; 1; -19; 28; 18; -13; 6; -22; 11; 8; 8; -4; -15; -9; 6; 1;
    -13; 2; 5; -8; 16; 5; -5; 8; -18; 8; 10; -20; 1; 14; -11; 5; 12; -3; 1; -2; -2; 8; 2;
    10; 0; -2; -1; 2; -3; -4; 2; 2; 1; -5; 2; -2; 6; 6; -4; 4; 0; 0; -2; 2; 4; 2; 0; 0; -6;
    0; 0; 0; 0; 0; 0; 0; 0; 0; 0; 0; 0; 0; 0; 0; 0; 0; 0; 0; 0; 0; 0; 0; 0; 0; 0; 0; 0; 0;
    0; 0; 0; 0; 0; 0; 0; 0; 0; 0; 0; 0; 0; 0; 0; 0; 0; 0; 0; 0; 0; 0; 0; 0; 0; 0; 0; 0; 0;
    0; 0; 0; 0; 0; 0; 0; 0; 0; 0; 0; 0; 0; 0; 0; 0; 0; 0];
  Model.make (dt_of_text "1915-01-01T00:00:00.000000Z") ModelType.Igrf
   [-31212; -2306; 5875; -802; 2956; -1191; 1309; 917; 1084; -1559; -421; 1212; 84; 778;
    360; 887; 678; 218; 631; -109; -416; -173; 178; -51; -211; 327; -148; 245; 58; -16; -34;
    -111; -126; -51; 32; 61; 57; -2; -10; 93; -228; 8; -51; -26; 49; 23; -98; -62; 72; -54;
    -48; 2; -14; 31; -12; -38; 2; -18; 28; 19; -15; 6; -22; 11; 8; 8; -4; -15; -9; 6; 2;
    -13; 3; 5; -8; 16; 6; -5; 8; -18; 8; 10; -20; 1; 14; -11; 5; 12; -3; 1; -2; -2; 8; 2;
    10; 0; -2; -1; 2; -3; -4; 2; 2; 1; -5; 2; -2; 6; 6; -4; 4; 0; 0; -2; 1; 4; 2; 0; 0; -6;
    0; 0; 0; 0; 0; 0; 0; 0; 0; 0; 0; 0; 0; 0; 0; 0; 0; 0; 0; 0; 0; 0; 0; 0; 0; 0; 0; 0; 0;
    0; 0; 0; 0; 0; 0; 0; 0; 0; 0; 0; 0; 0; 0; 0; 0; 0; 0; 0; 0; 0; 0; 0; 0; 0; 0; 0; 0; 0;
    0; 0; 0; 0; 0; 0; 0; 0; 0; 0; 0; 0; 0; 0; 0; 0; 0; 0];
  Model.make (dt_of_text "1920-01-01T00:00:00.000000Z") ModelType.Igrf
   [-31060; -2317; 5845; -839; 2959; -1259; 1407; 823; 1111; -1600; -445; 1205; 103; 839;
    293; 889; 695; 220; 616; -134; -424; -153; 199; -57; -221; 326; -122; 236; 58; -23; -38;
    -119; -125; -62; 43; 61; 55; 0; -10; 96; -233; 11; -46; -22; 44; 18; -101; -57; 73; -54;
    -49; 2; -14; 29; -13; -37; 4; -16; 28; 19; -16; 6; -22; 11; 7; 8; -3; -15; -9; 6; 2;
    -14; 4; 5; -7; 17; 6; -5; 8; -19; 8; 10; -20; 1; 14; -11; 5; 12; -3; 1; -2; -2; 9; 2;
    10; 0; -2; -1; 2; -3; -4; 2; 2; 1; -5; 2; -2; 6; 6; -4; 4; 0; 0; -2; 1; 4; 3; 0; 0; -6;
    0; 0; 0; 0; 0; 0; 0; 0; 0; 0; 0; 0; 0; 0; 0; 0; 0; 0; 0; 0; 0; 0; 0; 0; 0; 0; 0; 0; 0;
    0; 0; 0; 0; 0; 0; 0; 0; 0; 0; 0; 0; 0; 0; 0; 0; 0; 0; 0; 0; 0; 0; 0; 0; 0; 0; 0; 0; 0;
    0; 0; 0; 0; 0; 0; 0; 0; 0; 0; 0; 0; 0; 0; 0; 0; 0; 0];
  Model.make (dt_of_text "1925-01-01T00:00:00.000000Z") ModelType.Igrf
   [-30926; -2318; 5817; -893; 2969; -1334; 1471; 728; 1140; -1645; -462; 1202; 119; 881;
    229; 891; 711; 216; 601; -163; -426; -130; 217; -70; -230; 326; -96; 226; 58; -28; -44;
    -125; -122; -69; 51; 61; 54; 3; -9; 99; -238; 14; -40; -18; 39; 13; -103; -52; 73; -54;
    -50; 3; -14; 27; -14; -35; 5; -14; 29; 19; -17; 6; -21; 11; 7; 8; -3; -15; -9; 6; 2;
    -14; 4; 5; -7; 17; 7; -5; 8; -19; 8; 10; -20; 1; 14; -11; 5; 12; -3; 1; -2; -2; 9; 2;
    10; 0; -2; -1; 2; -3; -4; 2; 2; 1; -5; 2; -2; 6; 6; -4; 4; 0; 0; -2; 1; 4; 3; 0; 0; -6;
    0; 0; 0; 0; 0; 0; 0; 0; 0; 0; 0; 0; 0; 0; 0; 0; 0; 0; 0; 0; 0; 0; 0; 0; 0; 0; 0; 0; 0;
    0; 0; 0; 0; 0; 0; 0; 0; 0; 0; 0; 0; 0; 0; 0; 0; 0; 0; 0; 0; 0; 0; 0; 0; 0; 0; 0; 0; 0;
    0; 0; 0; 0; 0; 0; 0; 0; 0; 0; 0; 0; 0; 0; 0; 0; 0; 0];
  Model.make (dt_of_text "1930-01-01T00:00:00.000000Z") ModelType.Igrf
   [-30805; -2316; 5808; -951; 2980; -1424; 1517; 644; 1172; -1692; -480; 1205; 133; 907;
    166; 896; 727; 205; 584; -195; -422; -109; 234; -90; -237; 327; -72; 218; 60; -32; -53;
    -131; -118; -74; 58; 60; 53; 4; -9; 102; -242; 19; -32; -16; 32; 8; -104; -46; 74; -54;
    -51; 4; -15; 25; -14; -34; 6; -12; 29; 18; -18; 6; -20; 11; 7; 8; -3; -15; -9; 5; 2;
    -14; 5; 5; -6; 18; 8; -5; 8; -19; 8; 10; -20; 1; 14; -12; 5; 12; -3; 1; -2; -2; 9; 3;
    10; 0; -2; -2; 2; -3; -4; 2; 2; 1; -5; 2; -2; 6; 6; -4; 4; 0; 0; -2; 1; 4; 3; 0; 0; -6;
    0; 0; 0; 0; 0; 0; 0; 0; 0; 0; 0; 0; 0; 0; 0; 0; 0; 0; 0; 0; 0; 0; 0; 0; 0; 0; 0; 0; 0;
    0; 0; 0; 0; 0; 0; 0; 0; 0; 0; 0; 0; 0; 0; 0; 0; 0; 0; 0; 0; 0; 0; 0; 0; 0; 0; 0; 0; 0;
    0; 0; 0; 0; 0; 0; 0; 0; 0; 0; 0; 0; 0; 0; 0; 0; 0; 0];
  Model.make (dt_of_text "1935-01-01T00:00:00.000000Z") ModelType.Igrf
   [-30715; -2306; 5812; -1018; 2984; -1520; 1550; 586; 1206; -1740; -494; 1215; 146; 918;
    101; 903; 744; 188; 565; -226; -415; -90; 249; -114; -241; 329; -51; 211; 64; -33; -64;
    -136; -115; -76; 64; 59; 53; 4; -8; 104; -246; 25; -25; -15; 25; 4; -106; -40; 74; -53;
    -52; 4; -17; 23; -14; -33; 7; -11; 29; 18; -19; 6; -19; 11; 7; 8; -3; -15; -9; 5; 1;
    -15; 6; 5; -6; 18; 8; -5; 7; -19; 8; 10; -20; 1; 15; -12; 5; 11; -3; 1; -3; -2; 9; 3;
    11; 0; -2; -2; 2; -3; -4; 2; 2; 1; -5; 2; -2; 6; 6; -4; 4; 0; 0; -1; 2; 4; 3; 0; 0; -6;
    0; 0; 0; 0; 0; 0; 0; 0; 0; 0; 0; 0; 0; 0; 0; 0; 0; 0; 0; 0; 0; 0; 0; 0; 0; 0; 0; 0; 0;
    0; 0; 0; 0; 0; 0; 0; 0; 0; 0; 0; 0; 0; 0; 0; 0; 0; 0; 0; 0; 0; 0; 0; 0; 0; 0; 0; 0; 0;
    0; 0; 0; 0; 0; 0; 0; 0; 0; 0; 0; 0; 0; 0; 0; 0; 0; 0];
  Model.make (dt_of_text "1940-01-01T00:00:00.000000Z") ModelType.Igrf
   [-30654; -2292; 5821; -1106; 2981; -1614; 1566; 528; 1240; -1790; -499; 1232; 163; 916;
    43; 914; 762; 169; 550; -252; -405; -72; 265; -141; -241; 334; -33; 208; 71; -33; -75;
    -141; -113; -76; 69; 57; 54; 4; -7; 105; -249; 33; -18; -15; 18; 0; -107; -33; 74; -53;
    -52; 4; -18; 20; -14; -31; 7; -9; 29; 17; -20; 5; -19; 11; 7; 8; -3; -14; -10; 5; 1;
    -15; 6; 5; -5; 19; 9; -5; 7; -19; 8; 10; -21; 1; 15; -12; 5; 11; -3; 1; -3; -2; 9; 3;
    11; 1; -2; -2; 2; -3; -4; 2; 2; 1; -5; 2; -2; 6; 6; -4; 4; 0; 0; -1; 2; 4; 3; 0; 0; -6;
    0; 0; 0; 0; 0; 0; 0; 0; 0; 0; 0; 0; 0; 0; 0; 0; 0; 0; 0; 0; 0; 0; 0; 0; 0; 0; 0; 0; 0;
    0; 0; 0; 0; 0; 0; 0; 0; 0; 0; 0; 0; 0; 0; 0; 0; 0; 0; 0; 0; 0; 0; 0; 0; 0; 0; 0; 0; 0;
    0; 0; 0; 0; 0; 0; 0; 0; 0; 0; 0; 0; 0; 0; 0; 0; 0; 0];
  Model.make (dt_of_text "1945-01-01T00:00:00.000000Z") ModelType.Dgrf
   [-30594; -2285; 5810; -1244; 2990; -1702; 1578; 477; 1282; -1834; -499; 1255; 186; 913;
    -11; 944; 776; 144; 544; -276; -421; -55; 304; -178; -253; 346; -12; 194; 95; -20; -67;
    -142; -119; -82; 82; 59; 57; 6; 6; 100; -246; 16; -25; -9; 21; -16; -104; -39; 70; -40;
    -45; 0; -18; 0; 2; -29; 6; -10; 28; 15; -17; 29; -22; 13; 7; 12; -8; -21; -5; -12; 9;
    -7; 7; 2; -10; 18; 7; 3; 2; -11; 5; -21; -27; 1; 17; -11; 29; 3; -9; 16; 4; -3; 9; -4;
    6; -3; 1; -4; 8; -3; 11; 5; 1; 1; 2; -20; -5; -1; -1; -6; 8; 6; -1; -4; -3; -2; 5; 0;
    -2; -2; 0; 0; 0; 0; 0; 0; 0; 0; 0; 0; 0; 0; 0; 0; 0; 0; 0; 0; 0; 0; 0; 0; 0; 0; 0; 0; 0;
    0; 0; 0; 0; 0; 0; 0; 0; 0; 0; 0; 0; 0; 0; 0; 0; 0; 0; 0; 0; 0; 0; 0; 0; 0; 0; 0; 0; 0;
    0; 0; 0; 0; 0; 0; 0; 0; 0; 0; 0; 0; 0; 0; 0; 0; 0; 0; 0; 0];
  Model.make (dt_of_text "1950-01-01T00:00:00.000000Z") ModelType.Dgrf
   [-30554; -2250; 5815; -1341; 2998; -1810; 1576; 381; 1297; -1889; -476; 1274; 206; 896;
    -46; 954; 792; 136; 528; -278; -408; -37; 303; -210; -240; 349; 3; 211; 103; -20; -87;
    -147; -122; -76; 80; 54; 57; -1; 4; 99; -247; 33; -16; -12; 12; -12; -105; -30; 65; -55;
    -35; 2; -17; 1; 0; -40; 10; -7; 36; 5; -18; 19; -16; 22; 15; 5; -4; -22; -1; 0; 11; -21;
    15; -8; -13; 17; 5; -4; -1; -17; 3; -7; -24; -1; 19; -25; 12; 10; 2; 5; 2; -5; 8; -2; 8;
    3; -11; 8; -7; -8; 4; 13; -1; -2; 13; -10; -4; 2; 4; -3; 12; 6; 3; -3; 2; 6; 10; 11; 3;
    8; 0; 0; 0; 0; 0; 0; 0; 0; 0; 0; 0; 0; 0; 0; 0; 0; 0; 0; 0; 0; 0; 0; 0; 0; 0; 0; 0; 0;
    0; 0; 0; 0; 0; 0; 0; 0; 0; 0; 0; 0; 0; 0; 0; 0; 0; 0; 0; 0; 0; 0; 0; 0; 0; 0; 0; 0; 0;
    0; 0; 0; 0; 0; 0; 0; 0; 0; 0; 0; 0; 0; 0; 0; 0; 0; 0; 0];
  Model.make (dt_of_text "1955-01-01T00:00:00.000000Z") ModelType.Dgrf
   [-30500; -2215; 5820; -1440; 3003; -1898; 1581; 291; 1302; -1944; -462; 1288; 216; 882;
    -83; 958; 796; 133; 510; -274; -397; -23; 290; -230; -229; 360; 15; 230; 110; -23; -98;
    -152; -121; -69; 78; 47; 57; -9; 3; 96; -247; 48; -8; -16; 7; -12; -107; -24; 65; -56;
    -50; 2; -24; 10; -4; -32; 8; -11; 28; 9; -20; 18; -18; 11; 9; 10; -6; -15; -14; 5; 6;
    -23; 10; 3; -7; 23; 6; -4; 9; -13; 4; 9; -11; -4; 12; -5; 7; 2; 6; 4; -2; 1; 10; 2; 7;
    2; -6; 5; 5; -3; -5; -4; -1; 0; 2; -8; -3; -2; 7; -4; 4; 1; -2; -3; 6; 7; -2; -1; 0; -3;
    0; 0; 0; 0; 0; 0; 0; 0; 0; 0; 0; 0; 0; 0; 0; 0; 0; 0; 0; 0; 0; 0; 0; 0; 0; 0; 0; 0; 0;
    0; 0; 0; 0; 0; 0; 0; 0; 0; 0; 0; 0; 0; 0; 0; 0; 0; 0; 0; 0; 0; 0; 0; 0; 0; 0; 0; 0; 0;
    0; 0; 0; 0; 0; 0; 0; 0; 0; 0; 0; 0; 0; 0; 0; 0; 0; 0];
  Model.make (dt_of_text "1960-01-01T00:00:00.000000Z") ModelType.Dgrf
   [-30421; -2169; 5791; -1555; 3002; -1967; 1590; 206; 1302; -1992; -414; 1289; 224; 878;
    -130; 957; 800; 135; 504; -278; -394; 3; 269; -255; -222; 362; 16; 242; 125; -26; -117;
    -156; -114; -63; 81; 46; 58; -10; 1; 99; -237; 60; -1; -20; -2; -11; -113; -17; 67; -56;
    -55; 5; -28; 15; -6; -32; 7; -7; 23; 17; -18; 8; -17; 15; 6; 11; -4; -14; -11; 7; 2;
    -18; 10; 4; -5; 23; 10; 1; 8; -20; 4; 6; -18; 0; 12; -9; 2; 1; 0; 4; -3; -1; 9; -2; 8;
    3; 0; -1; 5; 1; -3; 4; 4; 1; 0; 0; -1; 2; 4; -5; 6; 1; 1; -1; -1; 6; 2; 0; 0; -7; 0; 0;
    0; 0; 0; 0; 0; 0; 0; 0; 0; 0; 0; 0; 0; 0; 0; 0; 0; 0; 0; 0; 0; 0; 0; 0; 0; 0; 0; 0; 0;
    0; 0; 0; 0; 0; 0; 0; 0; 0; 0; 0; 0; 0; 0; 0; 0; 0; 0; 0; 0; 0; 0; 0; 0; 0; 0; 0; 0; 0;
    0; 0; 0; 0; 0; 0; 0; 0; 0; 0; 0; 0; 0; 0; 0; 0];
  Model.make (dt_of_text "1965-01-01T00:00:00.000000Z") ModelType.Dgrf
   [-30334; -2119; 5776; -1662; 2997; -2016; 1594; 114; 1297; -2038; -404; 1292; 240; 856;
    -165; 957; 804; 148; 479; -269; -390; 13; 252; -269; -219; 358; 19; 254; 128; -31; -126;
    -157; -97; -62; 81; 45; 61; -11; 8; 100; -228; 68; 4; -32; 1; -8; -111; -7; 75; -57;
    -61; 4; -27; 13; -2; -26; 6; -6; 26; 13; -23; 1; -12; 13; 5; 7; -4; -12; -14; 9; 0; -16;
    8; 4; -1; 24; 11; -3; 4; -17; 8; 10; -22; 2; 15; -13; 7; 10; -4; -1; -5; -1; 10; 5; 10;
    1; -4; -2; 1; -2; -3; 2; 2; 1; -5; 2; -2; 6; 4; -4; 4; 0; 0; -2; 2; 3; 2; 0; 0; -6; 0;
    0; 0; 0; 0; 0; 0; 0; 0; 0; 0; 0; 0; 0; 0; 0; 0; 0; 0; 0; 0; 0; 0; 0; 0; 0; 0; 0; 0; 0;
    0; 0; 0; 0; 0; 0; 0; 0; 0; 0; 0; 0; 0; 0; 0; 0; 0; 0; 0; 0; 0; 0; 0; 0; 0; 0; 0; 0; 0;
    0; 0; 0; 0; 0; 0; 0; 0; 0; 0; 0; 0; 0; 0; 0; 0; 0];
  Model.make (dt_of_text "1970-01-01T00:00:00.000000Z") ModelType.Dgrf
   [-30220; -2068; 5737; -1781; 3000; -2047; 1611; 25; 1287; -2091; -366; 1278; 251; 838;
    -196; 952; 800; 167; 461; -266; -395; 26; 234; -279; -216; 359; 26; 262; 139; -42; -139;
    -160; -91; -56; 83; 43; 64; -12; 15; 100; -212; 72; 2; -37; 3; -6; -112; 1; 72; -57;
    -70; 1; -27; 14; -4; -22; 8; -2; 23; 13; -23; -2; -11; 14; 6; 7; -2; -15; -13; 6; -3;
    -17; 5; 6; 0; 21; 11; -6; 3; -16; 8; 10; -21; 2; 16; -12; 6; 10; -4; -1; -5; 0; 10; 3;
    11; 1; -2; -1; 1; -3; -3; 1; 2; 1; -5; 3; -1; 4; 6; -4; 4; 0; 1; -1; 0; 3; 3; 1; -1; -4;
    0; 0; 0; 0; 0; 0; 0; 0; 0; 0; 0; 0; 0; 0; 0; 0; 0; 0; 0; 0; 0; 0; 0; 0; 0; 0; 0; 0; 0;
    0; 0; 0; 0; 0; 0; 0; 0; 0; 0; 0; 0; 0; 0; 0; 0; 0; 0; 0; 0; 0; 0; 0; 0; 0; 0; 0; 0; 0;
    0; 0; 0; 0; 0; 0; 0; 0; 0; 0; 0; 0; 0; 0; 0; 0; 0; 0];
  Model.make (dt_of_text "1975-01-01T00:00:00.000000Z") ModelType.Dgrf
   [-30100; -2013; 5675; -1902; 3010; -2067; 1632; -68; 1276; -2144; -333; 1260; 262; 830;
    -223; 946; 791; 191; 438; -265; -405; 39; 216; -288; -218; 356; 31; 264; 148; -59; -152;
    -159; -83; -49; 88; 45; 66; -13; 28; 99; -198; 75; 1; -41; 6; -4; -111; 11; 71; -56;
    -77; 1; -26; 16; -5; -14; 10; 0; 22; 12; -23; -5; -12; 14; 6; 6; -1; -16; -12; 4; -8;
    -19; 4; 6; 0; 18; 10; -10; 1; -17; 7; 10; -21; 2; 16; -12; 7; 10; -4; -1; -5; -1; 10; 4;
    11; 1; -3; -2; 1; -3; -3; 1; 2; 1; -5; 3; -2; 4; 5; -4; 4; -1; 1; -1; 0; 3; 3; 1; -1;
    -5; 0; 0; 0; 0; 0; 0; 0; 0; 0; 0; 0; 0; 0; 0; 0; 0; 0; 0; 0; 0; 0; 0; 0; 0; 0; 0; 0; 0;
    0; 0; 0; 0; 0; 0; 0; 0; 0; 0; 0; 0; 0; 0; 0; 0; 0; 0; 0; 0; 0; 0; 0; 0; 0; 0; 0; 0; 0;
    0; 0; 0; 0; 0; 0; 0; 0; 0; 0; 0; 0; 0; 0; 0; 0; 0; 0; 0];
  Model.make (dt_of_text "1980-01-01T00:00:00.000000Z") ModelType.Dgrf
   [-29992; -1956; 5604; -1997; 3027; -2129; 1663; -200; 1281; -2180; -336; 1251; 271; 833;
    -252; 938; 782; 212; 398; -257; -419; 53; 199; -297; -218; 357; 46; 261; 150; -74; -151;
    -162; -78; -48; 92; 48; 66; -15; 42; 93; -192; 71; 4; -43; 14; -2; -108; 17; 72; -59;
    -82; 2; -27; 21; -5; -12; 16; 1; 18; 11; -23; -2; -10; 18; 6; 7; 0; -18; -11; 4; -7;
    -22; 4; 9; 3; 16; 6; -13; -1; -15; 5; 10; -21; 1; 16; -12; 9; 9; -5; -3; -6; -1; 9; 7;
    10; 2; -6; -5; 2; -4; -4; 1; 2; 0; -5; 3; -2; 6; 5; -4; 3; 0; 1; -1; 2; 4; 3; 0; 0; -6;
    0; 0; 0; 0; 0; 0; 0; 0; 0; 0; 0; 0; 0; 0; 0; 0; 0; 0; 0; 0; 0; 0; 0; 0; 0; 0; 0; 0; 0;
    0; 0; 0; 0; 0; 0; 0; 0; 0; 0; 0; 0; 0; 0; 0; 0; 0; 0; 0; 0; 0; 0; 0; 0; 0; 0; 0; 0; 0;
    0; 0; 0; 0; 0; 0; 0; 0; 0; 0; 0; 0; 0; 0; 0; 0; 0; 0];
  Model.make (dt_of_text "1985-01-01T00:00:00.000000Z") ModelType.Dgrf
   [-29873; -1905; 5500; -2072; 3044; -2197; 1687; -306; 1296; -2208; -310; 1247; 284; 829;
    -297; 936; 780; 232; 361; -249; -424; 69; 170; -297; -214; 355; 47; 253; 150; -93; -154;
    -164; -75; -46; 95; 53; 65; -16; 51; 88; -185; 69; 4; -48; 16; -1; -102; 21; 74; -62;
    -83; 3; -27; 24; -2; -6; 20; 4; 17; 10; -23; 0; -7; 21; 6; 8; 0; -19; -11; 5; -9; -23;
    4; 11; 4; 14; 4; -15; -4; -11; 5; 10; -21; 1; 15; -12; 9; 9; -6; -3; -6; -1; 9; 7; 9; 1;
    -7; -5; 2; -4; -4; 1; 3; 0; -5; 3; -2; 6; 5; -4; 3; 0; 1; -1; 2; 4; 3; 0; 0; -6; 0; 0;
    0; 0; 0; 0; 0; 0; 0; 0; 0; 0; 0; 0; 0; 0; 0; 0; 0; 0; 0; 0; 0; 0; 0; 0; 0; 0; 0; 0; 0;
    0; 0; 0; 0; 0; 0; 0; 0; 0; 0; 0; 0; 0; 0; 0; 0; 0; 0; 0; 0; 0; 0; 0; 0; 0; 0; 0; 0; 0;
    0; 0; 0; 0; 0; 0; 0; 0; 0; 0; 0; 0; 0; 0; 0; 0];
  Model.make (dt_of_text "1990-01-01T00:00:00.000000Z") ModelType.Dgrf
   [-29775; -1848; 5406; -2131; 3059; -2279; 1686; -373; 1314; -2239; -284; 1248; 293; 802;
    -352; 939; 780; 247; 325; -240; -423; 84; 141; -299; -214; 353; 46; 245; 154; -109;
    -153; -165; -69; -36; 97; 61; 65; -16; 59; 82; -178; 69; 3; -52; 18; 1; -96; 24; 77;
    -64; -80; 2; -26; 26; 0; -1; 21; 5; 17; 9; -23; 0; -4; 23; 5; 10; -1; -19; -10; 6; -12;
    -22; 3; 12; 4; 12; 2; -16; -6; -10; 4; 9; -20; 1; 15; -12; 11; 9; -7; -4; -7; -2; 9; 7;
    8; 1; -7; -6; 2; -3; -4; 2; 2; 1; -5; 3; -2; 6; 4; -4; 3; 0; 1; -2; 3; 3; 3; -1; 0; -6;
    0; 0; 0; 0; 0; 0; 0; 0; 0; 0; 0; 0; 0; 0; 0; 0; 0; 0; 0; 0; 0; 0; 0; 0; 0; 0; 0; 0; 0;
    0; 0; 0; 0; 0; 0; 0; 0; 0; 0; 0; 0; 0; 0; 0; 0; 0; 0; 0; 0; 0; 0; 0; 0; 0; 0; 0; 0; 0;
    0; 0; 0; 0; 0; 0; 0; 0; 0; 0; 0; 0; 0; 0; 0; 0; 0; 0];
  Model.make (dt_of_text "1995-01-01T00:00:00.000000Z") ModelType.Dgrf
   [-29692; -1784; 5306; -2200; 3070; -2366; 1681; -413; 1335; -2267; -262; 1249; 302; 759;
    -427; 940; 780; 262; 290; -236; -418; 97; 122; -306; -214; 352; 46; 235; 165; -118;
    -143; -166; -55; -17; 107; 68; 67; -17; 68; 72; -170; 67; -1; -58; 19; 1; -93; 36; 77;
    -72; -69; 1; -25; 28; 4; 5; 24; 4; 17; 8; -24; -2; -6; 25; 6; 11; -6; -21; -9; 8; -14;
    -23; 9; 15; 6; 11; -5; -16; -7; -4; 4; 9; -20; 3; 15; -10; 12; 8; -6; -8; -8; -1; 8; 10;
    5; -2; -8; -8; 3; -3; -6; 1; 2; 0; -4; 4; -1; 5; 4; -5; 2; -1; 2; -2; 5; 1; 1; -2; 0;
    -7; 0; 0; 0; 0; 0; 0; 0; 0; 0; 0; 0; 0; 0; 0; 0; 0; 0; 0; 0; 0; 0; 0; 0; 0; 0; 0; 0; 0;
    0; 0; 0; 0; 0; 0; 0; 0; 0; 0; 0; 0; 0; 0; 0; 0; 0; 0; 0; 0; 0; 0; 0; 0; 0; 0; 0; 0; 0;
    0; 0; 0; 0; 0; 0; 0; 0; 0; 0; 0; 0; 0; 0; 0; 0; 0; 0; 0];
  Model.make (dt_of_text "2000-01-01T00:00:00.000000Z") ModelType.Dgrf
   [-29619.4; -1728.2; 5186.1; -2267.7; 3068.4; -2481.6; 1670.9; -458; 1339.6; -2288;
    -227.6; 1252.1; 293.4; 714.5; -491.1; 932.3; 786.8; 272.6; 250; -231.9; -403; 119.8;
    111.3; -303.8; -218.8; 351.4; 43.8; 222.3; 171.9; -130.4; -133.1; -168.6; -39.3; -12.9;
    106.3; 72.3; 68.2; -17.4; 74.2; 63.7; -160.9; 65.1; -5.9; -61.2; 16.9; 0.7; -90.4; 43.8;
    79; -74; -64.6; 0; -24.2; 33.3; 6.2; 9.1; 24; 6.9; 14.8; 7.3; -25.4; -1.2; -5.8; 24.4;
    6.6; 11.9; -9.2; -21.5; -7.9; 8.5; -16.6; -21.5; 9.1; 15.5; 7; 8.9; -7.9; -14.9; -7;
    -2.1; 5; 9.4; -19.7; 3; 13.4; -8.4; 12.5; 6.3; -6.2; -8.9; -8.4; -1.5; 8.4; 9.3; 3.8;
    -4.3; -8.2; -8.2; 4.8; -2.6; -6; 1.7; 1.7; 0; -3.1; 4; -0.5; 4.9; 3.7; -5.9; 1; -1.2; 2;
    -2.9; 4.2; 0.2; 0.3; -2.2; -1.1; -7.4; 2.7; -1.7; 0.1; -1.9; 1.3; 1.5; -0.9; -0.1; -2.6;
    0.1; 0.9; -0.7; -0.7; 0.7; -2.8; 1.7; -0.9; 0.1; -1.2; 1.2; -1.9; 4; -0.9; -2.2; -0.3;
    -0.4; 0.2; 0.3; 0.9; 2.5; -0.2; -2.6; 0.9; 0.7; -0.5; 0.3; 0.3; 0; -0.3; 0; -0.4; 0.3;
    -0.1; -0.9; -0.2; -0.4; -0.4; 0.8; -0.2; -0.9; -0.9; 0.3; 0.2; 0.1; 1.8; -0.4; -0.4;
    1.3; -1; -0.4; -0.1; 0.7; 0.7; -0.4; 0.3; 0.3; 0.6; -0.1; 0.3; 0.4; -0.2; 0; -0.5; 0.1;
    -0.9; 0];
  Model.make (dt_of_text "2005-01-01T00:00:00.000000Z") ModelType.Dgrf
   [-29554.6; -1669.05; 5077.99; -2337.24; 3047.69; -2594.5; 1657.76; -515.43; 1336.3;
    -2305.83; -198.86; 1246.39; 269.72; 672.51; -524.72; 920.55; 797.96; 282.07; 210.65;
    -225.23; -379.86; 145.15; 100; -305.36; -227; 354.41; 42.72; 208.95; 180.25; -136.54;
    -123.45; -168.05; -19.57; -13.55; 103.85; 73.6; 69.56; -20.33; 76.74; 54.75; -151.34;
    63.63; -14.58; -63.53; 14.58; 0.24; -86.36; 50.94; 79.88; -74.46; -61.14; -1.65; -22.57;
    38.73; 6.82; 12.3; 25.35; 9.37; 10.93; 5.42; -26.32; 1.94; -4.64; 24.8; 7.62; 11.2;
    -11.73; -20.88; -6.88; 9.83; -18.11; -19.71; 10.17; 16.22; 9.36; 7.61; -11.25; -12.76;
    -4.87; -0.06; 5.58; 9.76; -20.11; 3.58; 12.69; -6.94; 12.67; 5.01; -6.72; -10.76; -8.16;
    -1.25; 8.1; 8.76; 2.92; -6.66; -7.73; -9.22; 6.01; -2.17; -6.12; 2.19; 1.42; 0.1; -2.35;
    4.46; -0.15; 4.76; 3.06; -6.58; 0.29; -1.01; 2.06; -3.47; 3.77; -0.86; -0.21; -2.31;
    -2.09; -7.93; 2.95; -1.6; 0.26; -1.88; 1.44; 1.44; -0.77; -0.31; -2.27; 0.29; 0.9;
    -0.79; -0.58; 0.53; -2.69; 1.8; -1.08; 0.16; -1.58; 0.96; -1.9; 3.99; -1.39; -2.15;
    -0.29; -0.55; 0.21; 0.23; 0.89; 2.38; -0.38; -2.63; 0.96; 0.61; -0.3; 0.4; 0.46; 0.01;
    -0.35; 0.02; -0.36; 0.28; 0.08; -0.87; -0.49; -0.34; -0.08; 0.88; -0.16; -0.88; -0.76;
    0.3; 0.33; 0.28; 1.72; -0.43; -0.54; 1.18; -1.07; -0.37; -0.04; 0.75; 0.63; -0.26; 0.21;
    0.35; 0.53; -0.05; 0.38; 0.41; -0.22; -0.1; -0.57; -0.18; -0.82; 0];
  Model.make (dt_of_text "2010-01-01T00:00:00.000000Z") ModelType.Dgrf
   [-29496.6; -1586.42; 4944.26; -2396.06; 3026.34; -2708.54; 1668.17; -575.73; 1339.85;
    -2326.54; -160.4; 1232.1; 251.75; 633.73; -537.03; 912.66; 808.97; 286.48; 166.58;
    -211.03; -356.83; 164.46; 89.4; -309.72; -230.87; 357.29; 44.58; 200.26; 189.01;
    -141.05; -118.06; -163.17; -0.01; -8.03; 101.04; 72.78; 68.69; -20.9; 75.92; 44.18;
    -141.4; 61.54; -22.83; -66.26; 13.1; 3.02; -78.09; 55.4; 80.44; -75; -57.8; -4.55;
    -21.2; 45.24; 6.54; 14; 24.96; 10.46; 7.03; 1.64; -27.61; 4.92; -3.28; 24.41; 8.21;
    10.84; -14.5; -20.03; -5.59; 11.83; -19.34; -17.41; 11.61; 16.71; 10.85; 6.96; -14.05;
    -10.74; -3.54; 1.64; 5.5; 9.45; -20.54; 3.45; 11.51; -5.27; 12.75; 3.13; -7.14; -12.38;
    -7.42; -0.76; 7.97; 8.43; 2.14; -8.42; -6.08; -10.08; 7.01; -1.94; -6.24; 2.73; 0.89;
    -0.1; -1.07; 4.71; -0.16; 4.44; 2.45; -7.22; -0.33; -0.96; 2.13; -3.95; 3.09; -1.99;
    -1.03; -1.97; -2.8; -8.31; 3.05; -1.48; 0.13; -2.03; 1.67; 1.65; -0.66; -0.51; -1.76;
    0.54; 0.85; -0.79; -0.39; 0.37; -2.51; 1.79; -1.27; 0.12; -2.11; 0.75; -1.94; 3.75;
    -1.86; -2.12; -0.21; -0.87; 0.3; 0.27; 1.04; 2.13; -0.63; -2.49; 0.95; 0.49; -0.11;
    0.59; 0.52; 0; -0.39; 0.13; -0.37; 0.27; 0.21; -0.86; -0.77; -0.23; 0.04; 0.87; -0.09;
    -0.89; -0.87; 0.31; 0.3; 0.42; 1.66; -0.45; -0.59; 1.08; -1.14; -0.31; -0.07; 0.78;
    0.54; -0.18; 0.1; 0.38; 0.49; 0.02; 0.44; 0.42; -0.25; -0.26; -0.53; -0.26; -0.79; 0];
  Model.make (dt_of_text "2015-01-01T00:00:00.000000Z") ModelType.Dgrf
   [-29441.5; -1501.77; 4795.99; -2445.88; 3012.2; -2845.41; 1676.35; -642.17; 1350.33;
    -2352.26; -115.29; 1225.85; 245.04; 581.69; -538.7; 907.42; 813.68; 283.54; 120.49;
    -188.43; -334.85; 180.95; 70.38; -329.23; -232.91; 360.14; 46.98; 192.35; 196.98;
    -140.94; -119.14; -157.4; 15.98; 4.3; 100.12; 69.55; 67.57; -20.61; 72.79; 33.3;
    -129.85; 58.74; -28.93; -66.64; 13.14; 7.35; -70.85; 62.41; 81.29; -75.99; -54.27;
    -6.79; -19.53; 51.82; 5.59; 15.07; 24.45; 9.32; 3.27; -2.88; -27.5; 6.61; -2.32; 23.98;
    8.89; 10.04; -16.78; -18.26; -3.16; 13.18; -20.56; -14.6; 13.33; 16.16; 11.76; 5.69;
    -15.98; -9.1; -2.02; 2.26; 5.33; 8.83; -21.77; 3.02; 10.76; -3.22; 11.74; 0.67; -6.74;
    -13.2; -6.88; -0.1; 7.79; 8.68; 1.04; -9.06; -3.89; -10.54; 8.44; -2.01; -6.26; 3.28;
    0.17; -0.4; 0.55; 4.55; -0.55; 4.4; 1.7; -7.92; -0.67; -0.61; 2.13; -4.16; 2.33; -2.85;
    -1.8; -1.12; -3.59; -8.72; 3; -1.4; 0; -2.3; 2.11; 2.08; -0.6; -0.79; -1.05; 0.58; 0.76;
    -0.7; -0.2; 0.14; -2.12; 1.7; -1.44; -0.22; -2.57; 0.44; -2.01; 3.49; -2.34; -2.09;
    -0.16; -1.08; 0.46; 0.37; 1.23; 1.75; -0.89; -2.19; 0.85; 0.27; 0.1; 0.72; 0.54; -0.09;
    -0.37; 0.29; -0.43; 0.23; 0.22; -0.89; -0.94; -0.16; -0.03; 0.72; -0.02; -0.92; -0.88;
    0.42; 0.49; 0.63; 1.56; -0.42; -0.5; 0.96; -1.24; -0.19; -0.1; 0.81; 0.42; -0.13; -0.04;
    0.38; 0.48; 0.08; 0.48; 0.46; -0.3; -0.35; -0.43; -0.36; -0.71; 0];
  Model.make (dt_of_text "2020-01-01T00:00:00.000000Z") ModelType.Igrf
   [-29404.8; -1450.9; 4652.5; -2499.6; 2982; -2991.6; 1677; -734.6; 1363.2; -2381.2; -82.1;
    1236.2; 241.9; 525.7; -543.4; 903; 809.5; 281.9; 86.3; -158.4; -309.4; 199.7; 48;
    -349.7; -234.3; 363.2; 47.7; 187.8; 208.3; -140.7; -121.2; -151.2; 32.3; 13.5; 98.9; 66;
    65.5; -19.1; 72.9; 25.1; -121.5; 52.8; -36.2; -64.5; 13.5; 8.9; -64.7; 68.1; 80.6;
    -76.7; -51.5; -8.2; -16.9; 56.5; 2.2; 15.8; 23.5; 6.4; -2.2; -7.2; -27.2; 9.8; -1.8;
    23.7; 9.7; 8.4; -17.6; -15.3; -0.5; 12.8; -21.1; -11.7; 15.3; 14.9; 13.7; 3.6; -16.5;
    -6.9; -0.3; 2.8; 5; 8.4; -23.4; 2.9; 11; -1.5; 9.8; -1.1; -5.1; -13.2; -6.3; 1.1; 7.8;
    8.8; 0.4; -9.3; -1.4; -11.9; 9.6; -1.9; -6.2; 3.4; -0.1; -0.2; 1.7; 3.6; -0.9; 4.8; 0.7;
    -8.6; -0.9; -0.1; 1.9; -4.3; 1.4; -3.4; -2.4; -0.1; -3.8; -8.8; 3; -1.4; 0; -2.5; 2.5;
    2.3; -0.6; -0.9; -0.4; 0.3; 0.6; -0.7; -0.2; -0.1; -1.7; 1.4; -1.6; -0.6; -3; 0.2; -2;
    3.1; -2.6; -2; -0.1; -1.2; 0.5; 0.5; 1.3; 1.4; -1.2; -1.8; 0.7; 0.1; 0.3; 0.8; 0.5;
    -0.2; -0.3; 0.6; -0.5; 0.2; 0.1; -0.9; -1.1; 0; -0.3; 0.5; 0.1; -0.9; -0.9; 0.5; 0.6;
    0.7; 1.4; -0.3; -0.4; 0.8; -1.3; 0; -0.1; 0.8; 0.3; 0; -0.1; 0.4; 0.5; 0.1; 0.5; 0.5;
    -0.4; -0.5; -0.4; -0.4; -0.6; 0];
  Model.make (dt_of_text "2025-01-01T00:00:00.000000Z") ModelType.Sv
   [5.7; 7.4; -25.9; -11; -7; -30.2; -2.1; -22.4; 2.2; -5.9; 6; 3.1; -1.1; -12; 0.5; -1.2;
    -1.6; -0.1; -5.9; 6.5; 5.2; 3.6; -5.1; -5; -0.3; 0.5; 0; -0.6; 2.5; 0.2; -0.6; 1.3; 3;
    0.9; 0.3; -0.5; -0.3; 0; 0.4; -1.6; 1.3; -1.3; -1.4; 0.8; 0; 0; 0.9; 1; -0.1; -0.2; 0.6;
    0; 0.6; 0.7; -0.8; 0.1; -0.2; -0.5; -1.1; -0.8; 0.1; 0.8; 0.3; 0; 0.1; -0.2; -0.1; 0.6;
    0.4; -0.2; -0.1; 0.5; 0.4; -0.3; 0.3; -0.4; -0.1; 0.5; 0.4; 0; 0; 0; 0; 0; 0; 0; 0; 0;
    0; 0; 0; 0; 0; 0; 0; 0; 0; 0; 0; 0; 0; 0; 0; 0; 0; 0; 0; 0; 0; 0; 0; 0; 0; 0; 0; 0; 0;
    0; 0; 0; 0; 0; 0; 0; 0; 0; 0; 0; 0; 0; 0; 0; 0; 0; 0; 0; 0; 0; 0; 0; 0; 0; 0; 0; 0; 0;
    0; 0; 0; 0; 0; 0; 0; 0; 0; 0; 0; 0; 0; 0; 0; 0; 0; 0; 0; 0; 0; 0; 0; 0; 0; 0; 0; 0; 0;
    0; 0; 0; 0; 0; 0; 0; 0; 0; 0; 0; 0; 0; 0; 0; 0; 0; 0; 0; 0; 0]
  ].
End CompiledIn.

End WithDateTime.
Arguments t DateTime : clear implicits.
End ModelSet.

(** ** Positions

    [Coordinate.hpp] is not part of the sources at hand.  The engine reads a
    position through [CoordinateBase<T>]: its kind, its epoch and the three
    elements (altitude or radius, longitude and latitude in radians). *)

Module CoordinateType.
Inductive t : Set :=
| GeocentricSpherical
| Wgs84
| Other. (* every further enumerator *)
End CoordinateType.

Record CoordinateBase (DateTime : Type) : Type := coordinate {
  c_type : CoordinateType.t;
  c_epoch : DateTime;
  altitude : float;
  longitude : float; (* [longitude.radians()] *)
  latitude : float;  (* [latitude.radians()] *)
}.
Arguments coordinate {DateTime}.
Arguments c_type {DateTime}.
Arguments c_epoch {DateTime}.
Arguments altitude {DateTime}.
Arguments longitude {DateTime}.
Arguments latitude {DateTime}.

(** Modelled from the spec: the class [Wgs84] is declared outside the sources
    at hand; it is the geodetic position (altitude, longitude, geodetic
    latitude) paired with an epoch, and its kind is [Wgs84]. *)
Definition Wgs84 {DateTime : Type} (epoch : DateTime) (lon lat alt : float)
  : CoordinateBase DateTime :=
  coordinate CoordinateType.Wgs84 epoch alt lon lat.

(** The class [Ecef], also declared outside: its epoch and its conversion
    [toGeocentricSpherical()]. *)
Class EcefApi (DateTime Ecef : Type) : Type := {
  ecef_epoch : Ecef -> DateTime;
  toGeocentricSpherical : Ecef -> CoordinateBase DateTime;
}.

Module constant.
(** Modelled from the spec: [constant::wgs84_a] and [constant::wgs84_b], the
    semi-axes a and b of the reference ellipsoid, are declared outside the
    sources at hand; these are the WGS84 values in metres. *)
Definition wgs84_a : float := 6378137%float.
Definition wgs84_b : float := 6356752.314245%float.
End constant.

(** ** Igrf.hpp *)

Module Igrf.

(** The local variables of the synthesis loop of [calculateMagDensity]. *)
Module Loop.
Record t : Type := make {
  c_idx : Z; n : Z; m : Z;
  ratio : float;
  p : list float;   (* Legendre functions *)
  d_p : list float; (* their derivatives *)
  b_r : float; b_t : float; b_p : float;
}.
End Loop.

(** What the coordinate branch of [calculateMagDensity] leaves behind. *)
Record Normalized : Type := normalized {
  nz_r : float;
  nz_cos_theta : float; nz_sin_theta : float;
  nz_cos_delta : float; nz_sin_delta : float;
}.

Section WithDateTime.
Context {DateTime : Type} `{DateTimeApi DateTime} `{Libm}.
Local Open Scope float_scope.

Record t : Type := make {
  m_model : Model.t DateTime;
  m_model_set : ModelSet.t DateTime;
}.

(** [Igrf(const ModelSet& model_set)] *)
Definition of_model_set (model_set : ModelSet.t DateTime) : t :=
  make Model.default model_set.

Definition nanotesla_to_tesla : float := 1.0e-9.

(** [std::transform(a.begin(), a.end(), b.begin(), dst.begin(), op)] on
    arrays of [max_coefficient_size] doubles. *)
Definition transform (op : float -> float -> float) (a b dst : list float)
  : list float :=
  foldl (fun d i => <[i := op (a !!! i) (b !!! i)]> d) dst
        (seq 0 Model.max_coefficient_size).

Definition interpolateModel (dt : DateTime) (last next model : Model.t DateTime)
  : Model.t DateTime :=
  let diff :=
    (dt_fractionalYears dt - Double.of_int (dt_year (Model.epoch last)))
    / Double.of_int (dt_year (Model.epoch next) - dt_year (Model.epoch last)) in
  Model.set_coefficients
    (transform (fun a b => a + diff * (b - a))
       (Model.coefficients last) (Model.coefficients next) (Model.coefficients model))
    model.

Definition extrapolateModel (dt : DateTime) (last next model : Model.t DateTime)
  : Model.t DateTime :=
  let diff := dt_fractionalYears dt - Double.of_int (dt_year (Model.epoch last)) in
  Model.set_coefficients
    (transform (fun a b => a + diff * b)
       (Model.coefficients last) (Model.coefficients next) (Model.coefficients model))
    model.

(** A member function: from the object before the call to the outcome and
    the object after it. *)
Definition initializeModel (dt : DateTime) (self : t) : outcome unit * t :=
  match ModelSet.select (m_model_set self) dt with
  | Returns (last, next) =>
      if negb (ModelType.eqb (Model.type next) ModelType.Sv)
      then
        (Returns tt,
         make (Model.set_type ModelType.Interpolated
                 (Model.set_epoch dt (interpolateModel dt last next (m_model self))))
              (m_model_set self))
      else
        (Returns tt,
         make (Model.set_type ModelType.Extrapolated
                 (Model.set_epoch dt (extrapolateModel dt last next (m_model self))))
              (m_model_set self))
  | Throws w => (Throws w, self)
  | Undefined => (Undefined, self)
  end.

Definition earth_radius : float := 6371.2e3.

(** The branch on [position.type()]: geocentric radius, colatitude and the
    rotation between the geodetic and the geocentric frame. *)
Definition normalize (position : CoordinateBase DateTime) : outcome Normalized :=
  let r := altitude position in
  let theta := latitude position in
  let cos_theta := sin theta in (* colatitude *)
  let sin_theta := cos theta in
  match c_type position with
  | CoordinateType.GeocentricSpherical =>
      Returns (normalized r cos_theta sin_theta 1.0 0.0)
  | CoordinateType.Wgs84 =>
      let a := constant.wgs84_a in
      let b := constant.wgs84_b in
      let aa := a * a in
      let bb := b * b in
      let h := r in
      let a2sint2 := aa * sin_theta * sin_theta in
      let b2cost2 := bb * cos_theta * cos_theta in
      let rho2 := a2sint2 + b2cost2 in
      let rho := sqrt rho2 in
      let r := sqrt ((aa * a2sint2 + bb * b2cost2) / rho2 + r * r + 2 * r * rho) in
      let cos_delta := (h + rho) / r in
      let sin_delta := (aa - bb) / rho * sin_theta * cos_theta / r in
      let cos_theta_gd := cos_theta in
      let cos_theta := cos_theta_gd * cos_delta - sin_theta * sin_delta in
      let sin_theta := sin_theta * cos_delta + cos_theta_gd * sin_delta in
      Returns (normalized r cos_theta sin_theta cos_delta sin_delta)
  | CoordinateType.Other => Throws "Invalid coordinate type"
  end.

Definition p_size : nat := (Model.max_degree + 1) * (Model.max_degree + 2) / 2.

Definition at_ (a : list float) (i : Z) : float := a !!! Z.to_nat i.
Definition store (a : list float) (i : Z) (v : float) : list float :=
  <[Z.to_nat i := v]> a.

(** One turn of [for (p_idx = 2; p_idx <= p_size; p_idx++)]. *)
Definition loop_body (r sin_theta cos_theta : float)
    (cos_phi sin_phi coefficients : list float) (s : Loop.t) (p_idx : nat)
  : Loop.t :=
  let p_idx := Z.of_nat p_idx in
  let '(n, m, ratio) :=
    if (Loop.n s <? Loop.m s)%Z
    then ((Loop.n s + 1)%Z, 0%Z, Loop.ratio s * (earth_radius / r))
    else (Loop.n s, Loop.m s, Loop.ratio s) in
  let p_lag0 := (p_idx - 1)%Z in
  let '(p, d_p) :=
    if (n =? m)%Z && negb (p_lag0 =? 2)%Z then
      let p_lag1 := (p_idx - n - 2)%Z in
      let cof := sqrt (1 - 1 / Double.of_int (2 * m)) in
      let p := store (Loop.p s) p_lag0 (cof * sin_theta * at_ (Loop.p s) p_lag1) in
      let d_p :=
        store (Loop.d_p s) p_lag0
          (cof * (sin_theta * at_ (Loop.d_p s) p_lag1 + cos_theta * at_ p p_lag1)) in
      (p, d_p)
    else if negb (p_lag0 =? 2)%Z then
      let p_lag1 := (p_idx - n - 1)%Z in
      let p_lag2 := (p_idx - 2 * n)%Z in
      let cofl := Double.of_int (2 * n - 1) / sqrt (Double.of_int (n * n - m * m)) in
      let cofr :=
        sqrt (Double.of_int ((n - 1) * (n - 1) - m * m))
        / sqrt (Double.of_int (n * n - m * m)) in
      let p :=
        store (Loop.p s) p_lag0
          (cofl * cos_theta * at_ (Loop.p s) p_lag1 - cofr * at_ (Loop.p s) p_lag2) in
      let d_p :=
        store (Loop.d_p s) p_lag0
          (cofl * (cos_theta * at_ (Loop.d_p s) p_lag1 - sin_theta * at_ p p_lag1)
           - cofr * at_ (Loop.d_p s) p_lag2) in
      (p, d_p)
    else (Loop.p s, Loop.d_p s) in
  if (m =? 0)%Z then
    let c_lag0 := (Loop.c_idx s - 1)%Z in
    let gh_cof := at_ coefficients c_lag0 in
    let cof := ratio * gh_cof in
    Loop.make (Loop.c_idx s + 1) n (m + 1) ratio p d_p
      (Loop.b_r s + Double.of_int (n + 1) * cof * at_ p p_lag0)
      (Loop.b_t s - cof * at_ d_p p_lag0)
      (Loop.b_p s)
  else
    let m_lag0 := (m - 1)%Z in
    let c_lag0 := (Loop.c_idx s - 1)%Z in
    let gh_cof0 := at_ coefficients c_lag0 in
    let gh_cof1 := at_ coefficients (c_lag0 + 1) in
    let cof := ratio * (gh_cof0 * at_ cos_phi m_lag0 + gh_cof1 * at_ sin_phi m_lag0) in
    Loop.make (Loop.c_idx s + 2) n (m + 1) ratio p d_p
      (Loop.b_r s + Double.of_int (n + 1) * cof * at_ p p_lag0)
      (Loop.b_t s - cof * at_ d_p p_lag0)
      (if sin_theta =? 0.0
       then Loop.b_p s
            - cos_theta * ratio
              * (gh_cof1 * at_ cos_phi m_lag0 - gh_cof0 * at_ sin_phi m_lag0)
              * at_ p p_lag0
       else Loop.b_p s
            - 1 / sin_theta * ratio * Double.of_int m
              * (gh_cof1 * at_ cos_phi m_lag0 - gh_cof0 * at_ sin_phi m_lag0)
              * at_ p p_lag0).

(** The state on entry to the loop. *)
Definition loop_init (r sin_theta cos_theta : float) : Loop.t :=
  let p := store (store (replicate p_size 0) 0 1) 2 sin_theta in
  let d_p := store (store (replicate p_size 0) 0 0) 2 cos_theta in
  Loop.make 1 0 1 ((earth_radius / r) * (earth_radius / r)) p d_p 0 0 0.

(** The harmonic synthesis: the loop run from [p_idx = 2] to [p_size]. *)
Definition synthesize (coefficients : list float) (r sin_theta cos_theta : float)
    (cos_phi sin_phi : list float) : Loop.t :=
  foldl (loop_body r sin_theta cos_theta cos_phi sin_phi coefficients)
        (loop_init r sin_theta cos_theta) (seq 2 (p_size - 1)).

(** [mag_density << ...]: the rotation into north, east, down. *)
Definition rotate (b_r b_t b_p cos_delta sin_delta : float) : Vector3d :=
  vector3d (- b_t * cos_delta - b_r * sin_delta) b_p
           (b_t * sin_delta - b_r * cos_delta).

(** [calculateMagDensity]: the value left in [mag_density], in nanotesla. *)
Definition calculateMagDensity (position : CoordinateBase DateTime) (self : t)
  : outcome Vector3d :=
  let phi := longitude position in
  nz ← normalize position;
  let cos_phi :=
    (fun m => cos (Double.of_int (Z.of_nat m) * phi)) <$> seq 1 Model.max_degree in
  let sin_phi :=
    (fun m => sin (Double.of_int (Z.of_nat m) * phi)) <$> seq 1 Model.max_degree in
  let s :=
    synthesize (Model.coefficients (m_model self)) (nz_r nz)
      (nz_sin_theta nz) (nz_cos_theta nz) cos_phi sin_phi in
  Returns (rotate (Loop.b_r s) (Loop.b_t s) (Loop.b_p s)
             (nz_cos_delta nz) (nz_sin_delta nz)).

(** [updatePositionAndMag(const Wgs84&, ...)] *)
Definition updatePositionAndMag (position : CoordinateBase DateTime) (self : t)
  : outcome Vector3d * t :=
  match initializeModel (c_epoch position) self with
  | (Returns _, self') => (calculateMagDensity position self', self')
  | (Throws w, self') => (Throws w, self')
  | (Undefined, self') => (Undefined, self')
  end.

(** [operator()(const Wgs84& position)], in tesla. *)
Definition call (position : CoordinateBase DateTime) (self : t)
  : outcome Vector3d * t :=
  let '(mag_density, self') := updatePositionAndMag position self in
  (v ← mag_density; Returns (scale v nanotesla_to_tesla), self').

Section WithEcef.
Context {Ecef : Type} `{EcefApi DateTime Ecef}.

(** [updatePositionAndMag(const Ecef&, ...)] *)
Definition updatePositionAndMag_ecef (position : Ecef) (self : t)
  : outcome Vector3d * t :=
  match initializeModel (ecef_epoch position) self with
  | (Returns _, self') =>
      (calculateMagDensity (toGeocentricSpherical position) self', self')
  | (Throws w, self') => (Throws w, self')
  | (Undefined, self') => (Undefined, self')
  end.

(** [operator()(const Ecef& position)], in tesla. *)
Definition call_ecef (position : Ecef) (self : t) : outcome Vector3d * t :=
  let '(mag_density, self') := updatePositionAndMag_ecef position self in
  (v ← mag_density; Returns (scale v nanotesla_to_tesla), self').
End WithEcef.

End WithDateTime.
Arguments t DateTime : clear implicits.
End Igrf.

(** ** GeoMagFlux.hpp *)

Module MagFluxUnit.
Inductive t : Set :=
| NanoTesla | MicroTesla | Tesla | Gauss | Si | Cgs | Mks | Mksa.
End MagFluxUnit.

Module GeoMagFlux.
Section WithDateTime.
Context {DateTime : Type} `{DateTimeApi DateTime} `{Libm}.
Local Open Scope float_scope.

(** The wrapper derives from [Igrf]: [base] is the inherited sub-object. *)
Record t : Type := make {
  base : Igrf.t DateTime;
  m_unit : MagFluxUnit.t;
  m_unit_scale : float;
  m_unit_symbol : string;
}.

Definition nanotesla_to_tesla : float := 1.0e-9.
Definition nanotesla_to_microtesla : float := 1.0e-3.
Definition nanotesla_to_gauss : float := 1.0e-5.

Definition setScaling (unit : MagFluxUnit.t) (self : t) : t :=
  match unit with
  | MagFluxUnit.NanoTesla => make (base self) unit 1.0 "nT"
  | MagFluxUnit.MicroTesla => make (base self) unit nanotesla_to_microtesla "uT"
  | MagFluxUnit.Tesla => make (base self) unit nanotesla_to_tesla "T"
  | MagFluxUnit.Gauss => make (base self) unit nanotesla_to_gauss "G"
  | MagFluxUnit.Si => make (base self) unit nanotesla_to_tesla "T"
  | MagFluxUnit.Cgs => make (base self) unit nanotesla_to_gauss "G"
  | MagFluxUnit.Mks => make (base self) unit nanotesla_to_tesla "T"
  | MagFluxUnit.Mksa => make (base self) unit nanotesla_to_tesla "T"
  end.

(** [GeoMagFlux(const ModelSet& model_set, MagFluxUnit unit)]: the members
    [m_unit_scale] and [m_unit_symbol] have no initial value of their own;
    [setScaling] assigns them for every enumerator. *)
Definition of_model_set (model_set : ModelSet.t DateTime) (unit : MagFluxUnit.t) : t :=
  setScaling unit (make (Igrf.of_model_set model_set) unit nan "").

Definition setOutputUnit (unit : MagFluxUnit.t) (self : t) : t := setScaling unit self.

Definition with_base (self : t) (b : Igrf.t DateTime) : t :=
  make b (m_unit self) (m_unit_scale self) (m_unit_symbol self).

(** [operator()(const Wgs84& position)] *)
Definition call (position : CoordinateBase DateTime) (self : t)
  : outcome Vector3d * t :=
  let '(mag_density, b) := Igrf.updatePositionAndMag position (base self) in
  (v ← mag_density; Returns (scale v (m_unit_scale self)), with_base self b).

Section WithEcef.
Context {Ecef : Type} `{EcefApi DateTime Ecef}.

(** [operator()(const Ecef& position)] *)
Definition call_ecef (position : Ecef) (self : t) : outcome Vector3d * t :=
  let '(mag_density, b) := Igrf.updatePositionAndMag_ecef position (base self) in
  (v ← mag_density; Returns (scale v (m_unit_scale self)), with_base self b).
End WithEcef.

End WithDateTime.
Arguments t DateTime : clear implicits.
End GeoMagFlux.

(** ** Instances used to run the embedding on examples *)

(** Modelled from the spec: [DateTime.hpp] lies outside the sources at hand
    ("the calendar/epoch arithmetic type, assumed to expose a fractional
    year and ordering").  An instant is the start of a calendar month. *)
Module Calendar.
Record t : Set := make { year : Z; month : Z }.

Definition lt (a b : t) : bool :=
  ((year a <? year b) || ((year a =? year b) && (month a <? month b)))%Z.

Definition fractionalYears (a : t) : float :=
  (Double.of_int (year a) + Double.of_int (month a - 1) / 12)%float.

Definition of_year_month (y m : Z) : outcome t :=
  if ((1 <=? y) && (y <=? 9999) && (1 <=? m) && (m <=? 12))%Z
  then Returns (make y m)
  else Throws "[GeoMagException]: invalid date".
End Calendar.

Global Instance calendar_api : DateTimeApi Calendar.t := {|
  dt_default := Calendar.make 1970 1;
  dt_of_year_month := Calendar.of_year_month;
  dt_lt := Calendar.lt;
  dt_year := Calendar.year;
  dt_fractionalYears := Calendar.fractionalYears;
|}.

(** Decimal stand-ins for [std::stoi] and [std::stod]: an optional sign and
    a run of digits, for [stod] with an optional fraction; as in C++ the
    characters after the number are ignored. *)
Module Decimal.
Definition digit (c : ascii) : option Z :=
  let k := nat_of_ascii c in
  if (48 <=? k) && (k <=? 57) then Some (Z.of_nat (k - 48)) else None.

(** The digits at the head of [s]: their value on top of [acc], their
    number, and the rest of [s]. *)
Fixpoint digits (s : string) (acc : Z) (count : nat) : Z * nat * string :=
  match s with
  | String c s' =>
      match digit c with
      | Some d => digits s' (10 * acc + d)%Z (S count)
      | None => (acc, count, s)
      end
  | EmptyString => (acc, count, s)
  end.

Definition sign (s : string) : bool * string :=
  match s with
  | String "-" s' => (true, s')
  | String "+" s' => (false, s')
  | _ => (false, s)
  end.

Definition stoi (s : string) : outcome Z :=
  let '(neg, s1) := sign s in
  let '(v, k, _) := digits s1 0 0 in
  if k =? 0 then Throws "stoi"
  else if (2147483647 <? v)%Z then Throws "stoi"
  else Returns (if neg then (- v)%Z else v).

Definition stod (s : string) : outcome float :=
  let '(neg, s1) := sign s in
  let '(v, k, s2) := digits s1 0 0 in
  let '(w, j) :=
    match s2 with
    | String "." s3 => let '(w, j, _) := digits s3 v 0 in (w, j)
    | _ => (v, 0)
    end in
  if k + j =? 0 then Throws "stod"
  else
    let x := (Double.of_int w / Double.of_int (10 ^ Z.of_nat j))%float in
    Returns (if neg then (- x)%float else x).
End Decimal.

Definition decimal_conversions : StringConversions := {|
  stoi := Decimal.stoi;
  stod := Decimal.stod;
|}.

(** Truncated power series as stand-ins for [std::sin] and [std::cos]; like
    the C library they give [sin 0 = 0] and [cos 0 = 1] exactly. *)
Module Series.
Local Open Scope float_scope.

(** [1 - q/(k(k+1)) (1 - q/((k+2)(k+3)) (...))] with [q] the square of the
    argument. *)
Fixpoint tail (fuel : nat) (k : Z) (q : float) : float :=
  match fuel with
  | O => 1
  | S fuel' => 1 - q / Double.of_int (k * (k + 1)) * tail fuel' (k + 2) q
  end.

Definition two_pi : float := 6.283185307179586.

(** The argument brought into [-pi, pi]: adding and subtracting [1.5 * 2^52]
    rounds the number of turns to an integer. *)
Definition reduce (x : float) : float :=
  let turns := x / two_pi + 6755399441055744 - 6755399441055744 in
  x - turns * two_pi.

Definition sin (x : float) : float :=
  let y := reduce x in y * tail 15 2 (y * y).
Definition cos (x : float) : float :=
  let y := reduce x in tail 15 1 (y * y).
End Series.

Definition series_libm : Libm := {| sin := Series.sin; cos := Series.cos |}.

(** Two snapshots five years apart whose only non-zero coefficient is
    [g(1,0)], the table they form, and an engine over it. *)
Definition dipole (year : Z) (type : ModelType.t) (g10 : float)
  : Model.t Calendar.t :=
  Model.make (Calendar.make year 1) type
    (<[0 := g10]> (replicate Model.max_coefficient_size 0%float)).

Definition dipole_table : ModelSet.t Calendar.t :=
  ModelSet.make
    [dipole 2000 ModelType.Dgrf (-30000); dipole 2005 ModelType.Igrf (-29000);
     dipole 2010 ModelType.Sv 10].

(** A position on the equator with the epoch January 2002, and an engine
    over the dipole table. *)
Definition equator_2002 : CoordinateBase Calendar.t :=
  Wgs84 (Calendar.make 2002 1) 0 0 0.

Definition dipole_engine : Igrf.t Calendar.t := Igrf.of_model_set dipole_table.

Definition dipole_coefficients : list float :=
  <[0 := (-30000)%float]> (replicate Model.max_coefficient_size 0%float).

Global Existing Instance decimal_conversions.
Global Existing Instance series_libm.

(** A snapshot whose epoch lies in the middle of the year 2000. *)
Definition mid_2000 : Model.t Calendar.t :=
  Model.make (Calendar.make 2000 7) ModelType.Dgrf dipole_coefficients.

(** The three leading words of the row of g(1,0). *)
Definition row_header : list string := ["g"%string; "1"%string; "0"%string].

(** A coefficient file of two columns, with a comment and a blank line, and
    the same file without them; the table they are read to. *)
Definition newline : string := String (ascii_of_nat 10) EmptyString.

Definition small_file : string :=
  String.concat newline
    ["# 13th generation"; "c/s deg ord IGRF SV"; "g/h n m 2020.0 2020-25"; "";
     "g 1 0 -29404.8 5.7"]%string.

Definition small_file_bare : string :=
  String.concat newline
    ["c/s deg ord IGRF SV"; "g/h n m 2020.0 2020-25"; "g 1 0 -29404.8 5.7"]%string.

Definition small_table : ModelSet.t Calendar.t :=
  ModelSet.make
    [Model.make (Calendar.make 2020 1) ModelType.Igrf
       (<[0 := (-29404.8)%float]> (replicate Model.max_coefficient_size 0%float));
     Model.make (Calendar.make 2025 1) ModelType.Sv
       (<[0 := 5.7%float]> (replicate Model.max_coefficient_size 0%float))].

(** A position on the equator in January 2011, after the last snapshot of
    the dipole table. *)
Definition equator_2011 : CoordinateBase Calendar.t :=
  Wgs84 (Calendar.make 2011 1) 0 0 0.

(** A stand-in for the construction of a [DateTime] from a timestamp
    [yyyy-mm-...]: its year and its month. *)
Definition calendar_of_text (s : string) : Calendar.t :=
  let '(y, _, rest) := Decimal.digits s 0 0 in
  let '(mo, _, _) := Decimal.digits (substr 1 (String.length rest) rest) 0 0 in
  Calendar.make y mo.

Global Instance calendar_text : DateTimeText Calendar.t := {|
  dt_of_text := calendar_of_text;
|}.

(** The double nearest to pi/2, the latitude of the north pole, and the C
    library at that argument: [std::sin] returns 1 and [std::cos] returns
    6.123233995736766e-17, the distance from that double to pi/2.  Elsewhere
    the series. *)
Definition half_pi : float := 1.5707963267948966%float.

Definition libm_at_pole : Libm := {|
  sin x := if (x =? half_pi)%float then 1%float else Series.sin x;
  cos x := if (x =? half_pi)%float then 6.123233995736766e-17%float else Series.cos x;
|}.

(** Snapshots with the three coefficients of degree 1, g(1,0), g(1,1) and
    h(1,1), the table of two of them, and the north pole in January 2002. *)
Definition tilted_coefficients : list float :=
  <[0 := (-29404.8)%float]> (<[1 := (-1450.9)%float]> (<[2 := 4652.5%float]>
    (replicate Model.max_coefficient_size 0%float))).

Definition tilted (year : Z) (type : ModelType.t) : Model.t Calendar.t :=
  Model.make (Calendar.make year 1) type tilted_coefficients.

Definition tilted_table : ModelSet.t Calendar.t :=
  ModelSet.make [tilted 2000 ModelType.Dgrf; tilted 2005 ModelType.Igrf].

Definition north_pole : CoordinateBase Calendar.t :=
  Wgs84 (Calendar.make 2002 1) 0 half_pi 0.

(** A table whose lower snapshot is dated July 2000. *)
Definition mid_table : ModelSet.t Calendar.t :=
  ModelSet.make [mid_2000; dipole 2005 ModelType.Igrf (-29000)].

(** * Vocabulary of the statements *)

Definition is_nonzero_finite (x : float) : bool :=
  match Prim2SF x with S754_finite _ _ _ => true | _ => false end.

(** [f] holds of every integer from 1 to [n]. *)
Fixpoint all_upto (n : nat) (f : Z -> bool) : bool :=
  match n with
  | O => true
  | S n' => f (Z.of_nat n) && all_upto n' f
  end.

Definition outcome_fst {A B : Type} (o : outcome (A * B)) : outcome A :=
  match o with
  | Returns ab => Returns ab.1
  | Throws w => Throws w
  | Undefined => Undefined
  end.

(** The elements of [l] comparing below [value] are exactly those before
    position [k]: what [std::lower_bound] requires of its range. *)
Definition partitioned_at {A T : Type} (comp : A -> T -> bool) (l : list A)
    (value : T) (k : nat) : Prop :=
  k <= length l /\
  forall i x, l !! i = Some x -> comp x value = bool_decide (i < k).

(** [i] is the smallest index with [table[i].epoch >= epoch], in a table
    sorted by epoch: the snapshots before [i] lie before the epoch, the
    others do not. *)
Definition bracket_index {DateTime : Type} `{DateTimeApi DateTime}
    (ms : ModelSet.t DateTime) (dt : DateTime) (i : nat) : Prop :=
  partitioned_at (fun m dt => dt_lt (Model.epoch m) dt) (ModelSet.m_models ms) dt i.

(** The engine's working model is an array of [max_coefficient_size]
    doubles. *)
Definition has_array {DateTime : Type} (self : Igrf.t DateTime) : Prop :=
  length (Model.coefficients (Igrf.m_model self)) = Model.max_coefficient_size.

(** The states on entry to the successive turns of a loop. *)
Fixpoint trace {S A : Type} (body : S -> A -> S) (s : S) (l : list A) : list S :=
  match l with
  | [] => []
  | a :: l' => s :: trace body (body s a) l'
  end.

Definition counters (s : Igrf.Loop.t) : Z * Z * Z :=
  (Igrf.Loop.c_idx s, Igrf.Loop.n s, Igrf.Loop.m s).

(** Degree and order a turn of the synthesis loop works on, after its
    [if (n < m)]. *)
Definition current (s : Igrf.Loop.t) : Z * Z :=
  if (Igrf.Loop.n s <? Igrf.Loop.m s)%Z then ((Igrf.Loop.n s + 1)%Z, 0%Z)
  else (Igrf.Loop.n s, Igrf.Loop.m s).

(** Degree, order and the indices [c_lag0] (and [c_lag0 + 1] for [m >= 1])
    at which a turn of the loop reads [m_model.coefficients]. *)
Definition coefficient_reads (s : Igrf.Loop.t) : Z * Z * list Z :=
  let '(n, m) := current s in
  let c_lag0 := (Igrf.Loop.c_idx s - 1)%Z in
  (n, m, if (m =? 0)%Z then [c_lag0] else [c_lag0; (c_lag0 + 1)%Z]).

(** The canonical IGRF column order: for n = 1..13 and m = 0..n, one value
    g(n,0), then the pairs g(n,m), h(n,m). *)
Definition canonical_packing : list (Z * Z * list Z) :=
  n ← seq 1 Model.max_degree;
  m ← seq 0 (n + 1);
  let n := Z.of_nat n in
  let m := Z.of_nat m in
  [(n, m, if (m =? 0)%Z then [n * n - 1]
          else [n * n + 2 * m - 2; n * n + 2 * m - 1])%Z].

(** The part of the loop state that depends on the colatitude only. *)
Definition skeleton (s : Igrf.Loop.t) : Z * Z * Z * list float * list float :=
  (Igrf.Loop.c_idx s, Igrf.Loop.n s, Igrf.Loop.m s, Igrf.Loop.p s, Igrf.Loop.d_p s).

(** [ratio] while the loop works on degree [n]. *)
Fixpoint ratio_at (r : float) (n : nat) : float :=
  match n with
  | O => (Igrf.earth_radius / r) * (Igrf.earth_radius / r)
  | S n' => ratio_at r n' * (Igrf.earth_radius / r)
  end.

(** What the pole branch multiplies [P(n,m)] by. *)
Definition pole_factor (cf : list float) (r ct : float) (cp sp : list float) (n m : Z)
  : float :=
  (ct * ratio_at r (Z.to_nat n)
   * (Igrf.at_ cf (n * n + 2 * m - 1) * Igrf.at_ cp (m - 1)
      - Igrf.at_ cf (n * n + 2 * m - 2) * Igrf.at_ sp (m - 1)))%float.

(** The loop run without coefficients, for its Legendre functions. *)
Definition reference_body (st ct : float) : Igrf.Loop.t -> nat -> Igrf.Loop.t :=
  Igrf.loop_body 1 st ct [] [] [].

(** In turn [k] of the reference run the counters are those of the canonical
    packing and, for [m >= 1], the Legendre function just stored is a zero. *)
Definition turn_ok (st ct : float) (s : Igrf.Loop.t) (k : nat) : bool :=
  let '(n, m) := current s in
  (0 <=? Igrf.Loop.n s)%Z
  && ((m =? 0)%Z
      || (Double.is_zero (Igrf.at_ (Igrf.Loop.p (reference_body st ct s k)) (Z.of_nat k - 1))
          && (Igrf.Loop.c_idx s - 1 =? n * n + 2 * m - 2)%Z
          && (1 <=? m)%Z && (m <=? n)%Z && (n <=? 13)%Z)).

Fixpoint turns_ok (st ct : float) (s : Igrf.Loop.t) (l : list nat) : bool :=
  match l with
  | [] => true
  | k :: l' => turn_ok st ct s k && turns_ok st ct (reference_body st ct s k) l'
  end.

(** The value [std::stod] converts a word to, if it returns. *)
Definition converted `{StringConversions} (w : string) : option float :=
  match stod w with Returns v => Some v | _ => None end.

(** The model a coefficient row leaves when it stores [v] at index [c_i]. *)
Definition with_coefficient {DateTime : Type} (c_i : nat) (m : Model.t DateTime)
    (v : float) : Model.t DateTime :=
  Model.set_coefficients (<[c_i := v]> (Model.coefficients m)) m.

(** The model a word of the model row appends, if any. *)
Definition known_model {DateTime : Type} `{DateTimeApi DateTime} (elm : string)
  : option (Model.t DateTime) :=
  match ModelSet.getModelType elm with
  | ModelType.Unknown => None
  | type => Some (Model.set_type type Model.default)
  end.

(** The epoch a word of the epoch row is converted to, if any. *)
Definition dated {DateTime : Type} `{DateTimeApi DateTime} `{StringConversions}
    (w : string) : option DateTime :=
  if 6 <=? String.length w
  then match ModelSet.epoch_of_word w with Returns e => Some e | _ => None end
  else None.

(** Lines the reader passes over. *)
Definition ignored (line : string) : bool :=
  match ModelSet.getModelFileRowType line with
  | ModelFileRowType.Comment | ModelFileRowType.Unknown => true
  | _ => false
  end.

(** What the reader never changes in a model: its kind and the size of its
    coefficient array. *)
Definition shape {DateTime : Type} (m : Model.t DateTime) : ModelType.t * nat :=
  (Model.type m, length (Model.coefficients m)).

Definition snapshot_kind (k : ModelType.t) : bool :=
  match k with
  | ModelType.Dgrf | ModelType.Igrf | ModelType.Sv => true
  | _ => false
  end.

(** [models'] are the models [models] with the same shapes, followed by
    fresh snapshots. *)
Definition grown {DateTime : Type} (models models' : list (Model.t DateTime)) : Prop :=
  exists kinds,
    forallb snapshot_kind kinds = true /\
    shape <$> models'
    = (shape <$> models) ++ ((fun k => (k, Model.max_coefficient_size)) <$> kinds).

(** The engine after a sequence of queries. *)
Definition run_queries {DateTime : Type} `{DateTimeApi DateTime} `{Libm}
    (qs : list (CoordinateBase DateTime)) (self : Igrf.t DateTime) : Igrf.t DateTime :=
  foldl (fun s q => (Igrf.call q s).2) self qs.

(** A Gauss coefficient of the IGRF column layout. *)
Module Gauss.
Inductive t : Set :=
| g (n m : Z)
| h (n m : Z).
End Gauss.

(** Degrees and orders in the order of the IGRF columns: n = 1..13 and, for
    each n, m = 0..n. *)
Definition orders : list (Z * Z) :=
  n ← seq 1 Model.max_degree;
  m ← seq 0 (n + 1);
  [(Z.of_nat n, Z.of_nat m)].

(** The canonical IGRF column order: g(n,0) for m = 0, then g(n,m), h(n,m). *)
Definition canonical_order : list Gauss.t :=
  '(n, m) ← orders;
  if (m =? 0)%Z then [Gauss.g n m] else [Gauss.g n m; Gauss.h n m].

(** The slot of a coefficient in the array of a snapshot. *)
Definition slot (c : Gauss.t) : Z :=
  match c with
  | Gauss.g n m => if (m =? 0)%Z then n * n - 1 else n * n + 2 * m - 2
  | Gauss.h n m => n * n + 2 * m - 1
  end%Z.

(** The terms one pair (n, m) adds to the three sums, as the specification
    gives them, the products taken in the order of the code:
    [Br += (n+1) ratio coef P], [Btheta -= ratio coef dP], and for m >= 1
    [Bphi -= (m / sin theta) ratio (h cos - g sin) P], at a pole
    [Bphi -= cos theta ratio (h cos - g sin) P]; [coef] is [g] for m = 0 and
    [g cos + h sin] for m >= 1. *)
Definition accumulate (st ct : float) (n m : Z) (ratio g h cos_m sin_m P dP : float)
    (b : float * float * float) : float * float * float :=
  (let coef := if (m =? 0)%Z then g else g * cos_m + h * sin_m in
   (b.1.1 + Double.of_int (n + 1) * (ratio * coef) * P,
    b.1.2 - ratio * coef * dP,
    if (m =? 0)%Z then b.2
    else if st =? 0 then b.2 - ct * ratio * (h * cos_m - g * sin_m) * P
         else b.2 - 1 / st * ratio * Double.of_int m * (h * cos_m - g * sin_m) * P))%float.

(** The three sums of the synthesis loop. *)
Definition sums (s : Igrf.Loop.t) : float * float * float :=
  (Igrf.Loop.b_r s, Igrf.Loop.b_t s, Igrf.Loop.b_p s).

(** The loop state after [j] turns of the synthesis loop. *)
Definition state_after (cf : list float) (r st ct : float) (cp sp : list float) (j : nat)
  : Igrf.Loop.t :=
  foldl (Igrf.loop_body r st ct cp sp cf) (Igrf.loop_init r st ct)
        (take j (seq 2 (Igrf.p_size - 1))).

(** A snapshot whose array has [max_coefficient_size] slots. *)
Definition sized {DateTime : Type} (m : Model.t DateTime) : Prop :=
  length (Model.coefficients m) = Model.max_coefficient_size.

(** The blending fraction in the words of the specification,
    [(epoch - lower.epoch) / (upper.epoch - lower.epoch)]: the three epochs
    as points in time, in fractional years. *)
Definition spec_fraction {DateTime : Type} `{DateTimeApi DateTime}
    (epoch lower upper : DateTime) : float :=
  ((dt_fractionalYears epoch - dt_fractionalYears lower)
   / (dt_fractionalYears upper - dt_fractionalYears lower))%float.

(** Unfold the blending functions down to the fields of the models. *)
Ltac model_fields :=
  unfold Igrf.interpolateModel, Igrf.extrapolateModel, Model.set_type,
    Model.set_epoch, Model.set_coefficients;
  cbn [fst snd Igrf.m_model Igrf.m_model_set Model.coefficients Model.type Model.epoch].

Ltac split_ifs :=
  repeat match goal with |- context [if ?b then _ else _] => destruct b; cbn end.

(** * Properties *)

(** ** IEEE-754 arithmetic on zeros *)

Section DoubleFacts.
Local Open Scope float_scope.
Import Double.

Lemma is_zero_finite x : is_zero x = true -> is_finite x = true.
Proof. unfold is_zero, is_finite. destruct (Prim2SF x); congruence. Qed.

Lemma zero_is_regular x :
  is_zero x = true -> is_zero x = true /\ is_finite x = true /\ is_nan x = false.
Proof.
  unfold is_zero, is_finite, is_nan.
  destruct (Prim2SF x); intros E; try discriminate E; repeat split.
Qed.

Lemma is_zero_cases x : is_zero x = true -> x = 0 \/ x = -0.
Proof.
  unfold is_zero. intros Hx.
  destruct (Prim2SF x) as [s| | |] eqn:E; try discriminate.
  rewrite <- (SF2Prim_Prim2SF x), E. destruct s; [right | left]; reflexivity.
Qed.

Lemma mul_zero_l z d : is_zero z = true -> is_finite d = true -> is_zero (z * d) = true.
Proof.
  unfold is_zero, is_finite. rewrite mul_spec.
  destruct (Prim2SF z), (Prim2SF d); simpl; congruence.
Qed.

Lemma mul_zero_r d z : is_finite d = true -> is_zero z = true -> is_zero (d * z) = true.
Proof.
  unfold is_zero, is_finite. rewrite mul_spec.
  destruct (Prim2SF z), (Prim2SF d); simpl; congruence.
Qed.

Lemma add_zero_r a z : is_zero z = true -> same (a + z) a.
Proof.
  unfold same, is_zero. intros Hz.
  destruct (Prim2SF z) as [sz| | |] eqn:Ez; try discriminate.
  destruct (Prim2SF a) as [sa|sa| |sa ma ea] eqn:Ea.
  - right. rewrite add_spec, Ea, Ez. destruct sa, sz; auto.
  - left. apply Prim2SF_inj. rewrite add_spec, Ea, Ez. reflexivity.
  - left. apply Prim2SF_inj. rewrite add_spec, Ea, Ez. reflexivity.
  - left. apply Prim2SF_inj. rewrite add_spec, Ea, Ez. reflexivity.
Qed.

Lemma sub_zero_zero a z : is_zero a = true -> is_zero z = true -> is_zero (a - z) = true.
Proof.
  unfold is_zero. rewrite sub_spec.
  destruct (Prim2SF a) as [sa| | |], (Prim2SF z) as [sz| | |]; try discriminate.
  destruct sa, sz; reflexivity.
Qed.

Lemma sub_diag x : is_finite x = true -> x - x = 0.
Proof.
  unfold is_finite. intros Hx. apply Prim2SF_inj. rewrite sub_spec.
  destruct (Prim2SF x) as [s| | |s m e]; try discriminate.
  - destruct s; reflexivity.
  - unfold SF64sub, SFsub. rewrite Z.sub_diag. reflexivity.
Qed.

Lemma div_zero_l z k :
  is_zero z = true -> is_nonzero_finite k = true -> is_zero (z / k) = true.
Proof.
  unfold is_zero, is_nonzero_finite. rewrite div_spec.
  destruct (Prim2SF z), (Prim2SF k); simpl; congruence.
Qed.

Lemma all_upto_spec n f k :
  all_upto n f = true -> (1 <= k <= Z.of_nat n)%Z -> f k = true.
Proof.
  induction n as [|n IH]; intros Hall Hk; [lia |].
  simpl in Hall. apply andb_prop in Hall. destruct Hall as [Hn Hall].
  destruct (Z.eq_dec k (Z.of_nat (S n))) as [-> | Hne]; [assumption |].
  apply IH; [assumption | lia].
Qed.

(** A difference of calendar years, other than zero, converts to a finite
    double other than zero. *)
Lemma of_int_nonzero_finite (k : Z) :
  (k <> 0)%Z -> (-9999 <= k <= 9999)%Z -> is_nonzero_finite (of_int k) = true.
Proof.
  intros Hk Hr.
  assert (Hall : all_upto (Z.to_nat 9999)
                   (fun j => is_nonzero_finite (of_int j) && is_nonzero_finite (of_int (- j)))
                 = true) by (vm_compute; reflexivity).
  pose proof (all_upto_spec _ _ (Z.abs k) Hall ltac:(lia)) as Habs.
  apply andb_prop in Habs. destruct Habs as [Hp Hn].
  destruct (Z.abs_spec k) as [[_ E]|[_ E]]; rewrite E in *; [assumption |].
  rewrite Z.opp_involutive in Hn. assumption.
Qed.
Lemma sub_nan_l a x : is_nan a = true -> is_nan (a - x) = true.
Proof.
  unfold is_nan. rewrite sub_spec.
  destruct (Prim2SF a); try discriminate. intros _.
  destruct (Prim2SF x); reflexivity.
Qed.

Lemma sub_nan_r a x : is_nan x = true -> is_nan (a - x) = true.
Proof.
  unfold is_nan. rewrite sub_spec.
  destruct (Prim2SF x); try discriminate. intros _.
  destruct (Prim2SF a); reflexivity.
Qed.

Lemma mul_nonfinite_zero d z :
  is_finite d = false -> is_zero z = true -> is_nan (d * z) = true.
Proof.
  unfold is_finite, is_zero, is_nan. rewrite mul_spec.
  destruct (Prim2SF d); try discriminate; intros _;
    destruct (Prim2SF z); try discriminate; reflexivity.
Qed.
End DoubleFacts.

(** ** [std::lower_bound] on a partitioned sequence *)

Section LowerBoundFacts.
Context {A T : Type} (comp : A -> T -> bool) (l : list A) (value : T).

Lemma lower_bound_from_partition (k len first : nat) :
  partitioned_at comp l value k ->
  first <= k -> k <= first + len -> first + len <= length l ->
  lower_bound_from comp l value first len = k.
Proof.
  intros [Hk Hp]. revert first.
  induction len as [len IH] using lt_wf_ind. intros first H1 H2 H3.
  destruct len as [|j].
  - simp lower_bound_from. lia.
  - simp lower_bound_from.
    pose proof (Nat.div_lt (S j) 2 ltac:(lia) ltac:(lia)) as Hhalf.
    destruct (l !! (first + S j / 2)) as [x|] eqn:E; simpl.
    + rewrite (Hp _ _ E).
      case_bool_decide; apply IH;
        change (Nat.divmod j 1 0 0).1 with (S j / 2); lia.
    + apply lookup_ge_None in E. lia.
Qed.

Lemma lower_bound_partition (k : nat) :
  partitioned_at comp l value k -> lower_bound comp l value = k.
Proof.
  intros Hp. unfold lower_bound.
  apply lower_bound_from_partition; [assumption | lia | | lia].
  destruct Hp as [Hk _]. lia.
Qed.

(** Whatever the sequence, the search stays inside its range. *)
Lemma lower_bound_from_range (len first : nat) :
  first <= lower_bound_from comp l value first len <= first + len.
Proof.
  revert first. induction len as [len IH] using lt_wf_ind. intros first.
  destruct len as [|j].
  - simp lower_bound_from. lia.
  - simp lower_bound_from.
    pose proof (Nat.div_lt (S j) 2 ltac:(lia) ltac:(lia)) as Hhalf.
    destruct (l !! (first + S j / 2)) as [x|] eqn:E; simpl; [| lia].
    destruct (comp x value).
    + pose proof (IH (S j - S j / 2 - 1) ltac:(lia) (first + S j / 2 + 1)) as Hr.
      change (Nat.divmod j 1 0 0).1 with (S j / 2). lia.
    + pose proof (IH (S j / 2) ltac:(lia) first) as Hr.
      change (Nat.divmod j 1 0 0).1 with (S j / 2). lia.
Qed.
End LowerBoundFacts.

(** ** [ModelSet::select] *)

Section SelectFacts.
Context {DateTime : Type} `{DateTimeApi DateTime}.
Implicit Types (ms : ModelSet.t DateTime) (dt : DateTime) (i : nat).

Lemma select_empty ms dt :
  ModelSet.m_models ms = [] -> ModelSet.select ms dt = Throws "ModelSet is empty.".
Proof. intros E. unfold ModelSet.select. rewrite E. reflexivity. Qed.

Lemma select_past_the_end ms dt :
  ModelSet.m_models ms <> [] ->
  bracket_index ms dt (length (ModelSet.m_models ms)) ->
  ModelSet.select ms dt = Throws "ModelSet: no model is found.".
Proof.
  intros Hne Hp. unfold ModelSet.select.
  rewrite (lower_bound_partition _ _ _ _ Hp), Nat.eqb_refl.
  destruct (ModelSet.m_models ms); [congruence | reflexivity].
Qed.

Lemma select_bracket ms dt i :
  bracket_index ms dt (S i) -> S i < length (ModelSet.m_models ms) ->
  exists last next,
    ModelSet.m_models ms !! i = Some last /\
    ModelSet.m_models ms !! S i = Some next /\
    ModelSet.select ms dt = Returns (last, next).
Proof.
  intros Hp Hlt.
  destruct (lookup_lt_is_Some_2 (ModelSet.m_models ms) i ltac:(lia)) as [last Hl].
  destruct (lookup_lt_is_Some_2 (ModelSet.m_models ms) (S i) Hlt) as [next Hn].
  exists last, next. split; [assumption | split; [assumption |]].
  unfold ModelSet.select.
  rewrite (lower_bound_partition _ _ _ _ Hp).
  destruct (Nat.eqb_spec (S i) (length (ModelSet.m_models ms))) as [E|_]; [lia |].
  rewrite Hl, Hn.
  destruct (ModelSet.m_models ms); [discriminate | reflexivity].
Qed.

(** C1: when the epoch does not lie after any snapshot of a non-empty table
    (the smallest index with [table[i].epoch >= epoch] is 0), [select] does
    not throw: it reads the element before the first one, which the language
    leaves undefined. *)
Theorem select_before_first_is_undefined ms dt :
  ModelSet.m_models ms <> [] ->
  (forall m, m ∈ ModelSet.m_models ms -> dt_lt (Model.epoch m) dt = false) ->
  ModelSet.select ms dt = Undefined.
Proof.
  intros Hne Hall.
  assert (Hp : bracket_index ms dt 0).
  { split; [lia |]. intros i x Hx.
    rewrite (Hall x (list_elem_of_lookup_2 _ _ _ Hx)).
    symmetry. apply bool_decide_eq_false. lia. }
  unfold ModelSet.select.
  rewrite (lower_bound_partition _ _ _ _ Hp).
  destruct (ModelSet.m_models ms) as [|m l]; [congruence | reflexivity].
Qed.

(** On a table sorted by epoch, [select] throws for an empty table and for an
    epoch after every snapshot, and otherwise, when the bracket index [i] is
    not 0, returns the snapshots at [i - 1] and [i]; these bracket the epoch. *)
Theorem select_on_sorted_table ms dt i :
  bracket_index ms dt i ->
  match ModelSet.m_models ms with
  | [] => ModelSet.select ms dt = Throws "ModelSet is empty."
  | _ :: _ =>
      (i = length (ModelSet.m_models ms) ->
       ModelSet.select ms dt = Throws "ModelSet: no model is found.") /\
      (0 < i < length (ModelSet.m_models ms) ->
       exists last next,
         ModelSet.m_models ms !! (i - 1) = Some last /\
         ModelSet.m_models ms !! i = Some next /\
         ModelSet.select ms dt = Returns (last, next) /\
         dt_lt (Model.epoch last) dt = true /\
         dt_lt (Model.epoch next) dt = false)
  end.
Proof.
  intros Hp.
  assert (Hend : ModelSet.m_models ms <> [] -> i = length (ModelSet.m_models ms) ->
                 ModelSet.select ms dt = Throws "ModelSet: no model is found.").
  { intros Hne ->. apply select_past_the_end; assumption. }
  assert (Hmid : 0 < i < length (ModelSet.m_models ms) ->
                 exists last next,
                   ModelSet.m_models ms !! (i - 1) = Some last /\
                   ModelSet.m_models ms !! i = Some next /\
                   ModelSet.select ms dt = Returns (last, next) /\
                   dt_lt (Model.epoch last) dt = true /\
                   dt_lt (Model.epoch next) dt = false).
  { intros [Hpos Hlt]. destruct i as [|j]; [lia |].
    destruct (select_bracket ms dt j Hp Hlt) as (last & next & Hl & Hn & Hs).
    replace (S j - 1) with j by lia.
    exists last, next. repeat split; try assumption.
    - destruct Hp as [_ Hp]. rewrite (Hp _ _ Hl). apply bool_decide_eq_true. lia.
    - destruct Hp as [_ Hp]. rewrite (Hp _ _ Hn). apply bool_decide_eq_false. lia. }
  pose proof (select_empty ms dt) as Hempty.
  destruct (ModelSet.m_models ms) as [|m0 l].
  - apply Hempty. reflexivity.
  - split; [apply Hend; discriminate | exact Hmid].
Qed.

(** Whatever the order of the table, the two snapshots [select] returns are
    neighbours in it. *)
Theorem select_returns_neighbours ms dt last next :
  ModelSet.select ms dt = Returns (last, next) ->
  exists i, ModelSet.m_models ms !! i = Some last /\
            ModelSet.m_models ms !! S i = Some next.
Proof.
  unfold ModelSet.select.
  destruct (ModelSet.m_models ms) as [|m0 l] eqn:El; [discriminate |].
  rewrite <- El.
  destruct (_ =? _); [discriminate |].
  destruct (lower_bound _ _ _) as [|before]; [discriminate |].
  destruct (ModelSet.m_models ms !! before) as [a|] eqn:Ea; [| discriminate].
  destruct (ModelSet.m_models ms !! S before) as [b|] eqn:Eb; [| discriminate].
  intros [= <- <-]. exists before. split; assumption.
Qed.
End SelectFacts.

Lemma select_before_first_is_undefined_at_2000 :
  ModelSet.m_models dipole_table <> [] /\
  (forall m, m ∈ ModelSet.m_models dipole_table ->
             dt_lt (Model.epoch m) (Calendar.make 2000 1) = false) /\
  ModelSet.select dipole_table (Calendar.make 2000 1) = Undefined.
Proof.
  assert (Hne : ModelSet.m_models dipole_table <> []) by discriminate.
  assert (Hall : forall m, m ∈ ModelSet.m_models dipole_table ->
                           dt_lt (Model.epoch m) (Calendar.make 2000 1) = false).
  { intros m Hm. unfold dipole_table in Hm. simpl in Hm.
    repeat (apply elem_of_cons in Hm; destruct Hm as [-> | Hm]; [reflexivity |]).
    apply elem_of_nil in Hm. destruct Hm. }
  split; [exact Hne | split; [exact Hall |]].
  exact (select_before_first_is_undefined dipole_table (Calendar.make 2000 1) Hne Hall).
Defined.

Lemma bracket_index_dipole_2002 : bracket_index dipole_table (Calendar.make 2002 1) 1.
Proof.
  split; [simpl; lia |].
  intros i x Hx. destruct i as [|[|[|i]]]; simpl in Hx;
    [injection Hx as <-; reflexivity .. | discriminate].
Qed.

Lemma select_on_sorted_table_at_2002 :
  bracket_index dipole_table (Calendar.make 2002 1) 1 /\
  exists last next,
    ModelSet.select dipole_table (Calendar.make 2002 1) = Returns (last, next) /\
    dt_lt (Model.epoch last) (Calendar.make 2002 1) = true /\
    dt_lt (Model.epoch next) (Calendar.make 2002 1) = false.
Proof.
  split; [exact bracket_index_dipole_2002 |].
  destruct (proj2 (select_on_sorted_table dipole_table (Calendar.make 2002 1) 1
                     bracket_index_dipole_2002)
              ltac:(simpl; lia)) as (last & next & _ & _ & Hs & Hl & Hn).
  exists last, next. repeat split; assumption.
Defined.

Lemma select_returns_neighbours_at_2002 :
  exists last next i,
    ModelSet.select dipole_table (Calendar.make 2002 1) = Returns (last, next) /\
    ModelSet.m_models dipole_table !! i = Some last /\
    ModelSet.m_models dipole_table !! S i = Some next.
Proof.
  exists (dipole 2000 ModelType.Dgrf (-30000)), (dipole 2005 ModelType.Igrf (-29000)).
  assert (Hs : ModelSet.select dipole_table (Calendar.make 2002 1)
               = Returns (dipole 2000 ModelType.Dgrf (-30000),
                          dipole 2005 ModelType.Igrf (-29000)))
    by (vm_compute; reflexivity).
  destruct (select_returns_neighbours dipole_table (Calendar.make 2002 1) _ _ Hs)
    as (i & Hl & Hn).
  exists i. repeat split; assumption.
Defined.

(** ** [ModelSet::read] *)

Section ForEach.
Context {S A : Type} (body : S -> A -> outcome S).

Lemma for_each_app l1 l2 s :
  for_each body (l1 ++ l2) s = (s' ← for_each body l1 s; for_each body l2 s').
Proof.
  revert s. induction l1 as [|a l1 IH]; intros s; [reflexivity |].
  cbn [for_each app]. destruct (body s a) as [s1| |]; cbn; [apply IH | reflexivity | reflexivity].
Qed.

Lemma for_each_never_throws l s :
  (forall s a w, body s a <> Throws w) -> forall w, for_each body l s <> Throws w.
Proof.
  intros Hbody. revert s. induction l as [|a l IH]; intros s w; [discriminate |].
  cbn [for_each]. destruct (body s a) as [s1| |] eqn:E; cbn.
  - apply IH.
  - destruct (Hbody _ _ _ E).
  - discriminate.
Qed.
End ForEach.

Lemma try_catch_all_never_throws {S : Type} (s : S) body w :
  try_catch_all s body <> Throws w.
Proof. destruct body; discriminate. Qed.

Section ReadFacts.
Context {DateTime : Type} `{DateTimeApi DateTime} `{StringConversions}.
Implicit Types (models : list (Model.t DateTime)).

Lemma read_epoch_word_never_throws (st : list (Model.t DateTime) * nat) elm w :
  ModelSet.read_epoch_word st elm <> Throws w.
Proof.
  unfold ModelSet.read_epoch_word.
  destruct (6 <=? String.length elm); [apply try_catch_all_never_throws | discriminate].
Qed.

Lemma read_coefficient_word_never_throws c_i (st : list (Model.t DateTime) * nat * nat) elm w :
  ModelSet.read_coefficient_word c_i st elm <> Throws w.
Proof.
  destruct st as [[models m_i] colum]. unfold ModelSet.read_coefficient_word.
  destruct (3 <=? colum).
  - match goal with |- context [try_catch_all ?s ?b] =>
      pose proof (try_catch_all_never_throws s b) as Hn;
      destruct (try_catch_all s b) end; cbn; [discriminate | destruct (Hn what); reflexivity | discriminate].
  - discriminate.
Qed.

Lemma read_epoch_row_never_throws (st : list (Model.t DateTime) * nat) ws w : ModelSet.read_epoch_row st ws <> Throws w.
Proof.
  unfold ModelSet.read_epoch_row.
  pose proof (for_each_never_throws ModelSet.read_epoch_word ws (st.1, 0)
                read_epoch_word_never_throws) as Hn.
  destruct (for_each _ _ _); cbn; [discriminate | destruct (Hn what); reflexivity | discriminate].
Qed.

Lemma read_coefficient_row_never_throws (st : list (Model.t DateTime) * nat) ws w :
  ModelSet.read_coefficient_row st ws <> Throws w.
Proof.
  unfold ModelSet.read_coefficient_row.
  pose proof (for_each_never_throws (ModelSet.read_coefficient_word st.2) ws (st.1, 0, 0)
                (read_coefficient_word_never_throws st.2)) as Hn.
  destruct (for_each _ _ _); cbn; [discriminate | destruct (Hn what); reflexivity | discriminate].
Qed.

Lemma read_line_never_throws (st : list (Model.t DateTime) * nat) line w : ModelSet.read_line st line <> Throws w.
Proof.
  unfold ModelSet.read_line.
  destruct (ModelSet.getModelFileRowType line);
    first [discriminate | apply read_epoch_row_never_throws
           | apply read_coefficient_row_never_throws].
Qed.

Lemma read_never_throws stream (ms : ModelSet.t DateTime) w : ModelSet.read stream ms <> Throws w.
Proof.
  unfold ModelSet.read.
  pose proof (for_each_never_throws ModelSet.read_line (getlines stream)
                (ModelSet.m_models ms, 0) read_line_never_throws) as Hn.
  destruct (for_each _ _ _); cbn; [discriminate | destruct (Hn what); reflexivity | discriminate].
Qed.

(** Past the third column the column counter has no influence. *)
Lemma read_coefficient_words_colum c_i ws models m_i colum colum' :
  3 <= colum -> 3 <= colum' ->
  outcome_fst (for_each (ModelSet.read_coefficient_word c_i) ws (models, m_i, colum))
  = outcome_fst (for_each (ModelSet.read_coefficient_word c_i) ws (models, m_i, colum')).
Proof.
  revert models m_i colum colum'.
  induction ws as [|elm ws IH]; intros models m_i colum colum' Hc Hc'; [reflexivity |].
  cbn [for_each]. unfold ModelSet.read_coefficient_word at 2 4.
  destruct (Nat.leb_spec 3 colum) as [_|]; [| lia].
  destruct (Nat.leb_spec 3 colum') as [_|]; [| lia].
  match goal with |- context [try_catch_all ?s ?b] => destruct (try_catch_all s b) as [r| |] end;
    cbn; [| reflexivity | reflexivity].
  destruct r as [models1 m_i1]. cbn [fst snd]. apply IH; lia.
Qed.

Lemma read_coefficient_words_count c_i ws models m_i colum r :
  for_each (ModelSet.read_coefficient_word c_i) ws (models, m_i, colum) = Returns r ->
  r.2 = colum + length ws.
Proof.
  revert models m_i colum.
  induction ws as [|elm ws IH]; intros models m_i colum E.
  - injection E as <-. cbn. lia.
  - cbn [for_each] in E. unfold ModelSet.read_coefficient_word at 2 in E.
    destruct (3 <=? colum).
    + match type of E with context [try_catch_all ?s ?b] =>
        destruct (try_catch_all s b) as [q| |] end; cbn in E; try discriminate.
      apply IH in E. cbn [length]. lia.
    + cbn in E. apply IH in E. cbn [length]. lia.
Qed.

(** C9: no word of a stream makes the reader leave by an exception; a word
    of a coefficient row (from the fourth column on) that [std::stod] cannot
    convert, and a word of the epoch row that cannot be converted to a date,
    are skipped: the row is read as if the word were not there. *)
Theorem read_skips_unparsable_words :
  (forall stream (ms : ModelSet.t DateTime) w, ModelSet.read stream ms <> Throws w) /\
  (forall (st : list (Model.t DateTime) * nat) pre bad post w,
      3 <= length pre -> stod bad = Throws w ->
      ModelSet.read_coefficient_row st (pre ++ bad :: post)
      = ModelSet.read_coefficient_row st (pre ++ post)) /\
  (forall (st : list (Model.t DateTime) * nat) pre bad post w,
      ModelSet.epoch_of_word bad = Throws w ->
      ModelSet.read_epoch_row st (pre ++ bad :: post)
      = ModelSet.read_epoch_row st (pre ++ post)).
Proof.
  split; [exact read_never_throws | split].
  - intros st pre bad post w Hpre Hbad.
    unfold ModelSet.read_coefficient_row. rewrite !for_each_app.
    destruct (for_each (ModelSet.read_coefficient_word st.2) pre (st.1, 0, 0))
      as [[[models m_i] colum]| |] eqn:Epre; cbn [mbind outcome_bind];
      [| reflexivity | reflexivity].
    apply read_coefficient_words_count in Epre. cbn in Epre.
    cbn [for_each]. unfold ModelSet.read_coefficient_word at 2.
    destruct (Nat.leb_spec 3 colum) as [_|]; [| lia].
    rewrite Hbad. cbn [mbind outcome_bind try_catch_all fst snd].
    pose proof (read_coefficient_words_colum st.2 post models m_i (colum + 1) colum
                  ltac:(lia) ltac:(lia)) as Hsame.
    destruct (for_each _ post (models, m_i, colum + 1)) as [[q c]| |];
      destruct (for_each _ post (models, m_i, colum)) as [[q' c']| |];
      cbn in Hsame; try discriminate; [| congruence | reflexivity].
    injection Hsame as ->. reflexivity.
  - intros st pre bad post w Hbad.
    unfold ModelSet.read_epoch_row. rewrite !for_each_app.
    destruct (for_each ModelSet.read_epoch_word pre (st.1, 0)) as [s1| |];
      cbn [mbind outcome_bind]; [| reflexivity | reflexivity].
    cbn [for_each]. unfold ModelSet.read_epoch_word at 2.
    rewrite Hbad. destruct (6 <=? String.length bad); reflexivity.
Qed.
End ReadFacts.

Lemma read_skips_unparsable_words_in_a_row :
  stod "n/a" = Throws "stod" /\
  ModelSet.read_coefficient_row
    (ModelSet.m_models dipole_table, 0) (row_header ++ "n/a"%string :: ["-29404.8"%string])
  = ModelSet.read_coefficient_row
      (ModelSet.m_models dipole_table, 0) (row_header ++ ["-29404.8"%string]).
Proof.
  split; [reflexivity |].
  exact (proj1 (proj2 read_skips_unparsable_words)
           (ModelSet.m_models dipole_table, 0) row_header "n/a"%string ["-29404.8"%string]
           "stod"%string (le_n 3) eq_refl).
Defined.

(** ** [Igrf]: blending, normalisation and the call operator *)

Section TransformFacts.
Implicit Types (a b dst : list float) (op : float -> float -> float).

Lemma length_foldl_insert (g : nat -> float) dst n :
  length (foldl (fun d j => <[j := g j]> d) dst (seq 0 n)) = length dst.
Proof.
  induction n as [|n IH]; [reflexivity |].
  rewrite seq_S, foldl_app. simpl. rewrite length_insert. exact IH.
Qed.

Lemma lookup_foldl_insert (g : nat -> float) dst n i :
  i < n -> i < length dst ->
  foldl (fun d j => <[j := g j]> d) dst (seq 0 n) !! i = Some (g i).
Proof.
  intros Hn Hlen. induction n as [|n IH]; [lia |].
  rewrite seq_S, foldl_app. simpl.
  destruct (decide (i = n)) as [-> | Hne].
  - apply list_lookup_insert_eq. rewrite length_foldl_insert. exact Hlen.
  - rewrite list_lookup_insert_ne by congruence. apply IH. lia.
Qed.

Lemma length_transform op a b dst :
  length (Igrf.transform op a b dst) = length dst.
Proof. apply length_foldl_insert. Qed.

Lemma lookup_transform op a b dst i :
  i < Model.max_coefficient_size -> length dst = Model.max_coefficient_size ->
  Igrf.transform op a b dst !! i = Some (op (a !!! i) (b !!! i)).
Proof.
  intros Hi Hlen. unfold Igrf.transform.
  apply (lookup_foldl_insert (fun j => op (a !!! j) (b !!! j))); lia.
Qed.

(** The transform overwrites the whole destination array. *)
Lemma transform_overwrites op a b dst dst' :
  length dst = Model.max_coefficient_size -> length dst' = Model.max_coefficient_size ->
  Igrf.transform op a b dst = Igrf.transform op a b dst'.
Proof.
  intros Hd Hd'. apply list_eq. intros i.
  destruct (decide (i < Model.max_coefficient_size)) as [Hi | Hi].
  - rewrite !lookup_transform by assumption. reflexivity.
  - rewrite !lookup_ge_None_2; [reflexivity | |]; rewrite length_transform; lia.
Qed.
End TransformFacts.

Section BlendFacts.
Context {DateTime : Type} `{DateTimeApi DateTime} `{Libm}.
Local Open Scope float_scope.
Implicit Types (self : Igrf.t DateTime) (dt : DateTime) (last next model : Model.t DateTime).

(** C4, amended: when [select] returns the pair (last, next),
    [initializeModel] leaves a working model whose coefficients are
    [c_lower + f (c_upper - c_lower)], tagged [Interpolated], when the upper
    snapshot is not a secular variation, and [c_lower + delta_t c_upper],
    tagged [Extrapolated], when it is.  The epoch of the query enters
    through [fractionalYears()], the epochs of the snapshots through their
    calendar year [year()]:
    [f = (fractionalYears(dt) - year(lower)) / (year(upper) - year(lower))]
    and [delta_t = fractionalYears(dt) - year(lower)]. *)
Theorem initializeModel_blends dt self last next :
  has_array self ->
  ModelSet.select (Igrf.m_model_set self) dt = Returns (last, next) ->
  let model := Igrf.m_model (Igrf.initializeModel dt self).2 in
  (Igrf.initializeModel dt self).1 = Returns tt /\
  forall i, (i < Model.max_coefficient_size)%nat ->
    let c_lower := Model.coefficients last !!! i in
    let c_upper := Model.coefficients next !!! i in
    match Model.type next with
    | ModelType.Sv =>
        let delta_t := dt_fractionalYears dt - Double.of_int (dt_year (Model.epoch last)) in
        Model.type model = ModelType.Extrapolated /\
        Model.coefficients model !! i = Some (c_lower + delta_t * c_upper)
    | _ =>
        let f := (dt_fractionalYears dt - Double.of_int (dt_year (Model.epoch last)))
                 / Double.of_int (dt_year (Model.epoch next) - dt_year (Model.epoch last)) in
        Model.type model = ModelType.Interpolated /\
        Model.coefficients model !! i = Some (c_lower + f * (c_upper - c_lower))
    end.
Proof.
  intros Harr Hsel. unfold Igrf.initializeModel. rewrite Hsel.
  destruct (Model.type next) eqn:Et; cbn [negb ModelType.eqb]; model_fields;
    (split; [reflexivity |]); intros i Hi;
    (split; [reflexivity |]);
    rewrite lookup_transform by assumption; reflexivity.
Qed.

Lemma lookup_total_transform op (a b dst : list float) i :
  (i < Model.max_coefficient_size)%nat -> length dst = Model.max_coefficient_size ->
  Igrf.transform op a b dst !!! i = op (a !!! i) (b !!! i).
Proof.
  intros Hi Hlen. apply list_lookup_total_correct, lookup_transform; assumption.
Qed.

(** C5, amended: blending at the epoch of the lower snapshot [S] gives back
    the coefficients of [S], up to the sign of a zero, when that epoch is the
    start of its calendar year ([fractionalYears() = year()]) and, per
    coefficient, the difference to the upper snapshot (interpolation, whose
    upper snapshot lies in another calendar year) or the rate
    (extrapolation) is finite. *)
Theorem blend_at_own_epoch (S U : Model.t DateTime) model i :
  length (Model.coefficients model) = Model.max_coefficient_size ->
  (i < Model.max_coefficient_size)%nat ->
  dt_fractionalYears (Model.epoch S) = Double.of_int (dt_year (Model.epoch S)) ->
  Double.is_finite (dt_fractionalYears (Model.epoch S)) = true ->
  let c_S := Model.coefficients S !!! i in
  let c_U := Model.coefficients U !!! i in
  ((dt_year (Model.epoch U) - dt_year (Model.epoch S) <> 0)%Z ->
   (-9999 <= dt_year (Model.epoch U) - dt_year (Model.epoch S) <= 9999)%Z ->
   Double.is_finite (c_U - c_S) = true ->
   Double.same
     (Model.coefficients (Igrf.interpolateModel (Model.epoch S) S U model) !!! i) c_S)
  /\
  (Double.is_finite c_U = true ->
   Double.same
     (Model.coefficients (Igrf.extrapolateModel (Model.epoch S) S U model) !!! i) c_S).
Proof.
  intros Hlen Hi Hfy Hfin c_S c_U.
  assert (Hnum : dt_fractionalYears (Model.epoch S)
                 - Double.of_int (dt_year (Model.epoch S)) = 0).
  { rewrite <- Hfy. apply sub_diag, Hfin. }
  split.
  - intros Hne Hrange Hd. unfold Igrf.interpolateModel, Model.set_coefficients, Model.coefficients.
    rewrite lookup_total_transform by assumption. rewrite Hnum.
    apply add_zero_r, mul_zero_l; [| exact Hd].
    apply div_zero_l; [reflexivity |].
    apply of_int_nonzero_finite; assumption.
  - intros Hd. unfold Igrf.extrapolateModel, Model.set_coefficients, Model.coefficients.
    rewrite lookup_total_transform by assumption. rewrite Hnum.
    apply add_zero_r, mul_zero_l; [reflexivity | exact Hd].
Qed.

Lemma initializeModel_model_set dt self :
  Igrf.m_model_set (Igrf.initializeModel dt self).2 = Igrf.m_model_set self.
Proof.
  unfold Igrf.initializeModel.
  destruct (ModelSet.select _ _) as [[last next]| |]; [| reflexivity | reflexivity].
  destruct (negb _); reflexivity.
Qed.

Lemma initializeModel_has_array dt self :
  has_array self -> has_array (Igrf.initializeModel dt self).2.
Proof.
  unfold Igrf.initializeModel, has_array. intros Harr.
  destruct (ModelSet.select _ _) as [[last next]| |]; [| assumption | assumption].
  destruct (negb _); model_fields; rewrite length_transform; exact Harr.
Qed.

(** The working model left by [initializeModel] does not depend on the one
    it overwrites. *)
Lemma initializeModel_fresh dt self self' :
  Igrf.m_model_set self = Igrf.m_model_set self' -> has_array self -> has_array self' ->
  Igrf.initializeModel dt self = Igrf.initializeModel dt self' \/
  (Igrf.initializeModel dt self).1 = (Igrf.initializeModel dt self').1 /\
  (Igrf.initializeModel dt self).1 <> Returns tt.
Proof.
  intros Hset Harr Harr'. unfold Igrf.initializeModel. rewrite <- Hset.
  destruct (ModelSet.select _ _) as [[last next]| |];
    [| right; split; [reflexivity | discriminate]
     | right; split; [reflexivity | discriminate]].
  left. destruct (negb _); model_fields;
    rewrite (transform_overwrites _ _ _ _ _ Harr Harr'); reflexivity.
Qed.

Lemma call_fresh position self self' :
  Igrf.m_model_set self = Igrf.m_model_set self' -> has_array self -> has_array self' ->
  (Igrf.call position self).1 = (Igrf.call position self').1.
Proof.
  intros Hset Harr Harr'.
  unfold Igrf.call, Igrf.updatePositionAndMag.
  destruct (initializeModel_fresh (c_epoch position) self self' Hset Harr Harr')
    as [-> | [E Hne]]; [reflexivity |].
  destruct (Igrf.initializeModel (c_epoch position) self) as [[[]| |] s1];
    destruct (Igrf.initializeModel (c_epoch position) self') as [[[]| |] s2];
    cbn [fst snd] in *; try discriminate; try congruence.
Qed.

Lemma call_keeps position self :
  has_array self ->
  has_array (Igrf.call position self).2 /\
  Igrf.m_model_set (Igrf.call position self).2 = Igrf.m_model_set self.
Proof.
  intros Harr.
  pose proof (initializeModel_has_array (c_epoch position) self Harr) as Ha.
  pose proof (initializeModel_model_set (c_epoch position) self) as Hs.
  unfold Igrf.call, Igrf.updatePositionAndMag.
  destruct (Igrf.initializeModel (c_epoch position) self) as [[[]| |] s1];
    cbn [fst snd] in *; auto.
Qed.

(** C7: a query evaluated after another query on the same engine returns
    what it returns on an engine freshly built over the same table. *)
Theorem call_after_call model_set p1 p2 :
  (Igrf.call p1 (Igrf.of_model_set model_set)).1 <> Undefined ->
  (Igrf.call p2 (Igrf.call p1 (Igrf.of_model_set model_set)).2).1
  = (Igrf.call p2 (Igrf.of_model_set model_set)).1.
Proof.
  intros _.
  assert (Harr : has_array (Igrf.of_model_set model_set)).
  { unfold has_array. apply length_replicate. }
  destruct (call_keeps p1 _ Harr) as [Ha Hs].
  apply call_fresh; assumption.
Qed.
(** C8: for a geodetic position of latitude 0 and height 0 the
    normalisation returns the radius [wgs84_a], the colatitude of the equator
    and no rotation ([cos_delta = 1], [sin_delta = 0]). *)
Theorem normalize_equator (e : DateTime) (lon : float) :
  sin 0 = 0 -> cos 0 = 1 ->
  Igrf.normalize (Wgs84 e lon 0 0)
  = Returns (Igrf.normalized constant.wgs84_a 0 1 1 0).
Proof.
  intros Hs Hc. unfold Igrf.normalize, Wgs84.
  cbn [c_type latitude altitude]. rewrite Hs, Hc.
  vm_compute. reflexivity.
Qed.

(** C2, amended: when the epoch is bracketed and the kind of the position is
    known, the call operator returns the synthesised vector (north, east,
    down, in nanotesla) multiplied by [nanotesla_to_tesla = 1.0e-9]: the
    result is in tesla. *)
Theorem call_returns_tesla position self last next nz :
  ModelSet.select (Igrf.m_model_set self) (c_epoch position) = Returns (last, next) ->
  Igrf.normalize position = Returns nz ->
  exists north east down,
    (Igrf.updatePositionAndMag position self).1 = Returns (vector3d north east down) /\
    (Igrf.call position self).1
    = Returns (vector3d (north * Igrf.nanotesla_to_tesla) (east * Igrf.nanotesla_to_tesla)
                 (down * Igrf.nanotesla_to_tesla)) /\
    let s :=
      Igrf.synthesize
        (Model.coefficients (Igrf.m_model (Igrf.initializeModel (c_epoch position) self).2))
        (Igrf.nz_r nz) (Igrf.nz_sin_theta nz) (Igrf.nz_cos_theta nz)
        ((fun m => cos (Double.of_int (Z.of_nat m) * longitude position))
           <$> seq 1 Model.max_degree)
        ((fun m => sin (Double.of_int (Z.of_nat m) * longitude position))
           <$> seq 1 Model.max_degree) in
    north = - Igrf.Loop.b_t s * Igrf.nz_cos_delta nz - Igrf.Loop.b_r s * Igrf.nz_sin_delta nz /\
    east = Igrf.Loop.b_p s /\
    down = Igrf.Loop.b_t s * Igrf.nz_sin_delta nz - Igrf.Loop.b_r s * Igrf.nz_cos_delta nz.
Proof.
  intros Hsel Hnz.
  unfold Igrf.call, Igrf.updatePositionAndMag.
  assert (Hinit : (Igrf.initializeModel (c_epoch position) self).1 = Returns tt).
  { unfold Igrf.initializeModel. rewrite Hsel. destruct (negb _); reflexivity. }
  destruct (Igrf.initializeModel (c_epoch position) self) as [o self'] eqn:E.
  cbn [fst snd] in *. subst o.
  unfold Igrf.calculateMagDensity. rewrite Hnz.
  eexists _, _, _. cbn [fst snd mbind outcome_bind Igrf.rotate scale v_x v_y v_z].
  split; [reflexivity |]. split; [reflexivity |].
  repeat split.
Qed.

(** C10: built in the unit [Si], [Tesla], [Mks] or [Mksa], the wrapper
    returns what the engine over the same table returns, and leaves the same
    engine behind. *)
Theorem GeoMagFlux_tesla_agrees_with_Igrf model_set position unit :
  unit = MagFluxUnit.Si \/ unit = MagFluxUnit.Tesla \/
  unit = MagFluxUnit.Mks \/ unit = MagFluxUnit.Mksa ->
  (GeoMagFlux.call position (GeoMagFlux.of_model_set model_set unit)).1
  = (Igrf.call position (Igrf.of_model_set model_set)).1 /\
  GeoMagFlux.base (GeoMagFlux.call position (GeoMagFlux.of_model_set model_set unit)).2
  = (Igrf.call position (Igrf.of_model_set model_set)).2.
Proof.
  intros Hunit.
  assert (Hscale : GeoMagFlux.m_unit_scale (GeoMagFlux.of_model_set model_set unit)
                   = Igrf.nanotesla_to_tesla /\
                   GeoMagFlux.base (GeoMagFlux.of_model_set model_set unit)
                   = Igrf.of_model_set model_set).
  { destruct Hunit as [-> | [-> | [-> | ->]]]; split; reflexivity. }
  destruct Hscale as [Hscale Hbase].
  unfold GeoMagFlux.call, Igrf.call. rewrite Hscale, Hbase.
  destruct (Igrf.updatePositionAndMag position (Igrf.of_model_set model_set)) as [o b].
  split; reflexivity.
Qed.
End BlendFacts.

(** ** The synthesis loop: the order in which coefficients are read *)

Section Packing.
Local Open Scope float_scope.

Lemma loop_body_counters r st ct cp sp cf r' st' ct' cp' sp' cf' s s' k :
  counters s = counters s' ->
  counters (Igrf.loop_body r st ct cp sp cf s k)
  = counters (Igrf.loop_body r' st' ct' cp' sp' cf' s' k).
Proof.
  destruct s, s'. unfold counters. cbn. intros [= -> -> ->].
  unfold Igrf.loop_body. cbn.
  destruct (n0 <? m0)%Z; cbn; split_ifs; reflexivity.
Qed.

(** A turn of the loop depends on the coefficients through the indices
    [coefficient_reads] lists, and through nothing else. *)
Lemma loop_body_coefficients r st ct cp sp cf cf' s k :
  (forall i, i ∈ (coefficient_reads s).2 -> Igrf.at_ cf i = Igrf.at_ cf' i) ->
  Igrf.loop_body r st ct cp sp cf s k = Igrf.loop_body r st ct cp sp cf' s k.
Proof.
  destruct s. unfold coefficient_reads, current, Igrf.loop_body. cbn.
  destruct (n <? m)%Z; cbn.
  - intros Hr. rewrite (Hr (c_idx - 1)%Z) by (rewrite !elem_of_cons; auto).
    reflexivity.
  - intros Hr. destruct (m =? 0)%Z eqn:Em; cbn in *.
    + rewrite (Hr (c_idx - 1)%Z) by (rewrite !elem_of_cons; auto).
      split_ifs; reflexivity.
    + rewrite (Hr (c_idx - 1)%Z) by (rewrite !elem_of_cons; auto).
      rewrite (Hr (c_idx - 1 + 1)%Z) by (rewrite !elem_of_cons; auto).
      split_ifs; reflexivity.
Qed.

Lemma map_trace_counters (f : Z * Z * Z -> Z * Z * list Z)
    r st ct cp sp cf r' st' ct' cp' sp' cf' l s s' :
  counters s = counters s' ->
  map (fun s => f (counters s)) (trace (Igrf.loop_body r st ct cp sp cf) s l)
  = map (fun s => f (counters s)) (trace (Igrf.loop_body r' st' ct' cp' sp' cf') s' l).
Proof.
  revert s s'. induction l as [|k l IH]; intros s s' E; simpl; [reflexivity |].
  rewrite E. f_equal. apply IH, loop_body_counters, E.
Qed.

Lemma reads_canonical r st ct cp sp cf :
  map coefficient_reads
    (trace (Igrf.loop_body r st ct cp sp cf) (Igrf.loop_init r st ct) (seq 2 (Igrf.p_size - 1)))
  = canonical_packing.
Proof.
  transitivity
    (map coefficient_reads
       (trace (Igrf.loop_body 1 0 1 [] [] []) (Igrf.loop_init 1 0 1) (seq 2 (Igrf.p_size - 1)))).
  - apply (map_trace_counters
             (fun c => coefficient_reads (Igrf.Loop.make c.1.1 c.1.2 c.2 0 [] [] 0 0 0))).
    reflexivity.
  - vm_compute. reflexivity.
Qed.

Lemma foldl_loop_body_coefficients r st ct cp sp cf cf' l s :
  (forall x i, x ∈ map coefficient_reads (trace (Igrf.loop_body r st ct cp sp cf) s l) ->
               i ∈ x.2 -> Igrf.at_ cf i = Igrf.at_ cf' i) ->
  foldl (Igrf.loop_body r st ct cp sp cf) s l = foldl (Igrf.loop_body r st ct cp sp cf') s l.
Proof.
  revert s. induction l as [|k l IH]; intros s Hr; simpl; [reflexivity |].
  rewrite <- (loop_body_coefficients r st ct cp sp cf cf' s k).
  - apply IH. intros x i Hx. apply Hr. simpl. rewrite elem_of_cons. auto.
  - intros i. apply Hr. simpl. rewrite elem_of_cons. auto.
Qed.

Lemma canonical_packing_bound x i :
  x ∈ canonical_packing -> i ∈ x.2 -> (0 <= i < 195)%Z.
Proof.
  intros Hx Hi.
  assert (Hall : forallb (fun x => forallb (fun i => (0 <=? i)%Z && (i <? 195)%Z) x.2)
                   canonical_packing = true) by (vm_compute; reflexivity).
  rewrite forallb_forall in Hall.
  apply list_elem_of_In in Hx. specialize (Hall x Hx).
  rewrite forallb_forall in Hall.
  apply list_elem_of_In in Hi. specialize (Hall i Hi). lia.
Qed.

Lemma synthesize_take cf r st ct cp sp :
  Igrf.synthesize cf r st ct cp sp = Igrf.synthesize (take 195 cf) r st ct cp sp.
Proof.
  unfold Igrf.synthesize. apply foldl_loop_body_coefficients.
  rewrite reads_canonical. intros x i Hx Hi.
  destruct (canonical_packing_bound x i Hx Hi) as [Hlo Hhi].
  unfold Igrf.at_. symmetry. apply lookup_total_take_lt. lia.
Qed.
End Packing.

(** ** The synthesis loop, turn by turn *)

Section Turns.

(** The sums after a turn, on every loop state: the terms of the pair the
    turn works on, with g read at [c_idx - 1] and h right after it. *)
Lemma loop_body_accumulates r st ct cp sp cf s k :
  sums (Igrf.loop_body r st ct cp sp cf s k)
  = accumulate st ct (current s).1 (current s).2
      (Igrf.Loop.ratio (Igrf.loop_body r st ct cp sp cf s k))
      (Igrf.at_ cf (Igrf.Loop.c_idx s - 1)) (Igrf.at_ cf (Igrf.Loop.c_idx s - 1 + 1))
      (Igrf.at_ cp ((current s).2 - 1)) (Igrf.at_ sp ((current s).2 - 1))
      (Igrf.at_ (Igrf.Loop.p (Igrf.loop_body r st ct cp sp cf s k)) (Z.of_nat k - 1))
      (Igrf.at_ (Igrf.Loop.d_p (Igrf.loop_body r st ct cp sp cf s k)) (Z.of_nat k - 1))
      (sums s).
Proof.
  destruct s. unfold sums, accumulate, current, Igrf.loop_body. cbn.
  destruct (n <? m)%Z; cbn.
  - split_ifs; reflexivity.
  - destruct (m =? 0)%Z eqn:Em; cbn; split_ifs; reflexivity.
Qed.

Lemma trace_lookup {S A : Type} (body : S -> A -> S) (s : S) (l : list A) (j : nat) :
  (j < length l)%nat -> trace body s l !! j = Some (foldl body s (take j l)).
Proof.
  revert s j. induction l as [|a l IH]; intros s j Hj; cbn in Hj; [lia |].
  destruct j as [|j]; [reflexivity |]. cbn. apply IH. lia.
Qed.

Lemma foldl_take_S {S A : Type} (body : S -> A -> S) (s : S) (l : list A) (j : nat) a :
  l !! j = Some a -> foldl body s (take (Datatypes.S j) l) = body (foldl body s (take j l)) a.
Proof.
  intros Ha. rewrite (take_S_r l j a Ha), foldl_app. reflexivity.
Qed.

Lemma canonical_packing_slots :
  canonical_packing
  = (fun nm : Z * Z =>
       (nm.1, nm.2,
        if (nm.2 =? 0)%Z then [slot (Gauss.g nm.1 nm.2)]
        else [slot (Gauss.g nm.1 nm.2); slot (Gauss.h nm.1 nm.2)])) <$> orders.
Proof. vm_compute. reflexivity. Qed.

Lemma length_orders : length orders = (Igrf.p_size - 1)%nat.
Proof. vm_compute. reflexivity. Qed.

(** Turn [j] of the loop works on the [j]-th pair of the column order and
    reads the coefficients of that pair from their slots. *)
Lemma state_after_reads cf r st ct cp sp j n m :
  orders !! j = Some (n, m) ->
  current (state_after cf r st ct cp sp j) = (n, m) /\
  (Igrf.Loop.c_idx (state_after cf r st ct cp sp j) - 1 = slot (Gauss.g n m))%Z /\
  (m <> 0 -> Igrf.Loop.c_idx (state_after cf r st ct cp sp j) - 1 + 1 = slot (Gauss.h n m))%Z.
Proof.
  intros Hj.
  assert (Hlt : (j < length (seq 2 (Igrf.p_size - 1)))%nat).
  { rewrite length_seq, <- length_orders. apply lookup_lt_is_Some. eauto. }
  pose proof (reads_canonical r st ct cp sp cf) as Hc.
  apply (f_equal (fun l => l !! j)) in Hc.
  rewrite list_lookup_fmap, (trace_lookup _ _ _ _ Hlt) in Hc.
  rewrite canonical_packing_slots, list_lookup_fmap, Hj in Hc.
  cbn [fmap option_fmap option_map fst snd] in Hc.
  fold (state_after cf r st ct cp sp j) in Hc.
  injection Hc as Hc. revert Hc.
  unfold coefficient_reads.
  destruct (current (state_after cf r st ct cp sp j)) as [n' m'].
  intros E.
  pose proof (f_equal (fun x : Z * Z * list Z => x.1.1) E) as E1.
  pose proof (f_equal (fun x : Z * Z * list Z => x.1.2) E) as E2.
  pose proof (f_equal (fun x : Z * Z * list Z => x.2) E) as E3.
  cbn [fst snd] in E1, E2, E3. subst n' m'. clear E.
  split; [reflexivity |]. cbn [slot].
  destruct (m =? 0)%Z eqn:Em.
  - split; [congruence |]. intros Hne. apply Z.eqb_eq in Em. contradiction.
  - split; [congruence | intros _; congruence].
Qed.

Lemma state_after_step cf r st ct cp sp j n m :
  orders !! j = Some (n, m) ->
  state_after cf r st ct cp sp (S j)
  = Igrf.loop_body r st ct cp sp cf (state_after cf r st ct cp sp j) (2 + j).
Proof.
  intros Hj. unfold state_after. apply foldl_take_S, lookup_seq.
  split; [reflexivity |]. rewrite <- length_orders. apply lookup_lt_is_Some. eauto.
Qed.

Lemma state_after_sums cf r st ct cp sp j n m :
  orders !! j = Some (n, m) ->
  current (state_after cf r st ct cp sp j) = (n, m) /\
  sums (state_after cf r st ct cp sp (S j))
  = accumulate st ct n m
      (Igrf.Loop.ratio (state_after cf r st ct cp sp (S j)))
      (Igrf.at_ cf (slot (Gauss.g n m))) (Igrf.at_ cf (slot (Gauss.h n m)))
      (Igrf.at_ cp (m - 1)%Z) (Igrf.at_ sp (m - 1)%Z)
      (Igrf.at_ (Igrf.Loop.p (state_after cf r st ct cp sp (S j))) (Z.of_nat j + 1)%Z)
      (Igrf.at_ (Igrf.Loop.d_p (state_after cf r st ct cp sp (S j))) (Z.of_nat j + 1)%Z)
      (sums (state_after cf r st ct cp sp j)).
Proof.
  intros Hj. destruct (state_after_reads cf r st ct cp sp j n m Hj) as (Hcur & Hg & Hh).
  split; [exact Hcur |].
  assert (Hk : seq 2 (Igrf.p_size - 1) !! j = Some (2 + j)%nat).
  { apply lookup_seq. split; [reflexivity |].
    rewrite <- length_orders. apply lookup_lt_is_Some. eauto. }
  assert (Hs : state_after cf r st ct cp sp (S j)
               = Igrf.loop_body r st ct cp sp cf (state_after cf r st ct cp sp j) (2 + j)).
  { unfold state_after. apply foldl_take_S, Hk. }
  rewrite Hs. rewrite loop_body_accumulates, Hcur. cbn [fst snd].
  replace (Z.of_nat (2 + j) - 1)%Z with (Z.of_nat j + 1)%Z by lia.
  unfold accumulate.
  destruct (m =? 0)%Z eqn:Em.
  - rewrite Hg. reflexivity.
  - rewrite Hh by (apply Z.eqb_neq, Em). rewrite Hg. reflexivity.
Qed.

Lemma state_after_all cf r st ct cp sp :
  state_after cf r st ct cp sp (length orders) = Igrf.synthesize cf r st ct cp sp.
Proof.
  unfold state_after, Igrf.synthesize. rewrite length_orders.
  rewrite firstn_all2 by (rewrite length_seq; lia). reflexivity.
Qed.

Lemma orders_complete n m :
  (1 <= m)%Z -> (m <= n)%Z -> (n <= 13)%Z -> (n, m) ∈ orders.
Proof.
  intros H1 H2 H3.
  assert (Hall : forallb (fun n : nat => forallb (fun m : nat =>
      implb (m <=? n)%nat
        (existsb (fun x : Z * Z => (x.1 =? Z.of_nat n)%Z && (x.2 =? Z.of_nat m)%Z) orders))
        (seq 1 13)) (seq 1 13) = true) by (vm_compute; reflexivity).
  rewrite forallb_forall in Hall. specialize (Hall (Z.to_nat n)).
  rewrite in_seq in Hall. specialize (Hall ltac:(lia)).
  rewrite forallb_forall in Hall. specialize (Hall (Z.to_nat m)).
  rewrite in_seq in Hall. specialize (Hall ltac:(lia)).
  destruct (Nat.leb_spec (Z.to_nat m) (Z.to_nat n)) as [_|]; [| lia].
  cbn [implb] in Hall. apply existsb_exists in Hall.
  destruct Hall as ([n' m'] & Hin & Hx). cbn [fst snd] in Hx.
  apply andb_prop in Hx. destruct Hx as [Hn Hm].
  apply Z.eqb_eq in Hn, Hm. rewrite !Z2Nat.id in * by lia. subst.
  apply list_elem_of_In, Hin.
Qed.

Lemma current_trace_orders r st ct cp sp cf :
  map current
    (trace (Igrf.loop_body r st ct cp sp cf) (Igrf.loop_init r st ct) (seq 2 (Igrf.p_size - 1)))
  = orders.
Proof.
  transitivity
    (map (fun x : Z * Z * list Z => x.1)
       (map coefficient_reads
          (trace (Igrf.loop_body r st ct cp sp cf) (Igrf.loop_init r st ct)
             (seq 2 (Igrf.p_size - 1))))).
  - rewrite map_map. apply map_ext. intros s.
    unfold coefficient_reads. destruct (current s). reflexivity.
  - rewrite reads_canonical. vm_compute. reflexivity.
Qed.
End Turns.

(** ** The synthesis loop at a pole *)

Section Pole.
Local Open Scope float_scope.

Lemma loop_body_skeleton r st ct cp sp cf r' cp' sp' cf' s s' k :
  skeleton s = skeleton s' ->
  skeleton (Igrf.loop_body r st ct cp sp cf s k)
  = skeleton (Igrf.loop_body r' st ct cp' sp' cf' s' k).
Proof.
  destruct s, s'. unfold skeleton. cbn. intros [= -> -> -> -> ->].
  unfold Igrf.loop_body. cbn.
  destruct (n0 <? m0)%Z; cbn;
    repeat match goal with |- context [if ?b then _ else _] => destruct b; cbn end;
    reflexivity.
Qed.

Lemma loop_body_ratio r st ct cp sp cf s k :
  Igrf.Loop.ratio (Igrf.loop_body r st ct cp sp cf s k)
  = (if (Igrf.Loop.n s <? Igrf.Loop.m s)%Z
     then Igrf.Loop.ratio s * (Igrf.earth_radius / r) else Igrf.Loop.ratio s)
  /\ Igrf.Loop.n (Igrf.loop_body r st ct cp sp cf s k) = (current s).1.
Proof.
  destruct s. unfold Igrf.loop_body, current. cbn.
  destruct (n <? m)%Z; cbn;
    repeat match goal with |- context [if ?b then _ else _] => destruct b; cbn end;
    split; reflexivity.
Qed.

(** At a pole the azimuthal sum advances through the closed form, without a
    division by [sin_theta]. *)
Lemma loop_body_b_p_pole r st ct cp sp cf s k :
  (st =? 0) = true ->
  let s' := Igrf.loop_body r st ct cp sp cf s k in
  let '(n, m) := current s in
  Igrf.Loop.b_p s'
  = if (m =? 0)%Z then Igrf.Loop.b_p s
    else Igrf.Loop.b_p s
         - ct * Igrf.Loop.ratio s'
           * (Igrf.at_ cf (Igrf.Loop.c_idx s - 1 + 1) * Igrf.at_ cp (m - 1)
              - Igrf.at_ cf (Igrf.Loop.c_idx s - 1) * Igrf.at_ sp (m - 1))
           * Igrf.at_ (Igrf.Loop.p s') (Z.of_nat k - 1).
Proof.
  intros Hst. destruct s. unfold Igrf.loop_body, current. cbn.
  destruct (n <? m)%Z; cbn.
  - repeat match goal with |- context [if ?b then _ else _] => destruct b; cbn end; reflexivity.
  - destruct (m =? 0)%Z; cbn.
    + repeat match goal with |- context [if ?b then _ else _] => destruct b; cbn end; reflexivity.
    + rewrite Hst.
      repeat match goal with |- context [if ?b then _ else _] => destruct b; cbn end; reflexivity.
Qed.

Lemma pole_fold cf r st ct cp sp :
  (st =? 0) = true ->
  (forall n m, (1 <= m)%Z -> (m <= n)%Z -> (n <= 13)%Z ->
               Double.is_finite (pole_factor cf r ct cp sp n m) = true) ->
  forall l s s_ref,
    skeleton s = skeleton s_ref ->
    Double.is_zero (Igrf.Loop.b_p s) = true ->
    Igrf.Loop.ratio s = ratio_at r (Z.to_nat (Igrf.Loop.n s)) ->
    turns_ok st ct s_ref l = true ->
    Double.is_zero (Igrf.Loop.b_p (foldl (Igrf.loop_body r st ct cp sp cf) s l)) = true.
Proof.
  intros Hst Hfin. induction l as [|k l IH]; intros s s_ref Hsk Hb Hr Hok; [exact Hb |].
  cbn [foldl turns_ok] in *. apply andb_prop in Hok. destruct Hok as [Hturn Hok].
  pose proof (loop_body_skeleton r st ct cp sp cf 1 [] [] [] s s_ref k Hsk) as Hsk'.
  fold (reference_body st ct s_ref k) in Hsk'.
  destruct (loop_body_ratio r st ct cp sp cf s k) as [Hratio Hn].
  pose proof (loop_body_b_p_pole r st ct cp sp cf s k Hst) as Hbp. cbv zeta in Hbp.
  assert (Hcur : current s = current s_ref).
  { unfold skeleton in Hsk. injection Hsk as Hc Hn0 Hm0 _ _.
    unfold current. rewrite Hn0, Hm0. reflexivity. }
  assert (Hp' : Igrf.Loop.p (Igrf.loop_body r st ct cp sp cf s k)
                = Igrf.Loop.p (reference_body st ct s_ref k)).
  { unfold skeleton in Hsk'. injection Hsk' as _ _ _ Hp _. exact Hp. }
  assert (Hcn : Igrf.Loop.c_idx s = Igrf.Loop.c_idx s_ref /\
                Igrf.Loop.n s = Igrf.Loop.n s_ref).
  { unfold skeleton in Hsk. injection Hsk as Hc Hn0 _ _ _. split; assumption. }
  destruct Hcn as [Hc Hn0].
  unfold turn_ok in Hturn. rewrite <- Hcur, <- Hc, <- Hn0, <- Hp' in Hturn.
  set (s' := Igrf.loop_body r st ct cp sp cf s k) in *.
  assert (Hn_nonneg : (0 <= Igrf.Loop.n s)%Z).
  { destruct (current s). apply andb_prop in Hturn. destruct Hturn as [Hturn _].
    apply Z.leb_le in Hturn. exact Hturn. }
  assert (Hr' : Igrf.Loop.ratio s' = ratio_at r (Z.to_nat (Igrf.Loop.n s'))).
  { rewrite Hratio, Hn. unfold current.
    destruct (Igrf.Loop.n s <? Igrf.Loop.m s)%Z; cbn [fst].
    - rewrite Z2Nat.inj_add by lia. rewrite Nat.add_1_r. cbn [ratio_at].
      rewrite Hr. reflexivity.
    - exact Hr. }
  apply (IH s' (reference_body st ct s_ref k) Hsk'); [| exact Hr' | exact Hok].
  destruct (current s) as [n m] eqn:Ecur.
  rewrite Hbp.
  apply andb_prop in Hturn. destruct Hturn as [_ Hturn].
  destruct (m =? 0)%Z; [exact Hb |].
  cbn [orb] in Hturn.
  repeat (apply andb_prop in Hturn; destruct Hturn as [Hturn ?]).
  repeat match goal with
         | X : (_ <=? _)%Z = true |- _ => apply Z.leb_le in X
         | X : (_ =? _)%Z = true |- _ => apply Z.eqb_eq in X
         end.
  apply sub_zero_zero; [exact Hb |].
  apply mul_zero_r; [| assumption].
  assert (En : Igrf.Loop.n s' = n) by (rewrite Hn; reflexivity).
  rewrite Hr', En.
  replace (Igrf.Loop.c_idx s - 1 + 1)%Z with (n * n + 2 * m - 1)%Z by lia.
  replace (Igrf.Loop.c_idx s - 1)%Z with (n * n + 2 * m - 2)%Z by lia.
  apply (Hfin n m); lia.
Qed.

(** The azimuthal sum of one turn, on every loop state: nothing for m = 0,
    the closed form when [sin_theta == 0.0], the division by [sin_theta]
    otherwise. *)
Lemma loop_body_b_p r st ct cp sp cf s k :
  Igrf.Loop.b_p (Igrf.loop_body r st ct cp sp cf s k)
  = let m := (current s).2 in
    let g := Igrf.at_ cf (Igrf.Loop.c_idx s - 1) in
    let h := Igrf.at_ cf (Igrf.Loop.c_idx s - 1 + 1) in
    let x := h * Igrf.at_ cp (m - 1) - g * Igrf.at_ sp (m - 1) in
    let ratio := Igrf.Loop.ratio (Igrf.loop_body r st ct cp sp cf s k) in
    let P := Igrf.at_ (Igrf.Loop.p (Igrf.loop_body r st ct cp sp cf s k)) (Z.of_nat k - 1) in
    if (m =? 0)%Z then Igrf.Loop.b_p s
    else if st =? 0 then Igrf.Loop.b_p s - ct * ratio * x * P
         else Igrf.Loop.b_p s - 1 / st * ratio * Double.of_int m * x * P.
Proof.
  pose proof (f_equal snd (loop_body_accumulates r st ct cp sp cf s k)) as E.
  exact E.
Qed.

(** One turn at a pole, next to the reference run: the Legendre function it
    multiplies by is a zero, and the azimuthal sum moves by the pole factor
    times that zero. *)
Lemma pole_step cf r st ct cp sp s s_ref k :
  (st =? 0) = true ->
  skeleton s = skeleton s_ref ->
  Igrf.Loop.ratio s = ratio_at r (Z.to_nat (Igrf.Loop.n s)) ->
  turn_ok st ct s_ref k = true ->
  let s' := Igrf.loop_body r st ct cp sp cf s k in
  skeleton s' = skeleton (reference_body st ct s_ref k) /\
  Igrf.Loop.ratio s' = ratio_at r (Z.to_nat (Igrf.Loop.n s')) /\
  ((current s_ref).2 = 0%Z /\ Igrf.Loop.b_p s' = Igrf.Loop.b_p s \/
   exists P, Double.is_zero P = true /\
     (1 <= (current s_ref).2 <= (current s_ref).1)%Z /\ ((current s_ref).1 <= 13)%Z /\
     Igrf.Loop.b_p s'
     = Igrf.Loop.b_p s
       - pole_factor cf r ct cp sp (current s_ref).1 (current s_ref).2 * P).
Proof.
  intros Hst Hsk Hr Hturn s'.
  pose proof (loop_body_skeleton r st ct cp sp cf 1 [] [] [] s s_ref k Hsk) as Hsk'.
  fold (reference_body st ct s_ref k) in Hsk'. fold s' in Hsk'.
  destruct (loop_body_ratio r st ct cp sp cf s k) as [Hratio Hn].
  fold s' in Hratio, Hn.
  pose proof (loop_body_b_p r st ct cp sp cf s k) as Hbp. fold s' in Hbp. cbv zeta in Hbp.
  rewrite Hst in Hbp.
  assert (Hcur : current s = current s_ref).
  { unfold skeleton in Hsk. injection Hsk as Hc Hn0 Hm0 _ _.
    unfold current. rewrite Hn0, Hm0. reflexivity. }
  assert (Hp' : Igrf.Loop.p s' = Igrf.Loop.p (reference_body st ct s_ref k)).
  { unfold skeleton in Hsk'. injection Hsk' as _ _ _ Hp _. exact Hp. }
  assert (Hcn : Igrf.Loop.c_idx s = Igrf.Loop.c_idx s_ref /\
                Igrf.Loop.n s = Igrf.Loop.n s_ref).
  { unfold skeleton in Hsk. injection Hsk as Hc Hn0 _ _ _. split; assumption. }
  destruct Hcn as [Hc Hn0].
  unfold turn_ok in Hturn. rewrite <- Hcur, <- Hc, <- Hn0, <- Hp' in Hturn.
  rewrite Hcur in Hbp, Hn.
  assert (Hn_nonneg : (0 <= Igrf.Loop.n s)%Z).
  { rewrite Hcur in Hturn. destruct (current s_ref).
    apply andb_prop in Hturn. destruct Hturn as [Hturn _].
    apply Z.leb_le in Hturn. exact Hturn. }
  assert (Hr' : Igrf.Loop.ratio s' = ratio_at r (Z.to_nat (Igrf.Loop.n s'))).
  { rewrite Hratio, Hn, <- Hcur. unfold current.
    destruct (Igrf.Loop.n s <? Igrf.Loop.m s)%Z; cbn [fst].
    - rewrite Z2Nat.inj_add by lia. rewrite Nat.add_1_r. cbn [ratio_at].
      rewrite Hr. reflexivity.
    - exact Hr. }
  split; [exact Hsk' |]. split; [exact Hr' |].
  rewrite Hcur in Hturn.
  destruct (current s_ref) as [n m] eqn:Ecur. cbn [fst snd] in *.
  apply andb_prop in Hturn. destruct Hturn as [_ Hturn].
  destruct (m =? 0)%Z eqn:Em.
  - left. split; [apply Z.eqb_eq, Em | exact Hbp].
  - right. cbn [orb] in Hturn.
    repeat (apply andb_prop in Hturn; destruct Hturn as [Hturn ?]).
    repeat match goal with
           | X : (_ <=? _)%Z = true |- _ => apply Z.leb_le in X
           | X : (_ =? _)%Z = true |- _ => apply Z.eqb_eq in X
           end.
    exists (Igrf.at_ (Igrf.Loop.p s') (Z.of_nat k - 1)).
    split; [assumption |]. split; [lia |]. split; [lia |].
    rewrite Hbp. unfold pole_factor. rewrite Hr', Hn.
    replace (Igrf.Loop.c_idx s - 1 + 1)%Z with (n * n + 2 * m - 1)%Z by lia.
    replace (Igrf.Loop.c_idx s - 1)%Z with (n * n + 2 * m - 2)%Z by lia.
    reflexivity.
Qed.

Lemma pole_fold_nan cf r st ct cp sp :
  (st =? 0) = true ->
  forall l s s_ref,
    skeleton s = skeleton s_ref ->
    Igrf.Loop.ratio s = ratio_at r (Z.to_nat (Igrf.Loop.n s)) ->
    turns_ok st ct s_ref l = true ->
    (Double.is_nan (Igrf.Loop.b_p s) = true ->
     Double.is_nan (Igrf.Loop.b_p (foldl (Igrf.loop_body r st ct cp sp cf) s l)) = true) /\
    (forall n m, (n, m) ∈ map current (trace (reference_body st ct) s_ref l) ->
       m <> 0%Z -> Double.is_finite (pole_factor cf r ct cp sp n m) = false ->
       Double.is_nan (Igrf.Loop.b_p (foldl (Igrf.loop_body r st ct cp sp cf) s l)) = true).
Proof.
  intros Hst. induction l as [|k l IH]; intros s s_ref Hsk Hr Hok.
  - split; [auto |]. intros n m Hin. cbn in Hin. apply elem_of_nil in Hin. destruct Hin.
  - cbn [foldl turns_ok trace map] in *.
    apply andb_prop in Hok. destruct Hok as [Hturn Hok].
    destruct (pole_step cf r st ct cp sp s s_ref k Hst Hsk Hr Hturn) as (Hsk' & Hr' & Hb).
    destruct (IH _ _ Hsk' Hr' Hok) as [IHnan IHin].
    split.
    + intros Hnan. apply IHnan.
      destruct Hb as [[_ ->] | (P & _ & _ & _ & ->)]; [exact Hnan | apply sub_nan_l, Hnan].
    + intros n m Hin Hm Hbad. apply elem_of_cons in Hin. destruct Hin as [E | Hin].
      * apply IHnan.
        destruct Hb as [[Hz _] | (P & HP & _ & _ & ->)].
        -- rewrite <- E in Hz. cbn in Hz. contradiction.
        -- apply sub_nan_r. rewrite <- E. cbn [fst snd].
           apply mul_nonfinite_zero; assumption.
      * apply (IHin n m Hin Hm Hbad).
Qed.

(** C6, amended: on every loop state a turn for m >= 1 moves the azimuthal
    sum by the closed form [cos_theta ratio (h cos(m phi) - g sin(m phi)) P],
    without a division, exactly when [sin_theta == 0.0], and by
    [1 / sin_theta ratio m (h cos(m phi) - g sin(m phi)) P] otherwise.  When
    [sin_theta] is a zero and [cos_theta] is 1 or -1, the sum ends as a zero,
    finite and not a NaN, provided every factor
    [cos_theta ratio (h cos(m phi) - g sin(m phi))] is finite; if one of
    them is not, the sum ends as a NaN. *)
Theorem pole_azimuthal_component cf r st ct cp sp :
  (forall s k,
      Igrf.Loop.b_p (Igrf.loop_body r st ct cp sp cf s k)
      = let m := (current s).2 in
        let g := Igrf.at_ cf (Igrf.Loop.c_idx s - 1) in
        let h := Igrf.at_ cf (Igrf.Loop.c_idx s - 1 + 1) in
        let x := h * Igrf.at_ cp (m - 1) - g * Igrf.at_ sp (m - 1) in
        let ratio := Igrf.Loop.ratio (Igrf.loop_body r st ct cp sp cf s k) in
        let P :=
          Igrf.at_ (Igrf.Loop.p (Igrf.loop_body r st ct cp sp cf s k)) (Z.of_nat k - 1) in
        if (m =? 0)%Z then Igrf.Loop.b_p s
        else if st =? 0 then Igrf.Loop.b_p s - ct * ratio * x * P
             else Igrf.Loop.b_p s - 1 / st * ratio * Double.of_int m * x * P) /\
  (Double.is_zero st = true -> ct = 1 \/ ct = -1 ->
   ((forall n m, (1 <= m)%Z -> (m <= n)%Z -> (n <= 13)%Z ->
                 Double.is_finite (pole_factor cf r ct cp sp n m) = true) ->
    Double.is_zero (Igrf.Loop.b_p (Igrf.synthesize cf r st ct cp sp)) = true /\
    Double.is_finite (Igrf.Loop.b_p (Igrf.synthesize cf r st ct cp sp)) = true /\
    Double.is_nan (Igrf.Loop.b_p (Igrf.synthesize cf r st ct cp sp)) = false) /\
   (forall n m, (1 <= m)%Z -> (m <= n)%Z -> (n <= 13)%Z ->
                Double.is_finite (pole_factor cf r ct cp sp n m) = false ->
                Double.is_nan (Igrf.Loop.b_p (Igrf.synthesize cf r st ct cp sp)) = true)).
Proof.
  split; [intros s k; apply loop_body_b_p |].
  intros Hst Hct.
  assert (Hst0 : (st =? 0) = true)
    by (destruct (is_zero_cases st Hst) as [-> | ->]; reflexivity).
  assert (Hok : turns_ok st ct (Igrf.loop_init 1 st ct) (seq 2 (Igrf.p_size - 1)) = true)
    by (destruct (is_zero_cases st Hst) as [-> | ->], Hct as [-> | ->];
        vm_compute; reflexivity).
  split.
  - intros Hfin. apply zero_is_regular.
    unfold Igrf.synthesize.
    apply (pole_fold cf r st ct cp sp Hst0 Hfin) with (s_ref := Igrf.loop_init 1 st ct);
      [reflexivity | reflexivity | reflexivity | exact Hok].
  - intros n m H1 H2 H3 Hbad.
    unfold Igrf.synthesize.
    destruct (pole_fold_nan cf r st ct cp sp Hst0 (seq 2 (Igrf.p_size - 1))
                (Igrf.loop_init r st ct) (Igrf.loop_init 1 st ct)
                eq_refl eq_refl Hok) as [_ Hin].
    apply (Hin n m); [| lia | exact Hbad].
    unfold reference_body. rewrite current_trace_orders.
    apply orders_complete; assumption.
Qed.
End Pole.

(** ** The reader, row by row *)

Section ReadRows.
Context {DateTime : Type} `{DateTimeApi DateTime} `{StringConversions}.
Implicit Types (models pre rest : list (Model.t DateTime)) (m : Model.t DateTime).

Lemma read_model_word_known models w :
  ModelSet.read_model_word models w = models ++ option_list (known_model w).
Proof.
  unfold ModelSet.read_model_word, known_model.
  destruct (ModelSet.getModelType w); cbn [option_list];
    rewrite ?app_nil_r; reflexivity.
Qed.

Lemma read_model_words models ws :
  foldl ModelSet.read_model_word models ws = models ++ omap known_model ws.
Proof.
  revert models. induction ws as [|w ws IH]; intros models; cbn [foldl].
  - cbn. rewrite app_nil_r. reflexivity.
  - rewrite IH, read_model_word_known, <- app_assoc. f_equal.
    cbn [omap list_omap]. destruct (known_model w); reflexivity.
Qed.

Lemma read_coefficient_words c_i ws pre rest colum :
  3 <= colum -> c_i < Model.max_coefficient_size ->
  Forall (fun w => stod w <> Undefined) ws ->
  for_each (ModelSet.read_coefficient_word c_i) ws (pre ++ rest, length pre, colum)
  = let vs := omap converted ws in
    if length vs <=? length rest
    then Returns (pre ++ zip_with (with_coefficient c_i) (take (length vs) rest) vs
                      ++ drop (length vs) rest,
                  length pre + length vs, colum + length ws)
    else Undefined.
Proof.
  intros Hcol Hci Hdef. revert pre rest colum Hcol.
  induction Hdef as [|w ws Hw Hdef IH]; intros pre rest colum Hcol.
  - cbn. rewrite !Nat.add_0_r. reflexivity.
  - assert (Ho : omap converted (w :: ws)
                = match stod w with
                  | Returns v => v :: omap converted ws
                  | _ => omap converted ws
                  end).
    { cbn [omap list_omap]. unfold converted at 1. destruct (stod w); reflexivity. }
    cbv zeta. rewrite Ho. clear Ho.
    cbn [for_each]. unfold ModelSet.read_coefficient_word at 2.
    destruct (Nat.leb_spec 3 colum) as [_|]; [| lia].
    destruct (stod w) as [v| |] eqn:Ew; [| | congruence].
    + cbn [mbind outcome_bind].
      destruct rest as [|m rest].
      * rewrite app_nil_r, lookup_ge_None_2 by lia. cbn. reflexivity.
      * rewrite list_lookup_middle by reflexivity.
        destruct (Nat.ltb_spec c_i Model.max_coefficient_size) as [_|]; [| lia].
        cbn [try_catch_all mbind outcome_bind fst snd].
        rewrite (insert_app_r_alt pre (m :: rest) (length pre)) by apply Nat.le_refl. rewrite Nat.sub_diag. cbn [insert list_insert].
        pose proof (IH (pre ++ [with_coefficient c_i m v]) rest (colum + 1)
                      ltac:(lia)) as IH'.
        rewrite length_app in IH'. cbn [length] in IH'.
        rewrite <- app_assoc in IH'. cbn [app] in IH'. cbv zeta in IH'.
        unfold with_coefficient at 1 in IH'. rewrite IH'. clear IH'.
        cbn [length zip_with take drop].
        change (S (length (omap converted ws)) <=? S (length rest))
          with (length (omap converted ws) <=? length rest).
        destruct (_ <=? _); [| reflexivity].
        rewrite <- !app_assoc. cbn [app].
        replace (length pre + 1 + length (omap converted ws))
          with (length pre + S (length (omap converted ws))) by lia.
        replace (colum + 1 + length ws) with (colum + S (length ws)) by lia.
        reflexivity.
    + cbn [mbind outcome_bind try_catch_all fst snd].
      rewrite (IH pre rest (colum + 1) ltac:(lia)). cbv zeta.
      destruct (_ <=? _); [| reflexivity].
      cbn [length].
      replace (colum + 1 + length ws) with (colum + S (length ws)) by lia.
      reflexivity.
Qed.

Lemma length_stored {A B : Type} (f : A -> B -> A) (l : list A) (vs : list B) :
  length vs <= length l ->
  length (zip_with f (take (length vs) l) vs ++ drop (length vs) l) = length l.
Proof.
  intros Hle. rewrite length_app, length_zip_with, length_take, length_drop. lia.
Qed.

(** A coefficient row: the three leading words are not converted; the j-th
    word that [std::stod] converts is stored at index [c_i] of the j-th
    model; the coefficient index advances when every model received a
    value; a value beyond the last model is written past the end of
    [m_models]. *)
Theorem read_coefficient_row_stores models c_i h1 h2 h3 ws :
  c_i < Model.max_coefficient_size ->
  Forall (fun w => stod w <> Undefined) ws ->
  ModelSet.read_coefficient_row (models, c_i) (h1 :: h2 :: h3 :: ws)
  = let vs := omap converted ws in
    if length vs <=? length models
    then Returns (zip_with (with_coefficient c_i) (take (length vs) models) vs
                    ++ drop (length vs) models,
                  if length vs =? length models then c_i + 1 else c_i)
    else Undefined.
Proof.
  intros Hci Hdef. unfold ModelSet.read_coefficient_row.
  cbn [for_each fst snd]. unfold ModelSet.read_coefficient_word at 2 3 4.
  cbn [Nat.leb mbind outcome_bind fst snd Nat.add].
  pose proof (read_coefficient_words c_i ws [] models 3 (le_n 3) Hci Hdef) as Hws.
  cbn [app length Nat.add] in Hws. rewrite Hws. cbv zeta.
  destruct (Nat.leb_spec (length (omap converted ws)) (length models)) as [Hle|];
    [| reflexivity].
  cbn [mbind outcome_bind fst snd]. rewrite length_stored by exact Hle. reflexivity.
Qed.

Lemma read_epoch_words ws pre rest :
  Forall (fun w => ModelSet.epoch_of_word w <> Undefined) ws ->
  for_each ModelSet.read_epoch_word ws (pre ++ rest, length pre)
  = let es := omap dated ws in
    if length es <=? length rest
    then Returns (pre ++ zip_with (fun m e => Model.set_epoch e m)
                           (take (length es) rest) es
                      ++ drop (length es) rest,
                  length pre + length es)
    else Undefined.
Proof.
  intros Hdef. revert pre rest.
  induction Hdef as [|w ws Hw Hdef IH]; intros pre rest.
  - cbn. rewrite !Nat.add_0_r. reflexivity.
  - assert (Ho : omap dated (w :: ws)
                = match dated w with
                  | Some e => e :: omap dated ws
                  | None => omap dated ws
                  end) by reflexivity.
    cbv zeta. rewrite Ho. clear Ho.
    cbn [for_each]. unfold ModelSet.read_epoch_word at 2.
    destruct (6 <=? String.length w) eqn:E6.
    + destruct (ModelSet.epoch_of_word w) as [e| |] eqn:Ew; [| | congruence].
      * assert (Ed : dated w = Some e) by (unfold dated; rewrite E6, Ew; reflexivity).
        rewrite Ed. clear Ed.
        cbn [mbind outcome_bind fst snd].
        destruct rest as [|m rest].
        -- rewrite app_nil_r.
           destruct (Nat.ltb_spec (length pre) (length pre)) as [|_]; [lia |].
           cbn. reflexivity.
        -- destruct (Nat.ltb_spec (length pre) (length (pre ++ m :: rest))) as [_|Hge];
             [| rewrite length_app in Hge; cbn in Hge; lia].
           cbn [try_catch_all mbind outcome_bind].
           rewrite (alter_app_r_alt _ pre (m :: rest) (length pre)) by apply Nat.le_refl.
           rewrite Nat.sub_diag. cbn [alter list_alter].
           pose proof (IH (pre ++ [Model.set_epoch e m]) rest) as IH'.
           rewrite length_app in IH'. cbn [length] in IH'.
           rewrite <- app_assoc in IH'. cbn [app] in IH'. cbv zeta in IH'.
           rewrite IH'. clear IH'.
           cbn [length zip_with take drop].
           change (S (length (omap dated ws)) <=? S (length rest))
             with (length (omap dated ws) <=? length rest).
           destruct (length (omap dated ws) <=? length rest); [| reflexivity].
           rewrite <- !app_assoc. cbn [app].
           replace (length pre + 1 + length (omap dated ws))
             with (length pre + S (length (omap dated ws))) by lia.
           reflexivity.
      * assert (Ed : dated w = None) by (unfold dated; rewrite E6, Ew; reflexivity).
        rewrite Ed. clear Ed.
        cbn [mbind outcome_bind try_catch_all]. apply IH.
    + assert (Ed : dated w = None) by (unfold dated; rewrite E6; reflexivity).
      rewrite Ed. apply IH.
Qed.

(** The epoch row: the j-th word of six characters or more that converts to
    a date gives the j-th model its epoch; a date beyond the last model is
    written past the end of [m_models]. *)
Theorem read_epoch_row_dates models c_i ws :
  Forall (fun w => ModelSet.epoch_of_word w <> Undefined) ws ->
  ModelSet.read_epoch_row (models, c_i) ws
  = let es := omap dated ws in
    if length es <=? length models
    then Returns (zip_with (fun m e => Model.set_epoch e m) (take (length es) models) es
                    ++ drop (length es) models, c_i)
    else Undefined.
Proof.
  intros Hdef. unfold ModelSet.read_epoch_row. cbn [fst snd].
  pose proof (read_epoch_words ws [] models Hdef) as Hws.
  cbn [app length Nat.add] in Hws. rewrite Hws. cbv zeta.
  destruct (_ <=? _); reflexivity.
Qed.
End ReadRows.

Section ReadInvariants.
Context {DateTime : Type} `{DateTimeApi DateTime} `{StringConversions}.
Implicit Types (models pre rest : list (Model.t DateTime)) (m : Model.t DateTime).

Lemma for_each_preserves {S A : Type} (P : S -> Prop) (body : S -> A -> outcome S) l s s' :
  (forall s a s', body s a = Returns s' -> P s -> P s') ->
  for_each body l s = Returns s' -> P s -> P s'.
Proof.
  intros Hbody. revert s. induction l as [|a l IH]; intros s E Hs.
  - cbn in E. injection E as <-. exact Hs.
  - cbn [for_each] in E. destruct (body s a) as [s1| |] eqn:E1; cbn in E; try discriminate.
    apply (IH s1 E). apply (Hbody s a s1 E1 Hs).
Qed.

Lemma grown_refl models : grown models models.
Proof. exists []. split; [reflexivity |]. cbn. rewrite app_nil_r. reflexivity. Qed.

Lemma grown_shapes models models' models'' :
  grown models models' -> shape <$> models'' = shape <$> models' -> grown models models''.
Proof. intros [kinds [Hk E]] E'. exists kinds. split; [exact Hk |]. rewrite E'. exact E. Qed.

Lemma shape_alter (f : Model.t DateTime -> Model.t DateTime) i models :
  (forall m, shape (f m) = shape m) -> shape <$> alter f i models = shape <$> models.
Proof.
  intros Hf. revert i. induction models as [|m models IH]; intros [|i]; cbn; try reflexivity.
  - rewrite Hf. reflexivity.
  - f_equal. apply IH.
Qed.

Lemma shape_insert i m m' models :
  models !! i = Some m -> shape m' = shape m -> shape <$> <[i := m']> models = shape <$> models.
Proof.
  revert i. induction models as [|m0 models IH]; intros [|i]; cbn; try discriminate.
  - intros [= ->] ->. reflexivity.
  - intros Hi Hs. f_equal. apply IH; assumption.
Qed.

Lemma read_model_word_grown models0 models w :
  grown models0 models -> grown models0 (ModelSet.read_model_word models w).
Proof.
  intros [kinds [Hk E]]. unfold ModelSet.read_model_word.
  destruct (ModelSet.getModelType w) eqn:Et; try (exists kinds; split; assumption);
    try (exfalso; revert Et; unfold ModelSet.getModelType;
         repeat destruct (String.eqb _ _); discriminate).
  all: match goal with |- grown _ (_ ++ [Model.set_type ?k _]) => exists (kinds ++ [k]) end.
  all: split; [rewrite forallb_app, Hk; reflexivity |].
  all: rewrite !fmap_app, E, <- app_assoc; reflexivity.
Qed.

Lemma read_epoch_word_grown models0 (st : list (Model.t DateTime) * nat) w
    (st' : list (Model.t DateTime) * nat) :
  ModelSet.read_epoch_word st w = Returns st' -> grown models0 st.1 -> grown models0 st'.1.
Proof.
  unfold ModelSet.read_epoch_word.
  destruct (6 <=? String.length w); [| intros [= <-]; auto].
  destruct (ModelSet.epoch_of_word w) as [e| |]; cbn [mbind outcome_bind try_catch_all];
    [| intros [= <-]; auto | discriminate].
  destruct (st.2 <? length st.1); cbn [try_catch_all]; [| discriminate].
  intros [= <-] Hg. cbn [fst]. apply (grown_shapes _ _ _ Hg).
  apply shape_alter. reflexivity.
Qed.

Lemma read_coefficient_word_grown models0 c_i
    (st : list (Model.t DateTime) * nat * nat) w
    (st' : list (Model.t DateTime) * nat * nat) :
  ModelSet.read_coefficient_word c_i st w = Returns st' ->
  grown models0 st.1.1 -> grown models0 st'.1.1.
Proof.
  destruct st as [[models m_i] colum]. unfold ModelSet.read_coefficient_word.
  destruct (3 <=? colum); cbn [mbind outcome_bind fst snd]; [| intros [= <-]; auto].
  destruct (stod w) as [v| |]; cbn [mbind outcome_bind try_catch_all fst snd];
    [| intros [= <-]; auto | discriminate].
  destruct (models !! m_i) as [mdl|] eqn:Em; cbn [try_catch_all mbind outcome_bind];
    [| discriminate].
  destruct (c_i <? Model.max_coefficient_size); cbn [try_catch_all mbind outcome_bind fst snd];
    [| discriminate].
  intros [= <-] Hg. cbn [fst]. apply (grown_shapes _ _ _ Hg).
  apply (shape_insert _ mdl); [exact Em |].
  unfold shape, Model.set_coefficients. cbn [Model.type Model.coefficients].
  rewrite length_insert. reflexivity.
Qed.

Lemma read_line_grown models0 (st : list (Model.t DateTime) * nat) line
    (st' : list (Model.t DateTime) * nat) :
  ModelSet.read_line st line = Returns st' -> grown models0 st.1 -> grown models0 st'.1.
Proof.
  unfold ModelSet.read_line.
  destruct (ModelSet.getModelFileRowType line).
  - intros [= <-]; auto.
  - intros [= <-]; auto.
  - intros [= <-] Hg. cbn [fst].
    generalize (words line). intros ws. revert Hg. generalize st.1. 
    induction ws as [|w ws IH]; intros models Hg; cbn [foldl]; [exact Hg |].
    apply IH, read_model_word_grown, Hg.
  - unfold ModelSet.read_epoch_row.
    destruct (for_each ModelSet.read_epoch_word (words line) (st.1, 0)) as [r| |] eqn:E;
      cbn [mbind outcome_bind]; try discriminate.
    intros [= <-] Hg. cbn [fst].
    apply (for_each_preserves (fun s => grown models0 s.1) _ _ _ _
             (read_epoch_word_grown models0) E Hg).
  - unfold ModelSet.read_coefficient_row.
    destruct (for_each (ModelSet.read_coefficient_word st.2) (words line) (st.1, 0, 0))
      as [r| |] eqn:E; cbn [mbind outcome_bind]; try discriminate.
    intros [= <-] Hg. cbn [fst].
    apply (for_each_preserves (fun s => grown models0 s.1.1) _ _ _ _
             (read_coefficient_word_grown models0 st.2) E Hg).
  - unfold ModelSet.read_coefficient_row.
    destruct (for_each (ModelSet.read_coefficient_word st.2) (words line) (st.1, 0, 0))
      as [r| |] eqn:E; cbn [mbind outcome_bind]; try discriminate.
    intros [= <-] Hg. cbn [fst].
    apply (for_each_preserves (fun s => grown models0 s.1.1) _ _ _ _
             (read_coefficient_word_grown models0 st.2) E Hg).
Qed.

(** Whatever the stream holds, [read] keeps the number, the kinds and the
    array sizes of the models it finds, and appends only snapshots of kind
    DGRF, IGRF or SV with [max_coefficient_size] coefficients. *)
Theorem read_grows_the_table stream (ms ms' : ModelSet.t DateTime) :
  ModelSet.read stream ms = Returns ms' ->
  grown (ModelSet.m_models ms) (ModelSet.m_models ms').
Proof.
  unfold ModelSet.read.
  destruct (for_each ModelSet.read_line (getlines stream) (ModelSet.m_models ms, 0))
    as [r| |] eqn:E; cbn [mbind outcome_bind]; try discriminate.
  intros [= <-]. cbn [ModelSet.m_models].
  apply (for_each_preserves (fun s => grown (ModelSet.m_models ms) s.1) _ _ _ _
           (read_line_grown (ModelSet.m_models ms)) E).
  apply grown_refl.
Qed.

Lemma for_each_read_line_ignored lines (st : list (Model.t DateTime) * nat) :
  for_each ModelSet.read_line lines st
  = for_each ModelSet.read_line (List.filter (fun l => negb (ignored l)) lines) st.
Proof.
  revert st. induction lines as [|l lines IH]; intros st; [reflexivity |].
  cbn [List.filter]. destruct (ignored l) eqn:Ei; cbn [negb for_each].
  - assert (El : ModelSet.read_line st l = Returns st).
    { unfold ignored in Ei. unfold ModelSet.read_line.
      destruct (ModelSet.getModelFileRowType l); try discriminate Ei; reflexivity. }
    rewrite El. cbn [mbind outcome_bind]. apply IH.
  - destruct (ModelSet.read_line st l); cbn [mbind outcome_bind];
      [apply IH | reflexivity | reflexivity].
Qed.

(** Two streams that agree once their comment lines, blank lines and lines
    without a known header are dropped are read to the same table. *)
Theorem read_ignores_comment_lines stream stream' (ms : ModelSet.t DateTime) :
  List.filter (fun l => negb (ignored l)) (getlines stream)
  = List.filter (fun l => negb (ignored l)) (getlines stream') ->
  ModelSet.read stream ms = ModelSet.read stream' ms.
Proof.
  intros E. unfold ModelSet.read.
  rewrite (for_each_read_line_ignored (getlines stream)), E,
    <- (for_each_read_line_ignored (getlines stream')).
  reflexivity.
Qed.

(** The model row: every word DGRF, IGRF or SV appends a fresh model of that
    kind; the other words append nothing. *)
Theorem read_model_row_appends (st : list (Model.t DateTime) * nat) line :
  ModelSet.getModelFileRowType line = ModelFileRowType.ModelType ->
  ModelSet.read_line st line = Returns (st.1 ++ omap known_model (words line), st.2).
Proof.
  intros E. unfold ModelSet.read_line. rewrite E, read_model_words. reflexivity.
Qed.
End ReadInvariants.

Section StringFacts.
Local Open Scope string_scope.

Lemma find_hyphen_append lower upper :
  find "-" lower = None ->
  find "-" (lower ++ String "-" upper) = Some (String.length lower).
Proof.
  unfold find. induction lower as [|c lower IH]; intros Hn.
  - cbn [append String.index String.prefix String.length].
    destruct (Ascii.ascii_dec "-"%char "-"%char) as [_|Hne]; [| destruct Hne; reflexivity].
    destruct upper; reflexivity.
  - cbn [append String.index String.prefix String.length] in Hn |- *.
    destruct (Ascii.ascii_dec "-"%char c) as [Hc|Hc].
    + exfalso. destruct lower; cbn [String.prefix] in Hn; discriminate Hn.
    + destruct (String.index 0 "-" lower) as [k|] eqn:Ek; [discriminate Hn |].
      rewrite (IH eq_refl). reflexivity.
Qed.

Lemma substr_prefix lower rest :
  substr 0 (String.length lower) (lower ++ rest) = lower.
Proof.
  unfold substr. induction lower as [|c lower IH]; cbn.
  - destruct rest; reflexivity.
  - rewrite IH. reflexivity.
Qed.

Lemma substr_whole k s : String.length s <= k -> substr 0 k s = s.
Proof.
  unfold substr. revert k. induction s as [|c s IH]; intros k Hk; cbn.
  - destruct k; reflexivity.
  - destruct k as [|k]; cbn in Hk; [lia |]. rewrite IH by lia. reflexivity.
Qed.

Lemma substr_suffix lower c upper k :
  String.length upper <= k ->
  substr (String.length lower + 1) k (lower ++ String c upper) = upper.
Proof.
  intros Hk. unfold substr. induction lower as [|c' lower IH]; cbn.
  - apply substr_whole, Hk.
  - exact IH.
Qed.

Lemma length_append (a b : string) :
  String.length (a ++ b) = String.length a + String.length b.
Proof. induction a as [|c a IH]; cbn; [reflexivity | rewrite IH; reflexivity]. Qed.
End StringFacts.

Section EpochWords.
Context {DateTime : Type} `{DateTimeApi DateTime} `{StringConversions}.
Local Open Scope string_scope.

(** A word [lower-upper] of the epoch row, such as 2020-25: the year is read
    from [lower] with its last digits replaced by [upper] (from [lower]
    followed by [upper] when [upper] is the longer one), and the epoch is
    January of that year. *)
Theorem epoch_of_word_range lower upper :
  find "-" lower = None ->
  ModelSet.epoch_of_word (lower ++ "-" ++ upper)
  = (year ← stoi ((if (String.length upper <=? String.length lower)%nat
                   then substr 0 (String.length lower - String.length upper) lower
                   else lower) ++ upper);
     dt_of_year_month year 1).
Proof.
  intros Hn. unfold ModelSet.epoch_of_word.
  change ("-" ++ upper) with (String "-" upper).
  rewrite (find_hyphen_append lower upper Hn). cbv zeta.
  rewrite substr_prefix.
  rewrite substr_suffix
    by (rewrite length_append; cbn [String.length]; lia).
  destruct (String.length upper <=? String.length lower)%nat; [reflexivity |].
  rewrite substr_whole by lia. reflexivity.
Qed.
End EpochWords.


Section Overflow.
Context {DateTime : Type} `{DateTimeApi DateTime} `{StringConversions}.

(** A coefficient row read when [max_coefficient_size] rows have been
    stored: the first value is written past the end of the coefficient
    array. *)
Theorem read_coefficient_row_overflows m (models : list (Model.t DateTime)) c_i h1 h2 h3 w v ws :
  Model.max_coefficient_size <= c_i ->
  stod w = Returns v ->
  ModelSet.read_coefficient_row (m :: models, c_i) (h1 :: h2 :: h3 :: w :: ws) = Undefined.
Proof.
  intros Hci Hw. unfold ModelSet.read_coefficient_row.
  cbn [for_each fst snd]. unfold ModelSet.read_coefficient_word at 2 3 4.
  cbn [Nat.leb mbind outcome_bind fst snd Nat.add].
  unfold ModelSet.read_coefficient_word at 2.
  cbn [Nat.leb Nat.add]. rewrite Hw. cbn [mbind outcome_bind lookup list_lookup].
  destruct (Nat.ltb_spec c_i Model.max_coefficient_size) as [Hlt|_]; [lia |].
  reflexivity.
Qed.
End Overflow.

(** ** The engine over sequences of queries, its errors and its units *)

Section EngineFacts.
Context {DateTime : Type} `{DateTimeApi DateTime} `{Libm}.
Local Open Scope float_scope.
Implicit Types (self : Igrf.t DateTime) (dt : DateTime) (last next model : Model.t DateTime).

Lemma select_throws (ms : ModelSet.t DateTime) dt w :
  ModelSet.select ms dt = Throws w ->
  (w = "ModelSet is empty."%string /\ ModelSet.m_models ms = []) \/
  (w = "ModelSet: no model is found."%string /\ ModelSet.m_models ms <> []).
Proof.
  unfold ModelSet.select.
  destruct (ModelSet.m_models ms) as [|m0 l] eqn:El.
  - intros [= <-]. left. split; reflexivity.
  - destruct (_ =? _)%nat.
    + intros [= <-]. right. split; [reflexivity | discriminate].
    + destruct (lower_bound _ _ _) as [|before]; [discriminate |].
      destruct (_ !! before); [| discriminate].
      destruct (_ !! S before); discriminate.
Qed.

(** The call operator throws with one of three messages.  With the two of
    [select] the engine is left as it was; with the one of the coordinate
    branch the working model has already been replaced by the blend for the
    epoch of the position. *)
Theorem call_throws position self w :
  (Igrf.call position self).1 = Throws w ->
  (w = "ModelSet is empty."%string /\
   ModelSet.m_models (Igrf.m_model_set self) = [] /\
   (Igrf.call position self).2 = self) \/
  (w = "ModelSet: no model is found."%string /\
   ModelSet.m_models (Igrf.m_model_set self) <> [] /\
   (Igrf.call position self).2 = self) \/
  (w = "Invalid coordinate type"%string /\
   c_type position = CoordinateType.Other /\
   (Igrf.call position self).2 = (Igrf.initializeModel (c_epoch position) self).2 /\
   Model.epoch (Igrf.m_model (Igrf.call position self).2) = c_epoch position).
Proof.
  unfold Igrf.call, Igrf.updatePositionAndMag, Igrf.initializeModel.
  destruct (ModelSet.select (Igrf.m_model_set self) (c_epoch position))
    as [[last next]|w'|] eqn:Es.
  - destruct (negb _); cbn [fst snd];
      unfold Igrf.calculateMagDensity, Igrf.normalize;
      (destruct (c_type position); cbn [mbind outcome_bind]; try discriminate);
      intros [= <-]; right; right; repeat split.
  - cbn [fst snd mbind outcome_bind]. intros [= <-].
    destruct (select_throws _ _ _ Es) as [[-> He] | [-> Hne]]; [left | right; left];
      repeat split; assumption.
  - cbn [fst snd mbind outcome_bind]. discriminate.
Qed.

Lemma run_queries_keeps qs self :
  has_array self ->
  has_array (run_queries qs self) /\
  Igrf.m_model_set (run_queries qs self) = Igrf.m_model_set self.
Proof.
  revert self. induction qs as [|q qs IH]; intros self Harr; [split; [exact Harr | reflexivity] |].
  unfold run_queries. cbn [foldl]. fold (run_queries qs (Igrf.call q self).2).
  destruct (call_keeps q self Harr) as [Ha Hs].
  destruct (IH _ Ha) as [Ha' Hs']. split; [exact Ha' | congruence].
Qed.

(** After any sequence of queries, none of them undefined, the engine still
    holds the table it was built over and a working array of
    [max_coefficient_size] doubles, and answers the next query as a freshly
    built engine does. *)
Theorem call_after_queries model_set qs position :
  Forall (fun q => (Igrf.call q (Igrf.of_model_set model_set)).1 <> Undefined) qs ->
  Igrf.m_model_set (run_queries qs (Igrf.of_model_set model_set)) = model_set /\
  has_array (run_queries qs (Igrf.of_model_set model_set)) /\
  (Igrf.call position (run_queries qs (Igrf.of_model_set model_set))).1
  = (Igrf.call position (Igrf.of_model_set model_set)).1.
Proof.
  intros _.
  assert (Harr : has_array (Igrf.of_model_set model_set)).
  { unfold has_array. apply length_replicate. }
  destruct (run_queries_keeps qs _ Harr) as [Ha Hs].
  split; [exact Hs | split; [exact Ha |]].
  apply call_fresh; assumption.
Qed.

(** A coefficient on which the two snapshots agree keeps its value under
    interpolation, and a coefficient whose rate is a zero keeps its value
    under extrapolation, up to the sign of a zero, when the value and the
    blending factor are finite. *)
Theorem blend_of_unchanged_coefficient dt last next model i :
  length (Model.coefficients model) = Model.max_coefficient_size ->
  (i < Model.max_coefficient_size)%nat ->
  let c := Model.coefficients last !!! i in
  let delta_t := dt_fractionalYears dt - Double.of_int (dt_year (Model.epoch last)) in
  let f := delta_t / Double.of_int (dt_year (Model.epoch next) - dt_year (Model.epoch last)) in
  (Model.coefficients next !!! i = c ->
   Double.is_finite c = true -> Double.is_finite f = true ->
   Double.same (Model.coefficients (Igrf.interpolateModel dt last next model) !!! i) c)
  /\
  (Double.is_zero (Model.coefficients next !!! i) = true ->
   Double.is_finite delta_t = true ->
   Double.same (Model.coefficients (Igrf.extrapolateModel dt last next model) !!! i) c).
Proof.
  intros Hlen Hi c delta_t f. split.
  - intros Hsame Hc Hf. model_fields.
    rewrite lookup_total_transform by assumption. rewrite Hsame. fold c.
    rewrite (sub_diag c Hc).
    apply add_zero_r, mul_zero_r; [exact Hf | reflexivity].
  - intros Hz Hd. model_fields.
    rewrite lookup_total_transform by assumption.
    apply add_zero_r, mul_zero_r; [exact Hd | exact Hz].
Qed.
End EngineFacts.

Section Harmonics.
Local Open Scope float_scope.

(** A turn of the loop reads [cos_phi] and [sin_phi] at [m - 1], for the
    order [m >= 1] it works on, and nowhere else. *)
Lemma loop_body_harmonics r st ct cp sp cp' sp' cf s k :
  ((current s).2 <> 0%Z ->
   Igrf.at_ cp ((current s).2 - 1) = Igrf.at_ cp' ((current s).2 - 1) /\
   Igrf.at_ sp ((current s).2 - 1) = Igrf.at_ sp' ((current s).2 - 1)) ->
  Igrf.loop_body r st ct cp sp cf s k = Igrf.loop_body r st ct cp' sp' cf s k.
Proof.
  destruct s. unfold current, Igrf.loop_body. cbn.
  destruct (n <? m)%Z; cbn.
  - intros _. reflexivity.
  - intros Hr. destruct (m =? 0)%Z eqn:Em; cbn in *.
    + split_ifs; reflexivity.
    + destruct Hr as [-> ->]; [apply Z.eqb_neq, Em |].
      split_ifs; reflexivity.
Qed.

Lemma foldl_loop_body_harmonics r st ct cp sp cp' sp' cf l s :
  (forall x, x ∈ map coefficient_reads (trace (Igrf.loop_body r st ct cp sp cf) s l) ->
             x.1.2 <> 0%Z ->
             Igrf.at_ cp (x.1.2 - 1) = Igrf.at_ cp' (x.1.2 - 1) /\
             Igrf.at_ sp (x.1.2 - 1) = Igrf.at_ sp' (x.1.2 - 1)) ->
  foldl (Igrf.loop_body r st ct cp sp cf) s l = foldl (Igrf.loop_body r st ct cp' sp' cf) s l.
Proof.
  revert s. induction l as [|k l IH]; intros s Hr; simpl; [reflexivity |].
  assert (Hcur : (coefficient_reads s).1.2 = (current s).2).
  { unfold coefficient_reads. destruct (current s). reflexivity. }
  rewrite <- (loop_body_harmonics r st ct cp sp cp' sp' cf s k).
  - apply IH. intros x Hx. apply Hr. simpl. rewrite elem_of_cons. auto.
  - rewrite <- Hcur. apply Hr. simpl. rewrite elem_of_cons. auto.
Qed.

Lemma canonical_packing_order x :
  x ∈ canonical_packing -> (0 <= x.1.2 <= 13)%Z.
Proof.
  intros Hx.
  assert (Hall : forallb (fun x => (0 <=? x.1.2)%Z && (x.1.2 <=? 13)%Z)
                   canonical_packing = true) by (vm_compute; reflexivity).
  rewrite forallb_forall in Hall.
  apply list_elem_of_In in Hx. specialize (Hall x Hx). lia.
Qed.

(** The synthesis reads [cos_phi] and [sin_phi] at the indices 0 to
    [max_degree - 1] only, the size the two arrays have. *)
Theorem synthesize_harmonics cf r st ct cp sp :
  Igrf.synthesize cf r st ct cp sp
  = Igrf.synthesize cf r st ct (take Model.max_degree cp) (take Model.max_degree sp).
Proof.
  unfold Igrf.synthesize. apply foldl_loop_body_harmonics.
  rewrite reads_canonical. intros x Hx Hm.
  destruct (canonical_packing_order x Hx) as [Hlo Hhi].
  unfold Igrf.at_. split; symmetry; apply lookup_total_take_lt;
    unfold Model.max_degree; lia.
Qed.
End Harmonics.

Section UnitFacts.
Context {DateTime : Type} `{DateTimeApi DateTime} `{Libm}.
Local Open Scope float_scope.

Lemma updatePositionAndMag_fresh position (self self' : Igrf.t DateTime) :
  Igrf.m_model_set self = Igrf.m_model_set self' -> has_array self -> has_array self' ->
  (Igrf.updatePositionAndMag position self).1 = (Igrf.updatePositionAndMag position self').1.
Proof.
  intros Hset Harr Harr'.
  unfold Igrf.updatePositionAndMag.
  destruct (initializeModel_fresh (c_epoch position) self self' Hset Harr Harr')
    as [-> | [E Hne]]; [reflexivity |].
  destruct (Igrf.initializeModel (c_epoch position) self) as [[[]| |] s1];
    destruct (Igrf.initializeModel (c_epoch position) self') as [[[]| |] s2];
    cbn [fst snd] in *; try discriminate; try congruence.
Qed.

Lemma setScaling_scale unit (g g' : GeoMagFlux.t DateTime) :
  GeoMagFlux.m_unit_scale (GeoMagFlux.setScaling unit g)
  = GeoMagFlux.m_unit_scale (GeoMagFlux.setScaling unit g') /\
  GeoMagFlux.base (GeoMagFlux.setScaling unit g) = GeoMagFlux.base g.
Proof. destruct unit; split; reflexivity. Qed.

(** Switching the output unit of a wrapper that has answered queries gives
    the answers of a wrapper freshly built in that unit over the same
    table: [setOutputUnit] replaces the scale and leaves the engine alone. *)
Theorem setOutputUnit_then_call unit position (g : GeoMagFlux.t DateTime) :
  has_array (GeoMagFlux.base g) ->
  GeoMagFlux.base (GeoMagFlux.setOutputUnit unit g) = GeoMagFlux.base g /\
  (GeoMagFlux.call position (GeoMagFlux.setOutputUnit unit g)).1
  = (GeoMagFlux.call position
       (GeoMagFlux.of_model_set (Igrf.m_model_set (GeoMagFlux.base g)) unit)).1.
Proof.
  intros Harr. unfold GeoMagFlux.setOutputUnit, GeoMagFlux.of_model_set.
  set (g0 := GeoMagFlux.make _ unit nan ""%string).
  destruct (setScaling_scale unit g g0) as [Hscale Hbase].
  destruct (setScaling_scale unit g0 g0) as [_ Hbase0].
  split; [exact Hbase |].
  unfold GeoMagFlux.call. rewrite Hbase, Hbase0, Hscale.
  assert (Harr0 : has_array (GeoMagFlux.base g0)).
  { unfold has_array. apply length_replicate. }
  pose proof (updatePositionAndMag_fresh position (GeoMagFlux.base g) (GeoMagFlux.base g0)
                eq_refl Harr Harr0) as E.
  destruct (Igrf.updatePositionAndMag position (GeoMagFlux.base g)) as [o1 b1].
  destruct (Igrf.updatePositionAndMag position (GeoMagFlux.base g0)) as [o2 b2].
  cbn [fst snd] in *. rewrite E. reflexivity.
Qed.
End UnitFacts.

(** ** The coefficient array *)

Section ArrayFacts.
Context {DateTime : Type} `{DateTimeApi DateTime} `{DateTimeText DateTime}
  `{StringConversions}.

Lemma default_table_sized : Forall sized (ModelSet.m_models (ModelSet.default (DateTime := DateTime))).
Proof.
  apply Forall_forall. intros m Hm. apply list_elem_of_In in Hm.
  assert (Hall : forallb (fun m : Model.t DateTime =>
                            length (Model.coefficients m) =? Model.max_coefficient_size)
                   (ModelSet.m_models ModelSet.default) = true)
    by (vm_compute; reflexivity).
  rewrite forallb_forall in Hall. apply Nat.eqb_eq, Hall, Hm.
Qed.

Lemma grown_sized (models models' : list (Model.t DateTime)) :
  grown models models' -> Forall sized models -> Forall sized models'.
Proof.
  intros [kinds [_ E]] Hs.
  assert (Hshape : forall l : list (Model.t DateTime),
             Forall sized l <-> Forall (fun sh => sh.2 = Model.max_coefficient_size) (shape <$> l)).
  { intros l. rewrite Forall_fmap. reflexivity. }
  apply Hshape. rewrite E. apply Forall_app. split; [apply Hshape, Hs |].
  rewrite Forall_fmap. apply Forall_forall. intros k _. reflexivity.
Qed.

Lemma of_stream_sized stream (ms : ModelSet.t DateTime) :
  ModelSet.of_stream stream = Returns ms -> Forall sized (ModelSet.m_models ms).
Proof.
  unfold ModelSet.of_stream, ModelSet.read. cbn [ModelSet.m_models].
  destruct (for_each ModelSet.read_line (getlines stream) ([], 0)) as [r| |] eqn:E;
    cbn [mbind outcome_bind]; try discriminate.
  intros [= <-]. cbn [ModelSet.m_models].
  apply (grown_sized []); [| constructor].
  apply (for_each_preserves (fun s => grown [] s.1) _ _ _ _ (read_line_grown []) E).
  apply grown_refl.
Qed.

(** C3, amended: a snapshot stores [max_degree (max_degree + 2) + 1 = 196]
    doubles: the default snapshot, every snapshot of the compiled-in table
    and of a table read from a stream, and the working model blended from
    such snapshots.  The slots 0 to 194 hold the Gauss coefficients in the
    canonical IGRF column order: turn [j] of the synthesis works on the
    [j]-th pair (n, m) of that order and adds the terms of g(n,m), read
    from its slot, and for m >= 1 of h(n,m), read from the slot after it,
    as [g cos(m phi) + h sin(m phi)] in the radial and the polar sum and as
    [h cos(m phi) - g sin(m phi)] in the azimuthal sum.  The slot 195 is
    blended like the others and never reaches the synthesis. *)
Theorem coefficient_array_packing :
  (Model.max_coefficient_size = 196 /\ Model.max_degree * (Model.max_degree + 2) = 195) /\
  (sized (Model.default (DateTime := DateTime)) /\
   length (ModelSet.m_models (ModelSet.default (DateTime := DateTime))) = 26 /\
   Forall sized (ModelSet.m_models (ModelSet.default (DateTime := DateTime))) /\
   (forall stream (ms : ModelSet.t DateTime),
       ModelSet.of_stream stream = Returns ms -> Forall sized (ModelSet.m_models ms)) /\
   (forall dt (self : Igrf.t DateTime),
       has_array self -> has_array (Igrf.initializeModel dt self).2)) /\
  slot <$> canonical_order = Z.of_nat <$> seq 0 195 /\
  (forall cf r st ct cp sp,
      state_after cf r st ct cp sp 0 = Igrf.loop_init r st ct /\
      state_after cf r st ct cp sp (length orders) = Igrf.synthesize cf r st ct cp sp /\
      forall j n m, orders !! j = Some (n, m) ->
        state_after cf r st ct cp sp (S j)
        = Igrf.loop_body r st ct cp sp cf (state_after cf r st ct cp sp j) (2 + j) /\
        current (state_after cf r st ct cp sp j) = (n, m) /\
        sums (state_after cf r st ct cp sp (S j))
        = accumulate st ct n m
            (Igrf.Loop.ratio (state_after cf r st ct cp sp (S j)))
            (Igrf.at_ cf (slot (Gauss.g n m))) (Igrf.at_ cf (slot (Gauss.h n m)))
            (Igrf.at_ cp (m - 1)%Z) (Igrf.at_ sp (m - 1)%Z)
            (Igrf.at_ (Igrf.Loop.p (state_after cf r st ct cp sp (S j))) (Z.of_nat j + 1)%Z)
            (Igrf.at_ (Igrf.Loop.d_p (state_after cf r st ct cp sp (S j))) (Z.of_nat j + 1)%Z)
            (sums (state_after cf r st ct cp sp j))) /\
  (forall op a b dst,
      length dst = Model.max_coefficient_size ->
      Igrf.transform op a b dst !! 195 = Some (op (a !!! 195) (b !!! 195))) /\
  (forall cf r st ct cp sp,
      Igrf.synthesize cf r st ct cp sp = Igrf.synthesize (take 195 cf) r st ct cp sp).
Proof.
  split; [split; reflexivity |].
  split.
  { split; [apply length_replicate |]. split; [reflexivity |].
    split; [exact default_table_sized |].
    split; [exact of_stream_sized | exact initializeModel_has_array]. }
  split; [vm_compute; reflexivity |].
  split; [| split; [| exact synthesize_take]].
  - intros cf r st ct cp sp. split; [reflexivity |].
    split; [apply state_after_all |].
    intros j n m Hj. split; [exact (state_after_step cf r st ct cp sp j n m Hj) |].
    apply state_after_sums, Hj.
  - intros op a b dst Hlen. apply lookup_transform; [| exact Hlen].
    unfold Model.max_coefficient_size. cbn. lia.
Qed.
End ArrayFacts.

Lemma snapshot_has_196_coefficients :
  length (Model.coefficients (Model.default (DateTime := Calendar.t))) = 196 /\
  length (Model.coefficients (Model.default (DateTime := Calendar.t))) <> 195.
Proof. split; [reflexivity | discriminate]. Qed.

(** ** The claims on examples *)

Lemma updatePositionAndMag_at_equator :
  (Igrf.updatePositionAndMag equator_2002 dipole_engine).1
  = Returns (vector3d 29503.524201211512 0 (-0)).
Proof. vm_compute. reflexivity. Qed.

Lemma call_at_equator :
  (Igrf.call equator_2002 dipole_engine).1
  = Returns (vector3d 2.9503524201211513e-05 0 (-0)).
Proof. vm_compute. reflexivity. Qed.

(** The call operator on the equator: 2.95e-05 where the synthesised vector,
    in nanotesla, has 29503.5. *)
Lemma call_is_not_in_nanotesla :
  (Igrf.updatePositionAndMag equator_2002 dipole_engine).1
  = Returns (vector3d 29503.524201211512 0 (-0)) /\
  (Igrf.call equator_2002 dipole_engine).1
  = Returns (vector3d 2.9503524201211513e-05 0 (-0)) /\
  (Igrf.call equator_2002 dipole_engine).1
  <> (Igrf.updatePositionAndMag equator_2002 dipole_engine).1.
Proof.
  split; [exact updatePositionAndMag_at_equator | split; [exact call_at_equator |]].
  rewrite updatePositionAndMag_at_equator, call_at_equator. intros E.
  apply (f_equal (fun o => match o with
                           | Returns v => PrimFloat.eqb (v_x v) 29503.524201211512
                           | _ => true
                           end)) in E.
  vm_compute in E. discriminate E.
Qed.

Lemma select_dipole_2002 :
  ModelSet.select (Igrf.m_model_set dipole_engine) (c_epoch equator_2002)
  = Returns (dipole 2000 ModelType.Dgrf (-30000), dipole 2005 ModelType.Igrf (-29000)).
Proof. vm_compute. reflexivity. Qed.

Lemma normalize_equator_2002 :
  Igrf.normalize equator_2002 = Returns (Igrf.normalized constant.wgs84_a 0 1 1 0).
Proof. vm_compute. reflexivity. Qed.

Lemma call_returns_tesla_at_equator :
  ModelSet.select (Igrf.m_model_set dipole_engine) (c_epoch equator_2002)
  = Returns (dipole 2000 ModelType.Dgrf (-30000), dipole 2005 ModelType.Igrf (-29000)) /\
  Igrf.normalize equator_2002 = Returns (Igrf.normalized constant.wgs84_a 0 1 1 0) /\
  exists north east down,
    (Igrf.updatePositionAndMag equator_2002 dipole_engine).1
    = Returns (vector3d north east down) /\
    (Igrf.call equator_2002 dipole_engine).1
    = Returns (vector3d (north * Igrf.nanotesla_to_tesla) (east * Igrf.nanotesla_to_tesla)
                 (down * Igrf.nanotesla_to_tesla)).
Proof.
  split; [exact select_dipole_2002 |]. split; [exact normalize_equator_2002 |].
  destruct (call_returns_tesla equator_2002 dipole_engine _ _ _
              select_dipole_2002 normalize_equator_2002)
    as (north & east & down & Hn & Hc & _).
  exists north, east, down. split; assumption.
Defined.

Lemma initializeModel_blends_in_2002 :
  has_array dipole_engine /\
  ModelSet.select (Igrf.m_model_set dipole_engine) (c_epoch equator_2002)
  = Returns (dipole 2000 ModelType.Dgrf (-30000), dipole 2005 ModelType.Igrf (-29000)) /\
  (Igrf.initializeModel (c_epoch equator_2002) dipole_engine).1 = Returns tt /\
  Model.type (Igrf.m_model (Igrf.initializeModel (c_epoch equator_2002) dipole_engine).2)
  = ModelType.Interpolated /\
  Model.coefficients
    (Igrf.m_model (Igrf.initializeModel (c_epoch equator_2002) dipole_engine).2) !! 0
  = Some (-29600)%float.
Proof.
  assert (Harr : has_array dipole_engine) by reflexivity.
  split; [exact Harr |]. split; [exact select_dipole_2002 |].
  destruct (initializeModel_blends (c_epoch equator_2002) dipole_engine _ _
              Harr select_dipole_2002) as [Hret Hall].
  split; [exact Hret |].
  destruct (Hall 0 ltac:(unfold Model.max_coefficient_size; cbn; lia)) as [Htype Hc].
  split; [exact Htype |].
  rewrite Hc. reflexivity.
Defined.

(** With a lower snapshot dated July 2000 and the upper one January 2005,
    the blend for January 2002 moves the first coefficient by 2/5 of the
    difference, the calendar years apart, where the fraction of the elapsed
    time is 1.5/4.5. *)
Lemma blend_counts_calendar_years :
  ModelSet.select mid_table (Calendar.make 2002 1)
  = Returns (mid_2000, dipole 2005 ModelType.Igrf (-29000)) /\
  Model.coefficients
    (Igrf.m_model
       (Igrf.initializeModel (Calendar.make 2002 1) (Igrf.of_model_set mid_table)).2) !! 0
  = Some (-29600)%float /\
  (Model.coefficients mid_2000 !!! 0%nat
   + spec_fraction (Calendar.make 2002 1) (Model.epoch mid_2000) (Calendar.make 2005 1)
     * (Model.coefficients (dipole 2005 ModelType.Igrf (-29000)) !!! 0%nat
        - Model.coefficients mid_2000 !!! 0%nat))%float
  = (-29666.666666666668)%float /\
  ((-29600) =? (-29666.666666666668))%float = false.
Proof.
  split; [vm_compute; reflexivity |]. split; [vm_compute; reflexivity |].
  split; [vm_compute; reflexivity | reflexivity].
Qed.

(** Blending at the epoch of a snapshot of July 2000 moves its first
    coefficient from -30000 to -29900. *)
Lemma blend_at_mid_year_epoch :
  Model.coefficients mid_2000 !!! 0 = (-30000)%float /\
  Model.coefficients
    (Igrf.interpolateModel (Model.epoch mid_2000) mid_2000
       (dipole 2005 ModelType.Igrf (-29000)) Model.default) !!! 0
  = (-29900)%float /\
  ~ Double.same
      (Model.coefficients
         (Igrf.interpolateModel (Model.epoch mid_2000) mid_2000
            (dipole 2005 ModelType.Igrf (-29000)) Model.default) !!! 0)
      (Model.coefficients mid_2000 !!! 0).
Proof.
  assert (H1 : Model.coefficients mid_2000 !!! 0 = (-30000)%float)
    by (vm_compute; reflexivity).
  assert (H2 : Model.coefficients
                 (Igrf.interpolateModel (Model.epoch mid_2000) mid_2000
                    (dipole 2005 ModelType.Igrf (-29000)) Model.default) !!! 0
               = (-29900)%float) by (vm_compute; reflexivity).
  split; [exact H1 | split; [exact H2 |]].
  rewrite H1, H2. intros [E | [E _]].
  - apply (f_equal (fun x => PrimFloat.eqb x (-30000))) in E.
    vm_compute in E. discriminate E.
  - vm_compute in E. discriminate E.
Qed.

Lemma blend_at_own_epoch_of_2000 :
  dt_fractionalYears (Model.epoch (dipole 2000 ModelType.Dgrf (-30000)))
  = Double.of_int (dt_year (Model.epoch (dipole 2000 ModelType.Dgrf (-30000)))) /\
  Double.is_finite (dt_fractionalYears (Model.epoch (dipole 2000 ModelType.Dgrf (-30000))))
  = true /\
  Double.same
    (Model.coefficients
       (Igrf.interpolateModel (Calendar.make 2000 1) (dipole 2000 ModelType.Dgrf (-30000))
          (dipole 2005 ModelType.Igrf (-29000)) Model.default) !!! 0)
    (Model.coefficients (dipole 2000 ModelType.Dgrf (-30000)) !!! 0) /\
  Double.same
    (Model.coefficients
       (Igrf.extrapolateModel (Calendar.make 2000 1) (dipole 2000 ModelType.Dgrf (-30000))
          (dipole 2005 ModelType.Sv 10) Model.default) !!! 0)
    (Model.coefficients (dipole 2000 ModelType.Dgrf (-30000)) !!! 0).
Proof.
  assert (Hi : 0 < Model.max_coefficient_size)
    by (unfold Model.max_coefficient_size; simpl; lia).
  split; [reflexivity | split; [reflexivity |]]. split.
  - refine (proj1 (blend_at_own_epoch (dipole 2000 ModelType.Dgrf (-30000))
                     (dipole 2005 ModelType.Igrf (-29000)) Model.default 0
                     eq_refl Hi eq_refl eq_refl) _ _ _).
    + simpl. lia.
    + simpl. lia.
    + reflexivity.
  - refine (proj2 (blend_at_own_epoch (dipole 2000 ModelType.Dgrf (-30000))
                     (dipole 2005 ModelType.Sv 10) Model.default 0
                     eq_refl Hi eq_refl eq_refl) _).
    reflexivity.
Defined.

Lemma call_after_call_at_equator :
  (Igrf.call equator_2002 (Igrf.of_model_set dipole_table)).1 <> Undefined /\
  (Igrf.call (Wgs84 (Calendar.make 2007 1) 0 0 0)
     (Igrf.call equator_2002 (Igrf.of_model_set dipole_table)).2).1
  = (Igrf.call (Wgs84 (Calendar.make 2007 1) 0 0 0) (Igrf.of_model_set dipole_table)).1.
Proof.
  assert (Hdef : (Igrf.call equator_2002 (Igrf.of_model_set dipole_table)).1 <> Undefined).
  { pose proof call_at_equator as E.
    unfold dipole_engine in E. rewrite E. discriminate. }
  split; [exact Hdef |].
  exact (call_after_call dipole_table equator_2002 (Wgs84 (Calendar.make 2007 1) 0 0 0) Hdef).
Defined.

Lemma normalize_equator_with_series :
  sin 0 = 0%float /\ cos 0 = 1%float /\
  Igrf.normalize (Wgs84 (Calendar.make 2002 1) 0 0 0)
  = Returns (Igrf.normalized constant.wgs84_a 0 1 1 0).
Proof.
  split; [reflexivity |]. split; [reflexivity |].
  exact (normalize_equator (Calendar.make 2002 1) 0 eq_refl eq_refl).
Defined.

Lemma GeoMagFlux_in_Si_agrees_with_Igrf :
  (MagFluxUnit.Si = MagFluxUnit.Si \/ MagFluxUnit.Si = MagFluxUnit.Tesla \/
   MagFluxUnit.Si = MagFluxUnit.Mks \/ MagFluxUnit.Si = MagFluxUnit.Mksa) /\
  (GeoMagFlux.call equator_2002 (GeoMagFlux.of_model_set dipole_table MagFluxUnit.Si)).1
  = (Igrf.call equator_2002 (Igrf.of_model_set dipole_table)).1.
Proof.
  split; [left; reflexivity |].
  exact (proj1 (GeoMagFlux_tesla_agrees_with_Igrf dipole_table equator_2002 MagFluxUnit.Si
                  (or_introl eq_refl))).
Defined.

Lemma pole_factor_tilted_finite n m :
  (1 <= m)%Z -> (m <= n)%Z -> (n <= 13)%Z ->
  Double.is_finite
    (pole_factor tilted_coefficients 6371200 1 (replicate 13 1%float) (replicate 13 0%float)
       n m) = true.
Proof.
  intros H1 H2 H3.
  assert (Hall : forallb (fun n => forallb (fun m =>
      Double.is_finite (pole_factor tilted_coefficients
        6371200 1 (replicate 13 1%float) (replicate 13 0%float) (Z.of_nat n) (Z.of_nat m)))
        (seq 1 13)) (seq 1 13) = true) by (vm_compute; reflexivity).
  rewrite forallb_forall in Hall. specialize (Hall (Z.to_nat n)).
  rewrite in_seq in Hall. specialize (Hall ltac:(lia)).
  rewrite forallb_forall in Hall. specialize (Hall (Z.to_nat m)).
  rewrite in_seq in Hall. specialize (Hall ltac:(lia)).
  rewrite !Z2Nat.id in Hall by lia. exact Hall.
Qed.

Lemma pole_factor_tilted_h11 :
  pole_factor tilted_coefficients 6371200 1 (replicate 13 1%float) (replicate 13 0%float) 1 1
  = 4652.5%float.
Proof. vm_compute. reflexivity. Qed.

Lemma pole_azimuthal_component_of_tilted_dipole :
  Double.is_zero 0 = true /\
  pole_factor tilted_coefficients 6371200 1 (replicate 13 1%float) (replicate 13 0%float) 1 1
  = 4652.5%float /\
  (Double.is_zero (Igrf.Loop.b_p
       (Igrf.synthesize tilted_coefficients
          6371200 0 1 (replicate 13 1%float) (replicate 13 0%float))) = true /\
  Double.is_finite (Igrf.Loop.b_p
       (Igrf.synthesize tilted_coefficients
          6371200 0 1 (replicate 13 1%float) (replicate 13 0%float))) = true /\
  Double.is_nan (Igrf.Loop.b_p
       (Igrf.synthesize tilted_coefficients
          6371200 0 1 (replicate 13 1%float) (replicate 13 0%float))) = false) /\
  (Double.is_finite
     (pole_factor tilted_coefficients 0 1 (replicate 13 1%float) (replicate 13 0%float) 1 1)
   = false /\
   Double.is_nan (Igrf.Loop.b_p
       (Igrf.synthesize tilted_coefficients
          0 0 1 (replicate 13 1%float) (replicate 13 0%float))) = true).
Proof.
  split; [reflexivity |]. split; [exact pole_factor_tilted_h11 |].
  split.
  - exact (proj1 (proj2 (pole_azimuthal_component tilted_coefficients 6371200 0 1
                           (replicate 13 1%float) (replicate 13 0%float))
                    eq_refl (or_introl eq_refl))
             pole_factor_tilted_finite).
  - split; [reflexivity |].
    exact (proj2 (proj2 (pole_azimuthal_component tilted_coefficients 0 0 1
                           (replicate 13 1%float) (replicate 13 0%float))
                    eq_refl (or_introl eq_refl))
             1%Z 1%Z ltac:(lia) ltac:(lia) ltac:(lia) eq_refl).
Defined.

(** The north pole, with the values the C library returns at pi/2: the
    synthesis receives [sin_theta = 6.16e-17], not 0, so the loop divides by
    it and the east component is -4684.29 nT, where the closed form of the
    pole gives 0. *)
Lemma north_pole_divides_by_sin_theta :
  @Igrf.normalize Calendar.t libm_at_pole north_pole
  = Returns (Igrf.normalized 6356752.3142449996 1 6.1645015113035791e-17 1
               4.1267515566813455e-19) /\
  (6.1645015113035791e-17 =? 0)%float = false /\
  (@Igrf.updatePositionAndMag Calendar.t _ libm_at_pole north_pole
     (Igrf.of_model_set tilted_table)).1
  = Returns (vector3d (-1460.8153586364244) (-4684.2948901068121) 59211.501078823334) /\
  Igrf.Loop.b_p
    (Igrf.synthesize tilted_coefficients 6356752.3142449996 6.1645015113035791e-17 1
       (replicate 13 1%float) (replicate 13 0%float))
  = (-4684.2948901068121)%float /\
  Igrf.Loop.b_p
    (Igrf.synthesize tilted_coefficients 6356752.3142449996 0 1
       (replicate 13 1%float) (replicate 13 0%float))
  = 0%float.
Proof.
  split; [vm_compute; reflexivity |]. split; [reflexivity |].
  split; [vm_compute; reflexivity |]. split; vm_compute; reflexivity.
Qed.

(** ** The further properties on examples *)

Lemma epoch_of_word_range_2020_25 :
  find "-" "2020" = None /\
  ModelSet.epoch_of_word "2020-25" = Returns (Calendar.make 2025 1).
Proof.
  split; [reflexivity |].
  exact (epoch_of_word_range (DateTime := Calendar.t) "2020" "25" eq_refl).
Defined.

Lemma read_small_file : ModelSet.read small_file (ModelSet.make []) = Returns small_table.
Proof. vm_compute. reflexivity.
Qed.

Lemma read_model_row_appends_kinds :
  ModelSet.getModelFileRowType "c/s deg ord IGRF SV" = ModelFileRowType.ModelType /\
  ModelSet.read_line (ModelSet.m_models dipole_table, 0) "c/s deg ord IGRF SV"
  = Returns (ModelSet.m_models dipole_table
               ++ [Model.set_type ModelType.Igrf Model.default;
                   Model.set_type ModelType.Sv Model.default], 0).
Proof.
  split; [reflexivity |].
  exact (read_model_row_appends (ModelSet.m_models dipole_table, 0)
           "c/s deg ord IGRF SV" eq_refl).
Defined.

Lemma read_coefficient_row_stores_g10 :
  0 < Model.max_coefficient_size /\
  Forall (fun w => stod w <> Undefined) ["-29404.8"; "n/a"; "-29350.0"; "5.7"]%string /\
  ModelSet.read_coefficient_row (ModelSet.m_models dipole_table, 0)
    ["g"; "1"; "0"; "-29404.8"; "n/a"; "-29350.0"; "5.7"]%string
  = Returns ([with_coefficient 0 (dipole 2000 ModelType.Dgrf (-30000)) (-29404.8);
              with_coefficient 0 (dipole 2005 ModelType.Igrf (-29000)) (-29350);
              with_coefficient 0 (dipole 2010 ModelType.Sv 10) 5.7], 1).
Proof.
  assert (Hc : 0 < Model.max_coefficient_size) by (unfold Model.max_coefficient_size; cbn; lia).
  assert (Hd : Forall (fun w => stod w <> Undefined)
                 ["-29404.8"; "n/a"; "-29350.0"; "5.7"]%string)
    by (repeat constructor; discriminate).
  split; [exact Hc |]. split; [exact Hd |].
  exact (read_coefficient_row_stores (ModelSet.m_models dipole_table) 0
           "g" "1" "0" ["-29404.8"; "n/a"; "-29350.0"; "5.7"]%string Hc Hd).
Defined.

Lemma read_epoch_row_dates_of_three :
  Forall (fun w => ModelSet.epoch_of_word (DateTime := Calendar.t) w <> Undefined)
    ["g/h"; "n"; "m"; "1995.0"; "2015.0"; "2020-25"]%string /\
  ModelSet.read_epoch_row (ModelSet.m_models dipole_table, 7)
    ["g/h"; "n"; "m"; "1995.0"; "2015.0"; "2020-25"]%string
  = Returns ([Model.set_epoch (Calendar.make 1995 1) (dipole 2000 ModelType.Dgrf (-30000));
              Model.set_epoch (Calendar.make 2015 1) (dipole 2005 ModelType.Igrf (-29000));
              Model.set_epoch (Calendar.make 2025 1) (dipole 2010 ModelType.Sv 10)], 7).
Proof.
  assert (Hd : Forall (fun w => ModelSet.epoch_of_word (DateTime := Calendar.t) w <> Undefined)
                 ["g/h"; "n"; "m"; "1995.0"; "2015.0"; "2020-25"]%string)
    by (repeat constructor; discriminate).
  split; [exact Hd |].
  exact (read_epoch_row_dates (ModelSet.m_models dipole_table) 7 _ Hd).
Defined.

Lemma read_grows_the_table_from_a_file :
  ModelSet.read small_file (ModelSet.make []) = Returns small_table /\
  grown [] (ModelSet.m_models small_table).
Proof.
  split; [exact read_small_file |].
  exact (read_grows_the_table small_file (ModelSet.make []) small_table read_small_file).
Defined.

Lemma read_ignores_comment_lines_of_a_file :
  List.filter (fun l => negb (ignored l)) (getlines small_file)
  = List.filter (fun l => negb (ignored l)) (getlines small_file_bare) /\
  ModelSet.read small_file dipole_table = ModelSet.read small_file_bare dipole_table.
Proof.
  assert (Hf : List.filter (fun l => negb (ignored l))
                 (getlines small_file)
               = List.filter (fun l => negb (ignored l))
                   (getlines small_file_bare))
    by (vm_compute; reflexivity).
  split; [exact Hf |].
  exact (read_ignores_comment_lines small_file small_file_bare dipole_table Hf).
Defined.

Lemma read_coefficient_row_overflows_at_196 :
  Model.max_coefficient_size <= 196 /\
  stod "0.1" = Returns 0.1%float /\
  ModelSet.read_coefficient_row (ModelSet.m_models dipole_table, 196)
    ["g"; "14"; "0"; "0.1"]%string = Undefined.
Proof.
  assert (Hc : Model.max_coefficient_size <= 196) by (unfold Model.max_coefficient_size; cbn; lia).
  split; [exact Hc |]. split; [reflexivity |].
  exact (read_coefficient_row_overflows _ _ 196 "g" "14" "0" "0.1" 0.1%float [] Hc eq_refl).
Defined.

Lemma call_after_last_snapshot :
  (Igrf.call equator_2011 dipole_engine).1 = Throws "ModelSet: no model is found.".
Proof. vm_compute. reflexivity.
Qed.

Lemma call_throws_after_last_snapshot :
  (Igrf.call equator_2011 dipole_engine).1 = Throws "ModelSet: no model is found." /\
  (Igrf.call equator_2011 dipole_engine).2 = dipole_engine.
Proof.
  split; [exact call_after_last_snapshot |].
  destruct (call_throws equator_2011 dipole_engine _ call_after_last_snapshot)
    as [(E & _ & _) | [(_ & _ & Hs) | (E & _ & _)]];
    [discriminate E | exact Hs | discriminate E].
Defined.

Lemma call_after_queries_at_equator :
  Forall (fun q => (Igrf.call q (Igrf.of_model_set dipole_table)).1 <> Undefined)
    [equator_2002; equator_2011] /\
  (Igrf.call equator_2002
     (run_queries [equator_2002; equator_2011] (Igrf.of_model_set dipole_table))).1
  = (Igrf.call equator_2002 (Igrf.of_model_set dipole_table)).1.
Proof.
  assert (Hd : Forall (fun q => (Igrf.call q (Igrf.of_model_set dipole_table)).1 <> Undefined)
                 [equator_2002; equator_2011]).
  { repeat constructor.
    - pose proof call_at_equator as E. unfold dipole_engine in E. rewrite E. discriminate.
    - pose proof call_after_last_snapshot as E. unfold dipole_engine in E. rewrite E.
      discriminate. }
  split; [exact Hd |].
  exact (proj2 (proj2 (call_after_queries dipole_table _ equator_2002 Hd))).
Defined.

Lemma blend_of_unchanged_coefficient_g20 :
  Double.same
    (Model.coefficients
       (Igrf.interpolateModel (Calendar.make 2002 1) (dipole 2000 ModelType.Dgrf (-30000))
          (dipole 2005 ModelType.Igrf (-29000)) Model.default) !!! 3)
    0%float /\
  Double.same
    (Model.coefficients
       (Igrf.extrapolateModel (Calendar.make 2002 1) (dipole 2000 ModelType.Dgrf (-30000))
          (dipole 2005 ModelType.Igrf (-29000)) Model.default) !!! 3)
    0%float.
Proof.
  destruct (blend_of_unchanged_coefficient (Calendar.make 2002 1)
              (dipole 2000 ModelType.Dgrf (-30000)) (dipole 2005 ModelType.Igrf (-29000))
              Model.default 3 eq_refl ltac:(unfold Model.max_coefficient_size; cbn; lia))
    as [Hi He].
  split; [apply Hi | apply He]; reflexivity.
Defined.

Lemma setOutputUnit_then_call_in_gauss :
  has_array (GeoMagFlux.base (GeoMagFlux.of_model_set dipole_table MagFluxUnit.Si)) /\
  (GeoMagFlux.call equator_2002
     (GeoMagFlux.setOutputUnit MagFluxUnit.Gauss
        (GeoMagFlux.of_model_set dipole_table MagFluxUnit.Si))).1
  = (GeoMagFlux.call equator_2002 (GeoMagFlux.of_model_set dipole_table MagFluxUnit.Gauss)).1.
Proof.
  assert (Ha : has_array (GeoMagFlux.base (GeoMagFlux.of_model_set dipole_table MagFluxUnit.Si)))
    by reflexivity.
  split; [exact Ha |].
  exact (proj2 (setOutputUnit_then_call MagFluxUnit.Gauss equator_2002
                  (GeoMagFlux.of_model_set dipole_table MagFluxUnit.Si) Ha)).
Defined.

Lemma coefficient_array_packing_on_examples :
  ModelSet.of_stream small_file = Returns small_table /\
  Forall sized (ModelSet.m_models small_table) /\
  orders !! 1 = Some (1, 1)%Z /\
  Igrf.at_ tilted_coefficients (slot (Gauss.g 1 1)) = (-1450.9)%float /\
  Igrf.at_ tilted_coefficients (slot (Gauss.h 1 1)) = 4652.5%float /\
  sums (state_after tilted_coefficients 6371200 1 0
          (replicate 13 1%float) (replicate 13 0%float) 2)
  = accumulate 1 0 1 1 1 (-1450.9) 4652.5 1 0 1 0
      (sums (state_after tilted_coefficients 6371200 1 0
               (replicate 13 1%float) (replicate 13 0%float) 1)) /\
  sums (state_after tilted_coefficients 6371200 1 0
          (replicate 13 1%float) (replicate 13 0%float) 2)
  = ((-2901.8000000000002)%float, (-29404.8)%float, (-4652.5)%float).
Proof.
  pose proof (coefficient_array_packing (DateTime := Calendar.t))
    as (_ & Hsize & _ & Hturn & _ & _).
  destruct Hsize as (_ & _ & _ & Hread & _).
  split; [exact read_small_file |].
  split; [exact (Hread small_file small_table read_small_file) |].
  split; [reflexivity |]. split; [reflexivity |]. split; [reflexivity |].
  destruct (Hturn tilted_coefficients 6371200%float 1%float 0%float
              (replicate 13 1%float) (replicate 13 0%float)) as (_ & _ & Hj).
  destruct (Hj 1 1%Z 1%Z eq_refl) as (_ & _ & Hsum).
  split; [| vm_compute; reflexivity].
  rewrite Hsum. vm_compute. reflexivity.
Defined.
